(** * VOYO track-classification engine: a shallow embedding

    The development follows three scripts of the repository:

    - [scripts/canonizer_v4.py]   (module [V4]): content-type detection,
      cultural-tag detection, pattern classification, the hybrid merge and
      the view-percentile pass;
    - [scripts/canonizer.py]      (module [V1]): the legacy tier resolver,
      canon level, capped tag detection and [classify_track];
    - [scripts/enrichment/build_artist_master.py] (module [ArtistMaster]):
      the cultural-icon table that carries default tags.

    Modelling conventions.

    - A Python [str] is a [string] (a sequence of 8-bit characters).  On
      ASCII text the operations below coincide with Python's; case folding
      and the white-space class of non-ASCII characters are not modelled.
    - Python [int] is [Z].  A Python [float] is an IEEE 754 binary64
      number; a finite one is modelled by the rational [Q] it denotes, and
      [==] on numbers is [Qeq].  The view-percentile pass, whose stored
      value depends on it, rounds every operation to binary64 (module
      [PyFloat]).  The sub-scores are small integers and the confidence
      values are compared by inequalities only; their sums and means are
      kept exact.
    - A [set] of names is a duplicate-free [list]; the code only asks
      membership and existence questions of its sets, so the iteration order
      is immaterial (proved for the one place where the legacy code slices a
      set).  A [dict] literal that is iterated is an association list in
      source order (Python dictionaries keep insertion order).
    - Enumerations the code writes as string constants stay strings. *)

From Stdlib Require Import Bool List String Ascii ZArith QArith Qround Lia Lqa.
From Stdlib Require Import Qabs Qpower.
From Stdlib Require Import Sorting.Permutation Sorting.Sorted.
From Stdlib Require Floats.SpecFloat.
Import ListNotations.

Open Scope string_scope.
Open Scope Z_scope.

(* ================================================================= *)
(** ** Python string primitives *)

Module PyStr.

(** [c.lower()] on one ASCII character. *)
Definition lower_ascii (c : ascii) : ascii :=
  let n := nat_of_ascii c in
  if (Nat.leb 65 n && Nat.leb n 90)%bool then ascii_of_nat (n + 32) else c.

(** [s.lower()]. *)
Fixpoint lower (s : string) : string :=
  match s with
  | EmptyString => EmptyString
  | String c s' => String (lower_ascii c) (lower s')
  end.

(** [sub in text]: substring test; the empty string is in every string. *)
Fixpoint str_in (sub text : string) : bool :=
  (String.prefix sub text ||
   match text with
   | EmptyString => false
   | String _ text' => str_in sub text'
   end)%bool.

(** [any(k in text for k in keywords)]. *)
Definition any_in (keywords : list string) (text : string) : bool :=
  existsb (fun k => str_in k text) keywords.

(** [x in xs] for a set or list of strings. *)
Definition mem (x : string) (xs : list string) : bool :=
  existsb (String.eqb x) xs.

(** White space as [str.isspace] and the regex class [\s] see it (ASCII). *)
Definition is_space (c : ascii) : bool :=
  let n := nat_of_ascii c in
  ((Nat.leb 9 n && Nat.leb n 13) || (Nat.leb 28 n && Nat.leb n 32))%bool.

Definition is_lower_alnum (c : ascii) : bool :=
  let n := nat_of_ascii c in
  ((Nat.leb 97 n && Nat.leb n 122) || (Nat.leb 48 n && Nat.leb n 57))%bool.

Fixpoint filter_chars (keep : ascii -> bool) (s : string) : string :=
  match s with
  | EmptyString => EmptyString
  | String c s' =>
      if keep c then String c (filter_chars keep s') else filter_chars keep s'
  end.

Fixpoint lstrip (s : string) : string :=
  match s with
  | EmptyString => EmptyString
  | String c s' => if is_space c then lstrip s' else s
  end.

(** Right strip: a character is dropped when it is white space and
    everything after it has been dropped. *)
Fixpoint rstrip (s : string) : string :=
  match s with
  | EmptyString => EmptyString
  | String c s' =>
      match rstrip s' with
      | EmptyString => if is_space c then EmptyString else String c EmptyString
      | r => String c r
      end
  end.

(** [s.strip()]. *)
Definition strip (s : string) : string := rstrip (lstrip s).

(** The f-string ["{a} {b}"]. *)
Definition join2 (a b : string) : string := a ++ " " ++ b.

(** The f-string ["{a} {b} {c}"]. *)
Definition join3 (a b c : string) : string := a ++ " " ++ b ++ " " ++ c.

(** The tag loop of both [detect_cultural_tags] generations over a
    keyword dictionary: append every tag one of whose keywords occurs in
    the text (the legacy inner loop appends and [break]s at the first
    keyword found, which is the same test). *)
Fixpoint scan_tags (dict : list (string * list string)) (text : string)
  : list string :=
  match dict with
  | [] => []
  | (tag, keywords) :: dict' =>
      if any_in keywords text then tag :: scan_tags dict' text
      else scan_tags dict' text
  end.

(** Declarative substring relation, the specification of [str_in]. *)
Definition Substring (sub text : string) : Prop :=
  exists pre post, text = pre ++ sub ++ post.

End PyStr.

Import PyStr.

(* ================================================================= *)
(** ** Python float arithmetic *)

(** A finite binary64 number is the rational it denotes.  An arithmetic
    operation returns the exact result rounded to the nearest binary64
    number, ties to the even significand (IEEE 754 round-to-nearest-even,
    which CPython's [int / int], [float * float] and string-to-float
    conversion all implement).  Results beyond the binary64 range do not
    occur in the code modelled here (no value exceeds 100), so infinities
    are left out. *)
Module PyFloat.

Local Open Scope Q_scope.

(** Round to the nearest integer, ties to even. *)
Definition round_half_even (q : Q) : Z :=
  let f := Qfloor q in
  match (q - inject_Z f ?= 1 # 2)%Q with
  | Lt => f
  | Gt => (f + 1)%Z
  | Eq => if Z.even f then f else (f + 1)%Z
  end.

Definition pow2 (k : Z) : Q := 2 ^ k.

(** The binary exponent of a positive rational: [2^e <= q < 2^(e+1)]. *)
Definition ilog2 (q : Q) : Z :=
  let d := (Z.log2 (Qnum q) - Z.log2 (Zpos (Qden q)))%Z in
  if Qle_bool (pow2 d) q then d else (d - 1)%Z.

(** The exponent of the unit in the last place: 53 significant bits, and
    not below the subnormal spacing [2^-1074]. *)
Definition ulp_exponent (q : Q) : Z := Z.max (ilog2 (Qabs q) - 52) (-1074).

(** The binary64 number nearest to [q], ties to even, in lowest terms. *)
Definition binary64 (q : Q) : Q :=
  let k := ulp_exponent q in
  Qred (inject_Z (round_half_even (q / pow2 k)) * pow2 k).

(** [a / b] on two [int]s (true division, correctly rounded). *)
Definition truediv (a b : Z) : Q := binary64 (inject_Z a / inject_Z b).

(** [x * y] on floats. *)
Definition mul (x y : Q) : Q := binary64 (x * y).

End PyFloat.

(* ================================================================= *)
(** ** canonizer_v4.py *)

Module V4.

(** *** Data classes *)

Record PopularityScore := mkPopularity {
  pop_view_count : Z;
  pop_percentile : Q;
  pop_velocity   : Q
}.

Record CulturalScore := mkCultural {
  historical     : Q;
  social         : Q;
  diasporic      : Q;
  preservational : Q;
  cultural_overall : Q
}.

Record AestheticScore := mkAesthetic {
  innovation : Q;
  craft      : Q;
  influence  : Q;
  aesthetic_overall : Q
}.

Record AccessibilityScore := mkAccessibility {
  mainstream  : Q;
  specialist  : Q;
  educational : Q
}.

(** [CanonScore]; the temporal fields ([release_year], [era],
    [timelessness]) and [confidence] are independent outputs that no
    property below refers to and are left out. *)
Record CanonScore := mkCanonScore {
  popularity            : PopularityScore;
  cultural_significance : CulturalScore;
  aesthetic_merit       : AestheticScore;
  accessibility         : AccessibilityScore;
  final_tier            : string;
  final_canon_level     : string;
  classified_by         : string;
  content_type          : string;
  cultural_tags         : list string;
  aesthetic_tags        : list string
}.

(** *** Curated tables *)

Definition TIER_A_ARTISTS : list string := [
  "burna boy"; "wizkid"; "davido"; "tiwa savage"; "rema"; "asake";
  "tems"; "ckay"; "ayra starr"; "fireboy dml"; "omah lay"; "joeboy";
  "olamide"; "yemi alade"; "mr eazi"; "tekno"; "kizz daniel";
  "patoranking"; "wande coal"; "don jazzy"; "2baba"; "phyno"; "flavour";
  "adekunle gold"; "simi"; "falz"; "ladipoe"; "blaqbonez"; "oxlade";
  "fela kuti"; "femi kuti"; "made kuti"; "seun kuti";
  "black coffee"; "master kg"; "dj maphorisa"; "kabza de small";
  "cassper nyovest"; "nasty c"; "aka"; "sjava"; "sho madjozi"; "makhadzi";
  "focalistic"; "uncle waffles"; "dj zinhle"; "miriam makeba";
  "tyla"; "dbn gogo"; "lady du"; "young stunna"; "major league djz";
  "sarkodie"; "stonebwoy"; "shatta wale"; "black sherif"; "king promise";
  "r2bees"; "kwesi arthur"; "kuami eugene"; "kidi"; "efya"; "becca";
  "gyakie"; "amaarae"; "darkovibes"; "joey b"; "e.l";
  "diamond platnumz"; "sauti sol"; "harmonize"; "rayvanny"; "ali kiba";
  "zuchu"; "mbosso"; "nandy"; "vanessa mdee"; "jux"; "alikiba";
  "nyashinski"; "khaligraph jones"; "otile brown"; "nviiri"; "bien";
  "eddy kenzo"; "jose chameleone"; "bebe cool";
  "fally ipupa"; "koffi olomide"; "ferre gola"; "innoss b"; "werrason";
  "papa wemba"; "awilo longomba"; "lokua kanza"; "heritier watanabe";
  "youssou ndour"; "salif keita"; "angelique kidjo"; "manu dibango";
  "magic system"; "dj arafat"; "serge beynaud"; "toofan";
  "oumou sangare"; "amadou & mariam"; "tinariwen";
  "damso"; "gims"; "maitre gims"; "niska"; "aya nakamura"; "dadju";
  "beyonce"; "beyoncÃ©"; "rihanna"; "drake"; "kendrick lamar";
  "jay-z"; "jay z"; "kanye west"; "the weeknd"; "sza"; "doja cat";
  "cardi b"; "nicki minaj"; "future"; "j cole"; "j. cole";
  "frank ocean"; "childish gambino"; "bruno mars"; "usher";
  "michael jackson"; "prince"; "stevie wonder"; "marvin gaye";
  "bob marley"; "sean paul"; "shaggy"; "vybz kartel"; "popcaan"; "spice";
  "chronixx"; "koffee"; "protoje"; "damian marley"; "buju banton";
  "stormzy"; "dave"; "skepta"; "wiley"; "j hus"; "central cee"; "jorja smith";
  "little simz"; "headie one"; "kano";
  "anitta"; "ludmilla"; "iza"; "seu jorge"; "gilberto gil";
  "king sunny ade"; "ebenezer obey"; "chief commander ebenezer obey";
  "oliver de coque"; "osadebe"; "chief osita osadebe";
  "franco luambo"; "tabu ley rochereau"; "sam mangwana";
  "bembeya jazz"; "orchestra baobab"; "rail band"
].

Definition TIER_B_ARTISTS : list string := [
  "portable"; "seyi vibez"; "zinoleesky"; "naira marley"; "mohbad";
  "bella shmurda"; "lil kesh"; "ycee"; "reekado banks"; "dice ailes";
  "peruzzi"; "zlatan"; "mayorkun"; "dremo"; "teni"; "niniola";
  "ruger"; "buju"; "bnxn"; "magixx"; "lojay"; "victony";
  "a-reece"; "emtee"; "shane eagle"; "kwesta"; "blxckie"; "costa titch";
  "25k"; "rouge"; "nadia nakai"; "boity"; "moozlie";
  "samthing soweto"; "sun-el musician"; "zakes bantwini"; "mi casa";
  "medikal"; "strongman"; "kofi kinaata"; "fameye"; "kofi mole";
  "yaw tog"; "o'kenneth"; "jay bahd"; "city boy"; "kweku flick";
  "tanasha donna"; "willy paul"; "bahati"; "akothee"; "size 8";
  "arrow bwoy"; "mejja"; "trio mio"; "ssaru"; "femi one";
  "booba"; "pnl"; "ninho"; "jul"; "lacrim"; "kaaris";
  "mhd"; "gradur"; "keblack"; "dadju"; "soolking"
].

(** One row of [CULTURAL_ICONS]: the four sub-scores of an icon. *)
Record IconScores := mkIcon {
  icon_historical     : Q;
  icon_social         : Q;
  icon_diasporic      : Q;
  icon_preservational : Q
}.

Definition CULTURAL_ICONS : list (string * IconScores) := [
  ("fela kuti",               mkIcon 5 5 5 5);
  ("miriam makeba",           mkIcon 5 5 5 4);
  ("bob marley",              mkIcon 5 5 5 4);
  ("youssou ndour",           mkIcon 4 4 4 5);
  ("salif keita",             mkIcon 4 3 4 5);
  ("king sunny ade",          mkIcon 5 3 4 5);
  ("papa wemba",              mkIcon 4 3 4 5);
  ("franco luambo",           mkIcon 5 4 3 5);
  ("bembeya jazz",            mkIcon 5 5 3 5);
  ("angelique kidjo",         mkIcon 4 4 5 4);
  ("hugh masekela",           mkIcon 5 5 4 4);
  ("brenda fassie",           mkIcon 4 4 3 4);
  ("ladysmith black mambazo", mkIcon 4 3 4 5)
]%Q.

(** Dictionary lookup [d[k]] / [k in d] on an association list. *)
Fixpoint lookup {A} (k : string) (d : list (string * A)) : option A :=
  match d with
  | [] => None
  | (k', v) :: d' => if String.eqb k k' then Some v else lookup k d'
  end.

(** *** Content-type detection *)

Definition live_indicators : list string := [
  "live"; "concert"; "performance"; "tiny desk"; "colors show";
  "colors studios"; "a colors show"; "glitch"; "vevo lift";
  "sessions"; "live session"; "acoustic session"; "on the lot";
  "from studio"; "live at"; "in studio"; "sofar sounds" ].

Definition remix_indicators : list string :=
  [ "remix"; "rmx"; "refix"; "bootleg"; "flip"; "edit" ].

Definition dj_mix_indicators : list string := [
  "mix"; "set"; "dj set"; "boiler room"; "essential mix";
  "radio show"; "takeover"; "guest mix"; "residency";
  "club set"; "festival set"; "b2b" ].

Definition known_dj_tokens : list string :=
  [ "dj"; "black coffee"; "uncle waffles"; "major league" ].

Definition compilation_indicators : list string := [
  "compilation"; "playlist"; "best of"; "greatest hits";
  "top 10"; "top 20"; "top 50"; "top 100"; "non stop";
  "nonstop"; "mix 2024"; "mix 2025"; "hours of" ].

Definition cover_indicators : list string :=
  [ "cover"; "rendition"; "tribute"; "version by" ].

Definition instrumental_indicators : list string := [
  "instrumental"; "beat"; "karaoke"; "backing track";
  "prod by"; "prod."; "type beat"; "free beat" ].

Definition slowed_indicators : list string :=
  [ "slowed"; "reverb"; "chopped"; "screwed" ].

Definition acoustic_indicators : list string :=
  [ "acoustic"; "unplugged"; "stripped" ].

Definition extended_indicators : list string :=
  [ "extended"; "club mix"; "radio edit" ].

Definition detect_content_type (title artist channel : string) : string :=
  let text := lower (join3 title artist channel) in
  if any_in live_indicators text then "live"
  else if any_in remix_indicators text then "remix"
  else if (any_in dj_mix_indicators text
           && any_in known_dj_tokens (lower artist))%bool then "dj_mix"
  else if any_in compilation_indicators text then "playlist_channel"
  else if any_in cover_indicators text then "cover"
  else if any_in instrumental_indicators text then "instrumental"
  else if any_in slowed_indicators text then "slowed"
  else if any_in acoustic_indicators text then "acoustic"
  else if any_in extended_indicators text then "extended"
  else "original".

(** *** Cultural-tag detection *)

Definition CULTURAL_TAG_KEYWORDS : list (string * list string) := [
  ("anthem", ["anthem"; "national"; "independence"; "unity"; "movement"; "giant"]);
  ("revolution", ["revolution"; "change"; "fight"; "power"; "system"; "struggle"]);
  ("liberation", ["freedom"; "free"; "liberation"; "emancipation"; "chains"]);
  ("protest", ["protest"; "injustice"; "police"; "government"; "corruption"; "sars"; "endsars"]);
  ("tradition", ["traditional"; "heritage"; "ancestors"; "elders"; "culture"]);
  ("roots", ["roots"; "origin"; "motherland"; "home"; "village"; "homeland"]);
  ("motherland", ["africa"; "mama africa"; "motherland"; "continent"]);
  ("pan-african", ["pan-african"; "united africa"; "one africa"; "together"]);
  ("diaspora", ["diaspora"; "abroad"; "immigrant"; "overseas"; "foreign"]);
  ("migration", ["migrate"; "journey"; "leaving"; "travel"; "crossing"; "japa"]);
  ("homecoming", ["return"; "coming back"; "welcome home"; "finally home"]);
  ("bridge", ["bridge"; "connect"; "fusion"; "blend"; "unite"]);
  ("street", ["street"; "hood"; "block"; "corner"; "trap"; "ghetto"]);
  ("ghetto", ["ghetto"; "slum"; "struggle"; "poverty"; "survive"]);
  ("survival", ["survive"; "struggle"; "make it"; "overcome"; "hustle"]);
  ("wedding", ["wedding"; "marriage"; "bride"; "ceremony"; "iyawo"]);
  ("festival", ["festival"; "party"; "carnival"; "celebration"]);
  ("celebration", ["celebrate"; "joy"; "happy"; "party"; "dance"]);
  ("spiritual", ["spirit"; "soul"; "divine"; "god"; "faith"]);
  ("prayer", ["prayer"; "pray"; "lord"; "worship"; "hallelujah"]);
  ("healing", ["heal"; "restoration"; "peace"; "calm"; "recover"])
].

Definition detect_cultural_tags (text : string) : list string :=
  scan_tags CULTURAL_TAG_KEYWORDS (lower text).

(** *** Pattern-based classification *)

(** An input track as fetched: absent [title], [artist] and
    [channel_title] read as the empty string, [view_count] may be absent
    or null. *)
Record Track := mkTrack {
  title         : string;
  artist        : string;
  channel_title : string;
  view_count    : option Z
}.

(** [track.get('view_count', 0) or 0]. *)
Definition or0 (v : option Z) : Z :=
  match v with
  | Some n => n
  | None => 0
  end.

(** [re.sub(r'[^a-z0-9\s]', '', artist).strip()]. *)
Definition normalize_artist (artist : string) : string :=
  strip (filter_chars (fun c => (is_lower_alnum c || is_space c)%bool) artist).

(** [any(known in artist or artist in known for known in names)]: the
    loops of the partial-match pass set the tier and [break]. *)
Definition partial_match (names : list string) (artist : string) : bool :=
  existsb (fun known => (str_in known artist || str_in artist known)%bool) names.

(** The "check known artists" block: the tier together with the
    [aesthetic.craft] and [aesthetic.influence] it assigns. *)
Definition known_artist_tier (artist artist_normalized : string)
  : string * (Q * Q) :=
  if (mem artist_normalized TIER_A_ARTISTS || any_in TIER_A_ARTISTS artist)%bool
  then ("A", (4%Q, 3%Q))
  else if (mem artist_normalized TIER_B_ARTISTS || any_in TIER_B_ARTISTS artist)%bool
  then ("B", (3%Q, 2%Q))
  else
    let tier := "D" in
    let tier := if partial_match TIER_A_ARTISTS artist then "A" else tier in
    let tier := if partial_match TIER_B_ARTISTS artist then "B" else tier in
    (tier, (0%Q, 0%Q)).

(** The canon-level decision on tier and views (lines 562-597). *)
Definition canon_level_for (tier : string) (views : Z) : string :=
  if String.eqb tier "A" then
    if views >? 100000000 then "CORE"
    else if views >? 10000000 then "ESSENTIAL"
    else if views >? 1000000 then "DEEP_CUT"
    else "ESSENTIAL"
  else if String.eqb tier "B" then
    if views >? 50000000 then "CORE"
    else if views >? 5000000 then "ESSENTIAL"
    else if views >? 500000 then "DEEP_CUT"
    else "DEEP_CUT"
  else if String.eqb tier "C" then
    if views >? 10000000 then "ESSENTIAL"
    else if views >? 1000000 then "DEEP_CUT"
    else "ARCHIVE"
  else
    if views >? 5000000 then "DEEP_CUT"
    else if views >? 100000 then "ARCHIVE"
    else "ECHO".

Definition accessibility_for (tier : string) : AccessibilityScore :=
  if String.eqb tier "A" then mkAccessibility 4 2 3
  else if String.eqb tier "B" then mkAccessibility 3 3 3
  else mkAccessibility 2 4 4.

Definition aesthetic_tags_for (tier : string) (views : Z)
    (content : string) (tags : list string) : list string :=
  (if String.eqb tier "A"
   then "influential" :: (if views >? 100000000 then ["timeless"] else [])
   else [])
  ++ (if String.eqb content "live" then ["virtuosic"] else [])
  ++ (if existsb (fun t => mem t tags) ["revolution"; "liberation"; "protest"]
      then ["lyricism"] else []).

Definition classify_with_patterns (track : Track) : CanonScore :=
  let title := lower (title track) in
  let artist := lower (artist track) in
  let channel := lower (channel_title track) in
  let artist_normalized := normalize_artist artist in
  let popularity := mkPopularity (or0 (view_count track)) 0 0 in
  (* check known artists *)
  let '(tier, (craft, influence)) := known_artist_tier artist artist_normalized in
  let innovation := 0%Q in
  (* cultural icons *)
  let '(tier, (h, s, d, p)) :=
    match lookup artist_normalized CULTURAL_ICONS with
    | Some sc => ("A", (icon_historical sc, icon_social sc,
                        icon_diasporic sc, icon_preservational sc))
    | None => (tier, (0%Q, 0%Q, 0%Q, 0%Q))
    end in
  let content_type := detect_content_type title artist channel in
  let cultural_tags := detect_cultural_tags (join2 title artist) in
  let views := pop_view_count popularity in
  let canon_level := canon_level_for tier views in
  let accessibility := accessibility_for tier in
  let cultural := mkCultural h s d p ((h + s + d + p) / 4) in
  let aesthetic :=
    mkAesthetic innovation craft influence ((innovation + craft + influence) / 3) in
  let aesthetic_tags := aesthetic_tags_for tier views content_type cultural_tags in
  mkCanonScore popularity cultural aesthetic accessibility
               tier canon_level "pattern" content_type
               cultural_tags aesthetic_tags.

(** *** Hybrid classification *)

(** The external classification object, at the schema the prompt asks
    for; every key may be absent. *)
Record LlmCultural := mkLlmCultural {
  llm_historical     : option Q;
  llm_social         : option Q;
  llm_diasporic      : option Q;
  llm_preservational : option Q
}.

Record LlmAesthetic := mkLlmAesthetic {
  llm_innovation : option Q;
  llm_craft      : option Q;
  llm_influence  : option Q
}.

Record LlmResult := mkLlmResult {
  llm_track_number          : option Z;
  llm_artist_tier           : option string;
  llm_canon_level           : option string;
  llm_cultural_significance : option LlmCultural;
  llm_aesthetic_merit       : option LlmAesthetic;
  llm_cultural_tags         : option (list string);
  llm_aesthetic_tags        : option (list string);
  llm_reasoning             : option string
}.

Definition is_some {A} (o : option A) : bool :=
  match o with Some _ => true | None => false end.

(** Truth value of the dictionary in [if llm_result:] (an empty
    dictionary is false). *)
Definition llm_truthy (l : LlmResult) : bool :=
  (is_some (llm_track_number l) || is_some (llm_artist_tier l)
   || is_some (llm_canon_level l) || is_some (llm_cultural_significance l)
   || is_some (llm_aesthetic_merit l) || is_some (llm_cultural_tags l)
   || is_some (llm_aesthetic_tags l) || is_some (llm_reasoning l))%bool.

(** [d.get(key, default)]. *)
Definition get_or {A} (o : option A) (default : A) : A :=
  match o with Some v => v | None => default end.

(** [list(set(a + b))]; Python leaves the order of the result
    unspecified, the model keeps one representative order. *)
Definition union_tags (a b : list string) : list string :=
  nodup string_dec (a ++ b).

(** The classification record [classify_track] returns (the echoed
    identification fields and the temporal fields are left out, as in
    [CanonScore]). *)
Record Result := mkResult {
  r_tier            : string;
  r_canon_level     : string;
  r_content_type    : string;
  r_view_count      : Z;
  r_view_percentile : Q;
  r_cultural        : CulturalScore;
  r_aesthetic       : AestheticScore;
  r_accessibility   : AccessibilityScore;
  r_cultural_tags   : list string;
  r_aesthetic_tags  : list string;
  r_classified_by   : string;
  r_is_echo         : bool
}.

Definition pattern_result (ps : CanonScore) : Result :=
  mkResult (final_tier ps) (final_canon_level ps) (content_type ps)
           (pop_view_count (popularity ps)) (pop_percentile (popularity ps))
           (cultural_significance ps) (aesthetic_merit ps) (accessibility ps)
           (cultural_tags ps) (aesthetic_tags ps) (classified_by ps)
           (String.eqb (final_canon_level ps) "ECHO").

Definition merge_cultural (cs : CulturalScore) (o : option LlmCultural)
  : CulturalScore :=
  match o with
  | None => cs
  | Some l =>
      mkCultural (get_or (llm_historical l) (historical cs))
                 (get_or (llm_social l) (social cs))
                 (get_or (llm_diasporic l) (diasporic cs))
                 (get_or (llm_preservational l) (preservational cs))
                 (cultural_overall cs)
  end.

Definition merge_aesthetic (am : AestheticScore) (o : option LlmAesthetic)
  : AestheticScore :=
  match o with
  | None => am
  | Some l =>
      mkAesthetic (get_or (llm_innovation l) (innovation am))
                  (get_or (llm_craft l) (craft am))
                  (get_or (llm_influence l) (influence am))
                  (aesthetic_overall am)
  end.

Definition merge_tags (tags : list string) (o : option (list string))
  : list string :=
  match o with
  | None => tags
  | Some extra => union_tags tags extra
  end.

Definition merge_llm (result : Result) (l : LlmResult) : Result :=
  let canon := get_or (llm_canon_level l) (r_canon_level result) in
  mkResult (get_or (llm_artist_tier l) (r_tier result))
           canon
           (r_content_type result)
           (r_view_count result)
           (r_view_percentile result)
           (merge_cultural (r_cultural result) (llm_cultural_significance l))
           (merge_aesthetic (r_aesthetic result) (llm_aesthetic_merit l))
           (r_accessibility result)
           (merge_tags (r_cultural_tags result) (llm_cultural_tags l))
           (merge_tags (r_aesthetic_tags result) (llm_aesthetic_tags l))
           "hybrid"
           (String.eqb canon "ECHO").

Definition classify_track (track : Track) (llm_result : option LlmResult)
  : Result :=
  let result := pattern_result (classify_with_patterns track) in
  match llm_result with
  | Some l => if llm_truthy l then merge_llm result l else result
  | None => result
  end.

(** *** View percentiles *)

Fixpoint insert_sorted (x : Z) (l : list Z) : list Z :=
  match l with
  | [] => [x]
  | y :: l' => if x <=? y then x :: l else y :: insert_sorted x l'
  end.

(** The builtin [sorted] on integers. *)
Fixpoint sorted (l : list Z) : list Z :=
  match l with
  | [] => []
  | x :: l' => insert_sorted x (sorted l')
  end.

(** [sum(1 for x in xs if x <= v)]. *)
Definition count_le (xs : list Z) (v : Z) : Z :=
  Z.of_nat (List.length (filter (fun x => x <=? v) xs)).

(** The inner function [get_percentile]: [(count / len(views_sorted)) *
    100] is an [int / int] division followed by a float product, each
    rounded to binary64. *)
Definition get_percentile (views_sorted : list Z) (v : Z) : Q :=
  match views_sorted with
  | [] => 0
  | _ => PyFloat.mul
           (PyFloat.truediv (count_le views_sorted v)
                            (Z.of_nat (List.length views_sorted)))
           100
  end.

(** [round(x, 2)] on a float: the exact value of [x] is rounded to two
    decimal places, ties to even, and the resulting decimal is converted
    back to the nearest binary64 number. *)
Definition round2 (x : Q) : Q :=
  PyFloat.binary64 (inject_Z (PyFloat.round_half_even (x * 100)) / 100).

Definition set_view_percentile (t : Result) (p : Q) : Result :=
  mkResult (r_tier t) (r_canon_level t) (r_content_type t) (r_view_count t)
           p (r_cultural t) (r_aesthetic t) (r_accessibility t)
           (r_cultural_tags t) (r_aesthetic_tags t) (r_classified_by t)
           (r_is_echo t).

(** [calculate_view_percentiles] on the records of a batch; each record
    carries an integer [view_count], so [t.get('view_count', 0) or 0] is
    that integer. *)
Definition calculate_view_percentiles (tracks : list Result) : list Result :=
  let views := map r_view_count tracks in
  let views_sorted := sorted views in
  map (fun t =>
         set_view_percentile t
           (round2 (get_percentile views_sorted (r_view_count t))))
      tracks.

End V4.

(* ================================================================= *)
(** ** canonizer.py (the legacy classifier) *)

Module V1.

(** The set literal names ['chris brown'] twice; a set holds it once. *)
Definition TIER_A_ARTISTS : list string := [
  "burna boy"; "wizkid"; "davido"; "tiwa savage"; "fela kuti"; "rema";
  "tems"; "ckay"; "ayra starr"; "asake"; "fireboy dml"; "olamide";
  "yemi alade"; "mr eazi"; "tekno"; "kizz daniel"; "joeboy"; "omah lay";
  "patoranking"; "wande coal"; "don jazzy"; "2baba"; "phyno"; "flavour";
  "black coffee"; "master kg"; "dj maphorisa"; "kabza de small"; "miriam makeba";
  "cassper nyovest"; "nasty c"; "aka"; "sjava"; "sho madjozi"; "makhadzi";
  "amapiano"; "focalistic"; "uncle waffles"; "dj zinhle";
  "sarkodie"; "stonebwoy"; "shatta wale"; "black sherif"; "king promise";
  "r2bees"; "kwesi arthur"; "kuami eugene"; "kidi"; "efya"; "becca";
  "diamond platnumz"; "sauti sol"; "harmonize"; "rayvanny"; "ali kiba";
  "zuchu"; "mbosso"; "nandy"; "alikiba"; "vanessa mdee"; "jux";
  "nyashinski"; "khaligraph jones"; "otile brown"; "nviiri"; "bien";
  "fally ipupa"; "koffi olomide"; "ferre gola"; "innoss b"; "werrason";
  "papa wemba"; "awilo longomba"; "lokua kanza";
  "youssou ndour"; "salif keita"; "angelique kidjo"; "manu dibango";
  "magic system"; "dj arafat"; "serge beynaud"; "toofan"; "fanicko";
  "rosny kayiba"; "amy koita"; "oumou sangare";
  "drake"; "beyonce"; "rihanna"; "chris brown"; "kendrick lamar";
  "jay-z"; "kanye west"; "travis scott"; "the weeknd"; "sza"; "doja cat";
  "megan thee stallion"; "cardi b"; "nicki minaj"; "future"; "lil baby";
  "gunna"; "young thug"; "j cole"; "21 savage"; "tyler the creator";
  "frank ocean"; "childish gambino"; "bruno mars"; "usher";
  "michael jackson"; "prince"; "stevie wonder"; "marvin gaye"; "aretha franklin";
  "bob marley"; "sean paul"; "shaggy"; "vybz kartel"; "popcaan"; "spice";
  "alkaline"; "chronixx"; "koffee"; "protoje"; "damian marley"; "buju banton";
  "beenie man"; "bounty killer"; "sizzla";
  "stormzy"; "dave"; "skepta"; "wiley"; "j hus"; "central cee"; "jorja smith";
  "little simz"; "ella mai"; "ray blk"; "ms banks"; "headie one";
  "anitta"; "ludmilla"; "iza"; "seu jorge"; "gilberto gil"; "caetano veloso";
  "jorge ben jor"; "tim maia"; "mc kevinho"; "pabllo vittar";
  "femi kuti"; "king sunny ade"; "ebenezer obey"; "sir shina peters";
  "oliver de coque"; "osadebe"; "sunny okosun"; "onyeka onwenu"
].

Definition CULTURAL_KEYWORDS : list (string * list string) := [
  ("anthem", ["anthem"; "national"; "independence"; "unity"; "stand up"; "rise up"; "we are"]);
  ("revolution", ["revolution"; "change"; "fight"; "power to"; "system"; "struggle"; "freedom fighter"]);
  ("liberation", ["freedom"; "free"; "liberation"; "independent"; "chains"; "emancipation"; "free at last"]);
  ("protest", ["protest"; "injustice"; "police"; "government"; "corruption"; "sars"; "endsars"]);
  ("tradition", ["traditional"; "heritage"; "ancestors"; "elders"; "culture"; "village"; "folklore"]);
  ("roots", ["roots"; "origin"; "homeland"; "native"; "indigenous"]);
  ("motherland", ["africa"; "mama africa"; "motherland"; "continent"; "african queen"; "african king"]);
  ("pan-african", ["pan-african"; "united africa"; "one africa"; "african unity"]);
  ("diaspora", ["diaspora"; "abroad"; "overseas"; "japa"; "abroad life"; "immigrant"]);
  ("homecoming", ["return"; "coming home"; "back home"; "welcome home"; "homecoming"]);
  ("bridge", ["fusion"; "blend"; "mix"; "afro-"]);
  ("street", ["street"; "hood"; "block"; "area"; "ghetto"; "trenches"; "outside"]);
  ("hustle", ["hustle"; "grind"; "money"; "paper"; "cheddar"; "bag"; "secure"]);
  ("survival", ["survive"; "struggle"; "make it"; "overcome"; "rise"; "from nothing"]);
  ("wedding", ["wedding"; "marriage"; "bride"; "groom"; "owambe"; "owanbe"; "asoebi"]);
  ("festival", ["festival"; "carnival"; "detty"; "december"; "party"; "fiesta"]);
  ("celebration", ["celebrate"; "joy"; "happy"; "blessed"; "thankful"; "grateful"]);
  ("spiritual", ["spirit"; "soul"; "divine"; "holy"; "sacred"; "anointed"]);
  ("prayer", ["prayer"; "pray"; "lord"; "god"; "jesus"; "allah"; "worship"; "praise"]);
  ("healing", ["heal"; "restoration"; "peace"; "calm"; "comfort"; "strength"]);
  ("love", ["love"; "baby"; "darling"; "heart"; "forever"; "together"; "my love"]);
  ("heartbreak", ["heartbreak"; "pain"; "tears"; "cry"; "hurt"; "broken"; "miss you"])
].

Definition GENRE_KEYWORDS : list (string * list string) := [
  ("afrobeats", ["afrobeat"; "naija"; "nigerian"; "lagos"; "wizkid"; "davido"; "burna"]);
  ("amapiano", ["amapiano"; "piano"; "yanos"; "maphorisa"; "kabza"; "log drum"]);
  ("afro-house", ["afro house"; "afro-house"; "black coffee"; "deep house africa"]);
  ("gqom", ["gqom"; "durban"; "babes wodumo"]);
  ("highlife", ["highlife"; "high life"; "ghana"; "ghanaian"]);
  ("hiplife", ["hiplife"; "hip life"; "sarkodie"]);
  ("bongo-flava", ["bongo flava"; "bongo"; "tanzania"; "diamond platnumz"]);
  ("gengetone", ["gengetone"; "kenya"; "nairobi"; "ethic"]);
  ("dancehall", ["dancehall"; "dance hall"; "jamaica"; "vybz kartel"; "popcaan"]);
  ("reggae", ["reggae"; "rasta"; "bob marley"; "roots"]);
  ("soca", ["soca"; "trinidad"; "carnival"]);
  ("zouk", ["zouk"; "kizomba"; "kompa"]);
  ("rumba", ["rumba"; "congolese"; "soukous"; "ndombolo"]);
  ("hip-hop", ["hip hop"; "hiphop"; "rap"; "rapper"; "bars"; "flow"]);
  ("rnb", ["r&b"; "rnb"; "r n b"; "slow jam"; "soul"]);
  ("gospel", ["gospel"; "worship"; "praise"; "christian"; "church"; "hallelujah"]);
  ("funk", ["funk"; "funky"; "carioca"; "baile"]);
  ("drill", ["drill"; "uk drill"; "brooklyn drill"]);
  ("grime", ["grime"; "mc"; "uk rap"])
].

Definition normalize_name (name : string) : string := strip (lower name).

(** [get_artist_tier] for a given iteration order of the set
    [TIER_A_ARTISTS]: the loop and the slice [list(TIER_A_ARTISTS)[:50]]
    walk the same set. *)
Definition get_artist_tier_in (order : list string) (artist : string) : string :=
  let normalized := normalize_name artist in
  if existsb (fun tier_a =>
                (str_in tier_a normalized || str_in normalized tier_a)%bool) order
  then "A"
  else if any_in (firstn 50 order) normalized then "B"
  else "D".

Definition get_artist_tier (artist : string) : string :=
  get_artist_tier_in TIER_A_ARTISTS artist.

Definition core_indicators : list string := [
  "official video"; "official music video"; "official audio";
  "ft."; "feat."; "featuring" ].

Definition get_canon_level (title artist tier : string) : string :=
  let title_lower := lower title in
  if String.eqb tier "A" then
    if any_in core_indicators title_lower then "ESSENTIAL" else "ESSENTIAL"
  else if String.eqb tier "B" then "DEEP_CUT"
  else if String.eqb tier "C" then "ARCHIVE"
  else "ECHO".

(** The legacy detector: the scan, capped at the first five tags. *)
Definition detect_cultural_tags (title artist : string) : list string :=
  let text := lower (join2 title artist) in
  firstn 5 (scan_tags CULTURAL_KEYWORDS text).

Fixpoint first_genre (dict : list (string * list string)) (text : string)
  : option string :=
  match dict with
  | [] => None
  | (genre, keywords) :: dict' =>
      if any_in keywords text then Some genre else first_genre dict' text
  end.

Definition detect_genre (title artist : string) : option string :=
  first_genre GENRE_KEYWORDS (lower (join2 title artist)).

(** A fetched row: [title] and [artist] may be absent or null. *)
Record Track := mkTrack {
  youtube_id : string;
  title      : option string;
  artist     : option string
}.

(** [track.get(key, '') or '']. *)
Definition or_empty (o : option string) : string :=
  match o with Some s => s | None => "" end.

Record Classified := mkClassified {
  c_youtube_id    : string;
  c_title         : string;
  c_artist        : string;
  c_artist_tier   : string;
  c_canon_level   : string;
  c_cultural_tags : list string;
  c_genre         : option string;
  c_is_echo       : bool
}.

Definition classify_track (track : Track) : Classified :=
  let title := or_empty (title track) in
  let artist := or_empty (artist track) in
  let tier := get_artist_tier artist in
  let canon := get_canon_level title artist tier in
  let tags := detect_cultural_tags title artist in
  let genre := detect_genre title artist in
  mkClassified (youtube_id track) title artist tier canon tags genre
               (String.eqb canon "ECHO").

End V1.

(* ================================================================= *)
(** ** enrichment/build_artist_master.py: the icon table with tags *)

Module ArtistMaster.

Record Icon := mkIcon {
  icon_historical     : Q;
  icon_social         : Q;
  icon_diasporic      : Q;
  icon_preservational : Q;
  icon_tags           : list string
}.

Definition CULTURAL_ICONS : list (string * Icon) := [
  ("fela kuti", mkIcon 5 5 5 5 ["revolution"; "protest"; "liberation"; "pan-african"]);
  ("miriam makeba", mkIcon 5 5 5 4 ["liberation"; "anthem"; "pan-african"]);
  ("bob marley", mkIcon 5 5 5 4 ["liberation"; "spiritual"; "pan-african"]);
  ("youssou ndour", mkIcon 4 4 4 5 ["tradition"; "roots"; "motherland"]);
  ("salif keita", mkIcon 4 3 4 5 ["tradition"; "roots"]);
  ("papa wemba", mkIcon 4 3 4 5 ["tradition"; "roots"]);
  ("bembeya jazz", mkIcon 5 5 3 5 ["liberation"; "tradition"; "pan-african"]);
  ("angelique kidjo", mkIcon 4 4 5 4 ["diaspora"; "bridge"; "pan-african"]);
  ("hugh masekela", mkIcon 5 5 4 4 ["liberation"; "protest"]);
  ("alpha blondy", mkIcon 4 4 3 3 ["spiritual"; "liberation"]);
  ("mory kante", mkIcon 4 3 4 4 ["tradition"; "bridge"])
]%Q.

(** The cultural part of the record [build_artist_master] stores for an
    A-tier artist: scores from the icon table (defaults 3, 3, 3, 2) and
    the icon's tags as [default_cultural_tags]. *)
Record MasterCultural := mkMasterCultural {
  m_tier                  : string;
  m_historical            : Q;
  m_social                : Q;
  m_diasporic             : Q;
  m_preservational        : Q;
  m_default_cultural_tags : list string
}.

Definition a_tier_cultural (artist : string) : MasterCultural :=
  match V4.lookup artist CULTURAL_ICONS with
  | Some ic =>
      mkMasterCultural "A" (icon_historical ic) (icon_social ic)
                       (icon_diasporic ic) (icon_preservational ic)
                       (icon_tags ic)
  | None => mkMasterCultural "A" 3 3 3 2 []
  end.

End ArtistMaster.

(* ================================================================= *)
(** ** Python dictionaries used as counters and index maps *)

Module PyDict.

Section Dict.

Context {K V : Type} (eqb : K -> K -> bool).

(** [d.get(k)]. *)
Fixpoint get (k : K) (d : list (K * V)) : option V :=
  match d with
  | [] => None
  | (k', v) :: d' => if eqb k k' then Some v else get k d'
  end.

(** [d[k] = v]: an existing key keeps its place, a new key is appended. *)
Fixpoint set (k : K) (v : V) (d : list (K * V)) : list (K * V) :=
  match d with
  | [] => [(k, v)]
  | (k', v') :: d' => if eqb k k' then (k, v) :: d' else (k', v') :: set k v d'
  end.

End Dict.

(** [d[k] += 1] on a counter ([defaultdict(int)], or
    [d[k] = d.get(k, 0) + 1]). *)
Definition incr (k : string) (d : list (string * Z)) : list (string * Z) :=
  set String.eqb k (match get String.eqb k d with Some n => n | None => 0 end + 1) d.

(** [d.get(k, 0)]. *)
Definition count_of (k : string) (d : list (string * Z)) : Z :=
  match get String.eqb k d with Some n => n | None => 0 end.

End PyDict.

(* ================================================================= *)
(** ** canonizer_v4.py: era, confidence and timelessness *)

Module V4Temporal.

Definition detect_era (year : option Z) : string :=
  match year with
  | None => "unknown"
  | Some y =>
      if y <? 1960 then "pre-independence"
      else if y <? 1980 then "independence"
      else if y <? 1995 then "golden-age"
      else if y <? 2005 then "transition"
      else if y <? 2015 then "digital-dawn"
      else if y <? 2020 then "streaming-era"
      else "global-explosion"
  end.

(** The regex classes [\d] and [\w] on ASCII characters. *)
Definition is_digit (c : ascii) : bool :=
  let n := nat_of_ascii c in (Nat.leb 48 n && Nat.leb n 57)%bool.

Definition is_word (c : ascii) : bool :=
  let n := nat_of_ascii c in
  ((Nat.leb 48 n && Nat.leb n 57) || (Nat.leb 65 n && Nat.leb n 90)
   || (Nat.leb 97 n && Nat.leb n 122) || Nat.eqb n 95)%bool.

(** The alternation [19[5-9]\d|20[0-2]\d] on four characters. *)
Definition year_pattern (a b c d : ascii) : bool :=
  ((Ascii.eqb a "1" && Ascii.eqb b "9"
    && Nat.leb 53 (nat_of_ascii c) && Nat.leb (nat_of_ascii c) 57 && is_digit d)
   || (Ascii.eqb a "2" && Ascii.eqb b "0"
       && Nat.leb 48 (nat_of_ascii c) && Nat.leb (nat_of_ascii c) 50 && is_digit d))%bool.

(** [\b] in front of a digit: the start of the text or a non-word
    character before it. *)
Definition boundary_before (prev : option ascii) : bool :=
  match prev with
  | None => true
  | Some c => negb (is_word c)
  end.

(** [\b] behind a digit: the end of the text or a non-word character. *)
Definition boundary_after (rest : string) : bool :=
  match rest with
  | EmptyString => true
  | String c _ => negb (is_word c)
  end.

(** [re.search(r'\b(19[5-9]\d|20[0-2]\d)\b', s)]: the leftmost match,
    [prev] being the character before [s]. *)
Fixpoint search_year (prev : option ascii) (s : string) : option string :=
  match s with
  | EmptyString => None
  | String a s' =>
      match s' with
      | String b (String c (String d rest)) =>
          if (boundary_before prev && year_pattern a b c d
              && boundary_after rest)%bool
          then Some (String a (String b (String c (String d EmptyString))))
          else search_year (Some a) s'
      | _ => None
      end
  end.

Definition digit_value (c : ascii) : Z := Z.of_nat (nat_of_ascii c) - 48.

(** [int(s)] on a string of decimal digits. *)
Definition int_of_digits (s : string) : Z :=
  (fix go (acc : Z) (s : string) : Z :=
     match s with
     | EmptyString => acc
     | String c s' => go (acc * 10 + digit_value c) s'
     end) 0 s.

(** The release year [classify_with_patterns] reads from the lower-cased
    title and channel. *)
Definition release_year (track : V4.Track) : option Z :=
  let title := lower (V4.title track) in
  let channel := lower (V4.channel_title track) in
  match search_year None (join2 title channel) with
  | Some m => Some (int_of_digits m)
  | None => None
  end.

Definition era (track : V4.Track) : string := detect_era (release_year track).

(** [min(x, 1.0)]. *)
Definition min_one (x : Q) : Q := if Qle_bool x 1 then x else 1.

(** The confidence [classify_with_patterns] computes from the final tier
    and the views. *)
Definition confidence_for (tier : string) (views : Z) : Q :=
  let confidence := (3 # 10)%Q in
  let confidence := if mem tier ["A"; "B"] then (7 # 10)%Q else confidence in
  let confidence := if views >? 0 then (confidence + (1 # 10))%Q else confidence in
  min_one confidence.


Definition confidence (track : V4.Track) : Q :=
  let ps := V4.classify_with_patterns track in
  confidence_for (V4.final_tier ps) (V4.pop_view_count (V4.popularity ps)).



End V4Temporal.

(* ================================================================= *)
(** ** canonizer_v4.py: the batch loop of run_pipeline *)

Module V4Pipeline.

Definition BATCH_SIZE : Z := 100.
Definition LLM_BATCH_SIZE : nat := 10.

(** The dictionary [llm_results] of one batch: every external result
    whose [track_number - 1] is a valid index is stored under that index,
    a later one replacing an earlier one. *)
Definition llm_results_for (tracks : list V4.Track) (llm_batch : list V4.LlmResult)
  : list (Z * V4.LlmResult) :=
  fold_left
    (fun d lr =>
       let idx := V4.get_or (V4.llm_track_number lr) 0 - 1 in
       if ((0 <=? idx) && (idx <? Z.of_nat (List.length tracks)))%bool
       then PyDict.set Z.eqb idx lr d
       else d)
    llm_batch [].

(** [for i, track in enumerate(tracks)]: classify with [llm_results.get(i)]. *)
Fixpoint classify_enumerated (llm_results : list (Z * V4.LlmResult)) (i : Z)
    (tracks : list V4.Track) : list V4.Result :=
  match tracks with
  | [] => []
  | track :: rest =>
      V4.classify_track track (PyDict.get Z.eqb i llm_results)
      :: classify_enumerated llm_results (i + 1) rest
  end.

(** [if sample_size: total = min(sample_size, total)]. *)
Definition effective_total (sample_size : option Z) (total : Z) : Z :=
  match sample_size with
  | Some n => if n =? 0 then total else Z.min n total
  | None => total
  end.

(** The three histograms of the statistics block that are taken over
    fields of the record. *)
Definition histogram (key : V4.Result -> string) (results : list V4.Result)
  : list (string * Z) :=
  fold_left (fun d r => PyDict.incr (key r) d) results [].

Section Run.

(** The external collaborators: [fetch_tracks_from_supabase offset limit]
    (the empty list on error) and [classify_with_llm] (the empty list on
    error or without a key). *)
Variable fetch : Z -> Z -> list V4.Track.
Variable classify_with_llm : list V4.Track -> list V4.LlmResult.

Definition classify_batch (use_llm : bool) (tracks : list V4.Track)
  : list V4.Result :=
  let llm_results :=
    if use_llm
    then llm_results_for tracks (classify_with_llm (firstn LLM_BATCH_SIZE tracks))
    else [] in
  classify_enumerated llm_results 0 tracks.

(** The loop [while offset < total], with the results appended to
    [all_results]. [fuel] bounds the number of iterations; [None] means
    the bound was reached before the loop ended. *)
Fixpoint run_batches (use_llm : bool) (fuel : nat) (total offset : Z)
  : option (list V4.Result) :=
  match fuel with
  | O => None
  | S fuel' =>
      if offset <? total then
        let batch_size := Z.min BATCH_SIZE (total - offset) in
        match fetch offset batch_size with
        | [] => Some []
        | tracks =>
            match run_batches use_llm fuel' total (offset + batch_size) with
            | Some rest => Some (classify_batch use_llm tracks ++ rest)%list
            | None => None
            end
        end
      else Some []
  end.

(** [run_pipeline]: [count] is what [get_total_track_count] answered and
    [api_key_set] whether the key for the external classifier is there;
    the result is the list the function returns. *)
Definition run_pipeline (fuel : nat) (use_llm api_key_set : bool)
    (sample_size : option Z) (count : Z) : option (list V4.Result) :=
  let use_llm := (use_llm && api_key_set)%bool in
  let total := effective_total sample_size count in
  match run_batches use_llm fuel total 0 with
  | Some all_results => Some (V4.calculate_view_percentiles all_results)
  | None => None
  end.

End Run.

End V4Pipeline.

(* ================================================================= *)
(** ** canonizer.py: fetching and the statistics of run_canonizer *)

Module V1Run.

Section Fetch.

(** One request of [fetch_all_tracks]: [None] when the request raises. *)
Variable fetch : Z -> Z -> option (list V1.Track).

(** The loop [while True] of [fetch_all_tracks] from a given offset, with
    [limit = 1000]; it stops at an empty batch or at an error and keeps
    what was fetched before. [fuel] bounds the number of requests; [None]
    means the bound was reached before the loop ended. *)
Fixpoint fetch_all_from (fuel : nat) (offset : Z) : option (list V1.Track) :=
  match fuel with
  | O => None
  | S fuel' =>
      match fetch offset 1000 with
      | None => Some []
      | Some [] => Some []
      | Some batch =>
          match fetch_all_from fuel' (offset + 1000) with
          | Some rest => Some (batch ++ rest)%list
          | None => None
          end
      end
  end.

Definition fetch_all_tracks (fuel : nat) : option (list V1.Track) :=
  fetch_all_from fuel 0.

End Fetch.

(** The counters of [run_canonizer]: tiers and canon levels share one
    dictionary, tags and genres have one each. *)
Record Results := mkResults {
  counts : list (string * Z);
  tags   : list (string * Z);
  genres : list (string * Z)
}.

Definition initial_results : Results :=
  mkResults [("A", 0); ("B", 0); ("C", 0); ("D", 0);
             ("CORE", 0); ("ESSENTIAL", 0); ("DEEP_CUT", 0);
             ("ARCHIVE", 0); ("ECHO", 0)] [] [].

(** The statistics update for one classified track. *)
Definition record_stats (results : Results) (c : V1.Classified) : Results :=
  let counts := PyDict.incr (V1.c_artist_tier c) (counts results) in
  let counts := PyDict.incr (V1.c_canon_level c) counts in
  let tags := fold_left (fun d tag => PyDict.incr tag d)
                        (V1.c_cultural_tags c) (tags results) in
  let genres :=
    match V1.c_genre c with
    | Some g => if String.eqb g "" then genres results
                else PyDict.incr g (genres results)
    | None => genres results
    end in
  mkResults counts tags genres.

(** The classification loop of [run_canonizer]: the classified tracks
    and the statistics. *)
Definition canonize (tracks : list V1.Track) : list V1.Classified * Results :=
  let classified := map V1.classify_track tracks in
  (classified, fold_left record_stats classified initial_results).

End V1Run.

(* ================================================================= *)
(** * Notions the properties are stated with *)

(** A rule group matches the text when one of its keywords is a
    substring of it. *)
Definition group_matches (indicators : list string) (text : string) : Prop :=
  exists k, In k indicators /\ Substring k text.

(** First-match semantics over an ordered rule list, as section 4.2 of
    the specification words it. *)
Fixpoint first_match (rules : list (string * bool)) (fallback : string) : string :=
  match rules with
  | [] => fallback
  | (label, true) :: _ => label
  | (_, false) :: rules' => first_match rules' fallback
  end.

(** The rule list of the specification, in its precedence order. *)
Definition content_rules (text artist_lower : string) : list (string * bool) := [
  ("live", any_in V4.live_indicators text);
  ("remix", any_in V4.remix_indicators text);
  ("dj_mix", (any_in V4.dj_mix_indicators text
              && any_in V4.known_dj_tokens artist_lower)%bool);
  ("playlist_channel", any_in V4.compilation_indicators text);
  ("cover", any_in V4.cover_indicators text);
  ("instrumental", any_in V4.instrumental_indicators text);
  ("slowed", any_in V4.slowed_indicators text);
  ("acoustic", any_in V4.acoustic_indicators text);
  ("extended", any_in V4.extended_indicators text)
].

(** The order CORE > ESSENTIAL > DEEP_CUT > ARCHIVE > ECHO of the
    glossary, as a rank. *)
Definition canon_rank (level : string) : nat :=
  if String.eqb level "CORE" then 4
  else if String.eqb level "ESSENTIAL" then 3
  else if String.eqb level "DEEP_CUT" then 2
  else if String.eqb level "ARCHIVE" then 1
  else 0.

(** Arithmetic means of the cultural and aesthetic sub-scores. *)
Definition cultural_mean (c : V4.CulturalScore) : Q :=
  (V4.historical c + V4.social c + V4.diasporic c + V4.preservational c) / 4.

Definition aesthetic_mean (a : V4.AestheticScore) : Q :=
  (V4.innovation a + V4.craft a + V4.influence a) / 3.

(** The row of the decision table for tier A, with the comparisons the
    code makes. *)
Definition tier_A_row (views : Z) : string :=
  if views >? 100000000 then "CORE"
  else if views >? 10000000 then "ESSENTIAL"
  else if views >? 1000000 then "DEEP_CUT"
  else "ESSENTIAL".

(** The inclusive count of a batch: how many tracks have at most [v]
    views. *)
Definition tracks_at_most (tracks : list V4.Result) (v : Z) : Z :=
  Z.of_nat (List.length (filter (fun t => V4.r_view_count t <=? v) tracks)).

(** The percentile of section 4.6 in exact arithmetic, before rounding:
    the inclusive count divided by the batch size, times 100. *)
Definition exact_percentile (tracks : list V4.Result) (v : Z) : Q :=
  inject_Z (tracks_at_most tracks v)
  / inject_Z (Z.of_nat (List.length tracks)) * 100.

(** Rounding an exact number to two decimal places, ties upwards and
    ties to even (the rule [round] documents). *)
Definition half_up_hundredths (x : Q) : Q :=
  inject_Z (Qfloor (x * 100 + (1 # 2))) / 100.

Definition half_even_hundredths (x : Q) : Q :=
  inject_Z (PyFloat.round_half_even (x * 100)) / 100.

(** The expression [round((count / n) * 100, 2)] as Python evaluates
    it. *)
Definition stored_percentile (count n : Z) : Q :=
  V4.round2 (PyFloat.mul (PyFloat.truediv count n) 100).

(** The same product in the IEEE 754 operations of the Standard
    Library's [SpecFloat], and the rational a [spec_float] denotes. *)
Definition SFofZ (z : Z) : SpecFloat.spec_float :=
  SpecFloat.binary_normalize 53 1024 z 0 false.

Definition SF2Q (f : SpecFloat.spec_float) : Q :=
  match f with
  | SpecFloat.S754_finite s m e =>
      Qred ((if s then - inject_Z (Zpos m) else inject_Z (Zpos m))
            * PyFloat.pow2 e)
  | _ => 0
  end.

Definition ieee_percent (count n : Z) : Q :=
  SF2Q (SpecFloat.SFmul 53 1024
          (SpecFloat.SFdiv 53 1024 (SFofZ count) (SFofZ n)) (SFofZ 100)).

Definition ieee_hundredths (k : Z) : Q :=
  SF2Q (SpecFloat.SFdiv 53 1024 (SFofZ k) (SFofZ 100)).

(** A pattern-classified track of an unknown artist with the given
    view count, and batches of such tracks. *)
Definition plain_result (views : Z) : V4.Result :=
  V4.classify_track (V4.mkTrack "My Song" "Unknown Singer" "" (Some views)) None.

Definition batch_of (views : list Z) : list V4.Result := map plain_result views.

(** [l1] is [l2] with some elements left out, the order kept. *)
Inductive Subseq {A : Type} : list A -> list A -> Prop :=
| Subseq_nil : Subseq [] []
| Subseq_skip (x : A) (l1 l2 : list A) : Subseq l1 l2 -> Subseq l1 (x :: l2)
| Subseq_keep (x : A) (l1 l2 : list A) : Subseq l1 l2 -> Subseq (x :: l1) (x :: l2).

(** The ten content-type labels. *)
Definition content_labels : list string :=
  ["live"; "remix"; "dj_mix"; "playlist_channel"; "cover"; "instrumental";
   "slowed"; "acoustic"; "extended"; "original"].

(** The eras in chronological order, as a rank ("unknown" is 0). *)
Definition era_rank (era : string) : nat :=
  if String.eqb era "pre-independence" then 1
  else if String.eqb era "independence" then 2
  else if String.eqb era "golden-age" then 3
  else if String.eqb era "transition" then 4
  else if String.eqb era "digital-dawn" then 5
  else if String.eqb era "streaming-era" then 6
  else if String.eqb era "global-explosion" then 7
  else 0.

(** A store that answers a request with the slice of a fixed table. *)
Definition slice {A : Type} (db : list A) (offset limit : Z) : list A :=
  firstn (Z.to_nat limit) (skipn (Z.to_nat offset) db).

(** How many results carry a given key. *)
Definition occurrences (key : V4.Result -> string) (k : string)
    (results : list V4.Result) : Z :=
  Z.of_nat (List.length (filter (fun r => String.eqb (key r) k) results)).

(** How many classified legacy tracks satisfy a test. *)
Definition legacy_count (test : V1.Classified -> bool)
    (classified : list V1.Classified) : Z :=
  Z.of_nat (List.length (filter test classified)).

(** A string that is empty or starts with a character that is no white
    space. *)
Definition starts_clean (s : string) : Prop :=
  match s with
  | EmptyString => True
  | String c _ => is_space c = false
  end.

(** Every character of a string passes a test. *)
Fixpoint all_chars (keep : ascii -> bool) (s : string) : Prop :=
  match s with
  | EmptyString => True
  | String c s' => keep c = true /\ all_chars keep s'
  end.

(** The external result the batch dictionary holds for index [i]: the
    last one of the batch whose [track_number - 1] is [i]. *)
Definition last_for_index (i : Z) (llm_batch : list V4.LlmResult)
  : option V4.LlmResult :=
  find (fun lr => V4.get_or (V4.llm_track_number lr) 0 - 1 =? i) (rev llm_batch).

(** The sum of the counters of a histogram. *)
Definition sum_values (d : list (string * Z)) : Z :=
  fold_right (fun kv acc => snd kv + acc) 0 d.

(** Pattern-only classification of one track. *)
Definition classify_pattern_only (track : V4.Track) : V4.Result :=
  V4.classify_track track None.

(** Case analysis on every view-count comparison of a goal. *)
Ltac by_views :=
  repeat match goal with
         | |- context [?a >? ?b] =>
             let H := fresh "Hv" in destruct (Z.gtb_spec a b) as [H|H]
         end;
  cbn; try lia.

(* ================================================================= *)
(** * Properties *)

(** ** Substring test and lower-casing *)

Section StringFacts.

Lemma append_empty_r (s : string) : s ++ "" = s.
Proof. induction s as [|c s IH]; simpl; [reflexivity | now rewrite IH]. Qed.

Lemma append_assoc (a b c : string) : (a ++ b) ++ c = a ++ (b ++ c).
Proof. induction a as [|x a IH]; simpl; [reflexivity | now rewrite IH]. Qed.

Lemma prefix_iff (p s : string) :
  String.prefix p s = true <-> exists t, s = p ++ t.
Proof.
  revert s; induction p as [|a p IH]; intros [|b s]; simpl.
  - split; [intros _; now exists "" | reflexivity].
  - split; [intros _; now exists (String b s) | reflexivity].
  - split; [discriminate | intros [t Ht]; discriminate].
  - destruct (ascii_dec a b) as [->|Hne].
    + rewrite IH. split; intros [t Ht]; exists t.
      * now rewrite Ht.
      * now injection Ht.
    + split; [discriminate | intros [t Ht]; injection Ht; congruence].
Qed.

(** [str_in] decides the substring relation. *)
Lemma str_in_iff (sub text : string) :
  str_in sub text = true <-> Substring sub text.
Proof.
  unfold Substring. induction text as [|c text IH].
  - cbn [str_in]. rewrite orb_false_r, prefix_iff. split.
    + intros [t Ht]. now exists "", t.
    + intros [[|x pre] [post H]]; [now exists post | discriminate].
  - cbn [str_in]. rewrite orb_true_iff, prefix_iff, IH. split.
    + intros [[t Ht] | [pre [post H]]].
      * now exists "", t.
      * exists (String c pre), post. simpl. now rewrite H.
    + intros [[|x pre] [post H]].
      * left. now exists post.
      * right. simpl in H. injection H as _ H. now exists pre, post.
Qed.

Lemma Substring_app_r (sub a b : string) :
  Substring sub a -> Substring sub (a ++ b).
Proof.
  intros [pre [post ->]]. exists pre, (post ++ b).
  now rewrite !append_assoc.
Qed.

Lemma str_in_app_r (sub a b : string) :
  str_in sub a = true -> str_in sub (a ++ b) = true.
Proof. rewrite !str_in_iff. apply Substring_app_r. Qed.

Lemma any_in_iff (keywords : list string) (text : string) :
  any_in keywords text = true <->
  exists k, In k keywords /\ Substring k text.
Proof.
  unfold any_in. rewrite existsb_exists.
  split; intros [k [Hin Hk]]; exists k; split; auto; now apply str_in_iff.
Qed.

Lemma any_in_false_iff (keywords : list string) (text : string) :
  any_in keywords text = false <->
  ~ exists k, In k keywords /\ Substring k text.
Proof.
  rewrite <- any_in_iff. destruct (any_in keywords text).
  - split; [discriminate | intros H; exfalso; now apply H].
  - split; [intros _ H; discriminate | reflexivity].
Qed.

Lemma any_in_app_r (keywords : list string) (a b : string) :
  any_in keywords a = true -> any_in keywords (a ++ b) = true.
Proof.
  rewrite !any_in_iff. intros [k [Hin Hk]]. exists k; split; auto.
  now apply Substring_app_r.
Qed.

Lemma lower_app (a b : string) : lower (a ++ b) = lower a ++ lower b.
Proof. induction a as [|c a IH]; simpl; [reflexivity | now rewrite IH]. Qed.

Lemma mem_iff (x : string) (xs : list string) :
  mem x xs = true <-> In x xs.
Proof.
  unfold mem. rewrite existsb_exists. split.
  - intros [y [Hin Hy]]. apply String.eqb_eq in Hy. now subst.
  - intros Hin. exists x. split; auto. apply String.eqb_refl.
Qed.

(** The scan keeps every tag it found when text is appended. *)
Lemma scan_tags_app_r dict (a b : string) (tag : string) :
  In tag (scan_tags dict a) -> In tag (scan_tags dict (a ++ b)).
Proof.
  induction dict as [|[t ks] dict IH]; simpl; [tauto | ].
  destruct (any_in ks a) eqn:Ha.
  - rewrite (any_in_app_r _ _ b Ha). simpl. intros [->|H]; auto.
  - intros H. destruct (any_in ks (a ++ b)); simpl; auto.
Qed.

(** A tag is produced exactly when it is a key one of whose keyword
    lists matches. *)
Lemma scan_tags_In dict (text tag : string) :
  In tag (scan_tags dict text) <->
  exists ks, In (tag, ks) dict /\ any_in ks text = true.
Proof.
  induction dict as [|[t ks] dict IH]; simpl.
  - split; [tauto | intros [ks [[] _]]].
  - destruct (any_in ks text) eqn:Hk; simpl; rewrite IH; split.
    + intros [->|[ks' [Hin H]]]; [exists ks | exists ks']; auto.
    + intros [ks' [[Heq|Hin] H]].
      * injection Heq as -> ->. now left.
      * right. now exists ks'.
    + intros [ks' [Hin H]]. exists ks'; auto.
    + intros [ks' [[Heq|Hin] H]].
      * injection Heq as -> ->. congruence.
      * now exists ks'.
Qed.

End StringFacts.

(* ================================================================= *)
(** ** Content-type detection *)

(** The detector is the first-match evaluation of the ordered rule list. *)
Lemma detect_content_type_first_match (title artist channel : string) :
  V4.detect_content_type title artist channel =
  first_match (content_rules (lower (join3 title artist channel)) (lower artist))
              "original".
Proof.
  unfold V4.detect_content_type, content_rules. cbv zeta.
  repeat match goal with
         | |- context [if ?b then _ else _] => destruct b; cbn [first_match]; try reflexivity
         end.
Qed.

(** A keyword found in the title, the artist or the channel alone is
    found in the scanned text. *)
Lemma group_matches_join3 (keywords : list string) (title artist channel : string) :
  group_matches keywords (lower title)
  \/ group_matches keywords (lower artist)
  \/ group_matches keywords (lower channel) ->
  group_matches keywords (lower (join3 title artist channel)).
Proof.
  unfold group_matches, join3. rewrite !lower_app.
  intros [[k [Hin [p [q E]]]] | [[k [Hin [p [q E]]]] | [k [Hin [p [q E]]]]]];
    exists k; (split; [exact Hin | ]); rewrite E.
  - exists p, (q ++ lower " " ++ lower artist ++ lower " " ++ lower channel).
    now rewrite <- !append_assoc.
  - exists (lower title ++ lower " " ++ p), (q ++ lower " " ++ lower channel).
    now rewrite <- !append_assoc.
  - exists (lower title ++ lower " " ++ lower artist ++ lower " " ++ p), q.
    now rewrite <- !append_assoc.
Qed.

(** Case analysis on the rule tests in their order: once a test is
    true the later ones do not matter. *)
Ltac first_rule_cases :=
  match goal with
  | b : bool |- _ =>
      destruct b;
      [intuition (try discriminate; try congruence) | first_rule_cases]
  | _ => intuition (try discriminate; try congruence)
  end.

(** C7. Content-type detection applies its rule groups in a fixed order
    with first match winning. Each label is answered exactly when its
    group matches the lower-cased "title artist channel" text and no
    group before it does, in the order live, remix, DJ mix (matched only
    if the artist also carries a DJ token), compilation, cover,
    instrumental, slowed, acoustic, extended; "original" is answered
    exactly when no group matches. So a text with a live keyword and a
    remix keyword is answered "live", wherever the live keyword stands
    (title, artist or channel), and the detector is the first-match
    evaluation of the ordered rule list. *)
Theorem detect_content_type_first_match_wins :
  forall title artist channel : string,
    let text := lower (join3 title artist channel) in
    let label := V4.detect_content_type title artist channel in
    let live := group_matches V4.live_indicators text in
    let remix := group_matches V4.remix_indicators text in
    let dj_mix := group_matches V4.dj_mix_indicators text
                  /\ group_matches V4.known_dj_tokens (lower artist) in
    let compilation := group_matches V4.compilation_indicators text in
    let cover := group_matches V4.cover_indicators text in
    let instrumental := group_matches V4.instrumental_indicators text in
    let slowed := group_matches V4.slowed_indicators text in
    let acoustic := group_matches V4.acoustic_indicators text in
    let extended := group_matches V4.extended_indicators text in
    (live -> remix -> label = "live")
    /\ (group_matches V4.live_indicators (lower title)
        \/ group_matches V4.live_indicators (lower artist)
        \/ group_matches V4.live_indicators (lower channel) ->
        label = "live")
    /\ (label = "live" <-> live)
    /\ (label = "remix" <-> ~ live /\ remix)
    /\ (label = "dj_mix" <-> ~ live /\ ~ remix /\ dj_mix)
    /\ (label = "playlist_channel" <->
        ~ live /\ ~ remix /\ ~ dj_mix /\ compilation)
    /\ (label = "cover" <->
        ~ live /\ ~ remix /\ ~ dj_mix /\ ~ compilation /\ cover)
    /\ (label = "instrumental" <->
        ~ live /\ ~ remix /\ ~ dj_mix /\ ~ compilation /\ ~ cover
        /\ instrumental)
    /\ (label = "slowed" <->
        ~ live /\ ~ remix /\ ~ dj_mix /\ ~ compilation /\ ~ cover
        /\ ~ instrumental /\ slowed)
    /\ (label = "acoustic" <->
        ~ live /\ ~ remix /\ ~ dj_mix /\ ~ compilation /\ ~ cover
        /\ ~ instrumental /\ ~ slowed /\ acoustic)
    /\ (label = "extended" <->
        ~ live /\ ~ remix /\ ~ dj_mix /\ ~ compilation /\ ~ cover
        /\ ~ instrumental /\ ~ slowed /\ ~ acoustic /\ extended)
    /\ (label = "original" <->
        ~ live /\ ~ remix /\ ~ dj_mix /\ ~ compilation /\ ~ cover
        /\ ~ instrumental /\ ~ slowed /\ ~ acoustic /\ ~ extended)
    /\ label = first_match (content_rules text (lower artist)) "original".
Proof.
  intros title artist channel text label live remix dj_mix compilation cover
         instrumental slowed acoustic extended.
  assert (Hlive_parts :
            group_matches V4.live_indicators (lower title)
            \/ group_matches V4.live_indicators (lower artist)
            \/ group_matches V4.live_indicators (lower channel) -> live).
  { apply group_matches_join3. }
  assert (Hfirst : label = first_match (content_rules text (lower artist)) "original").
  { apply detect_content_type_first_match. }
  assert (H1 : live <-> any_in V4.live_indicators text = true)
    by (symmetry; apply any_in_iff).
  assert (H2 : remix <-> any_in V4.remix_indicators text = true)
    by (symmetry; apply any_in_iff).
  assert (H3 : dj_mix <-> (any_in V4.dj_mix_indicators text
                           && any_in V4.known_dj_tokens (lower artist))%bool = true).
  { unfold dj_mix, group_matches. rewrite andb_true_iff, !any_in_iff. reflexivity. }
  assert (H4 : compilation <-> any_in V4.compilation_indicators text = true)
    by (symmetry; apply any_in_iff).
  assert (H5 : cover <-> any_in V4.cover_indicators text = true)
    by (symmetry; apply any_in_iff).
  assert (H6 : instrumental <-> any_in V4.instrumental_indicators text = true)
    by (symmetry; apply any_in_iff).
  assert (H7 : slowed <-> any_in V4.slowed_indicators text = true)
    by (symmetry; apply any_in_iff).
  assert (H8 : acoustic <-> any_in V4.acoustic_indicators text = true)
    by (symmetry; apply any_in_iff).
  assert (H9 : extended <-> any_in V4.extended_indicators text = true)
    by (symmetry; apply any_in_iff).
  assert (Hlabel : label
                   = if any_in V4.live_indicators text then "live"
                     else if any_in V4.remix_indicators text then "remix"
                     else if (any_in V4.dj_mix_indicators text
                              && any_in V4.known_dj_tokens (lower artist))%bool
                          then "dj_mix"
                     else if any_in V4.compilation_indicators text
                          then "playlist_channel"
                     else if any_in V4.cover_indicators text then "cover"
                     else if any_in V4.instrumental_indicators text
                          then "instrumental"
                     else if any_in V4.slowed_indicators text then "slowed"
                     else if any_in V4.acoustic_indicators text then "acoustic"
                     else if any_in V4.extended_indicators text then "extended"
                     else "original") by reflexivity.
  clearbody label live remix dj_mix compilation cover instrumental slowed
            acoustic extended.
  repeat match goal with |- _ /\ _ => split end;
    [ idtac .. | exact Hfirst ];
    try (intros Hparts; apply Hlive_parts in Hparts; revert Hparts);
    rewrite ?H1, ?H2, ?H3, ?H4, ?H5, ?H6, ?H7, ?H8, ?H9, Hlabel;
    clear H1 H2 H3 H4 H5 H6 H7 H8 H9 Hlabel Hlive_parts Hfirst;
    generalize (any_in V4.live_indicators text);
    generalize (any_in V4.remix_indicators text);
    generalize (any_in V4.dj_mix_indicators text
                && any_in V4.known_dj_tokens (lower artist))%bool;
    generalize (any_in V4.compilation_indicators text);
    generalize (any_in V4.cover_indicators text);
    generalize (any_in V4.instrumental_indicators text);
    generalize (any_in V4.slowed_indicators text);
    generalize (any_in V4.acoustic_indicators text);
    generalize (any_in V4.extended_indicators text);
    intros b9 b8 b7 b6 b5 b4 b3 b2 b1;
    first_rule_cases.
Qed.

Lemma detect_content_type_first_match_wins_witness :
  V4.detect_content_type "Essence (Remix)" "Wizkid" "Live Nation TV" = "live"
  /\ V4.detect_content_type "Zombie" "Fela Kuti" "" = "original".
Proof.
  split.
  - apply (detect_content_type_first_match_wins
             "Essence (Remix)" "Wizkid" "Live Nation TV");
      apply any_in_iff; vm_compute; reflexivity.
  - destruct (detect_content_type_first_match_wins "Zombie" "Fela Kuti" "")
      as (_ & _ & _ & _ & _ & _ & _ & _ & _ & _ & _ & Horiginal & _).
    apply Horiginal.
    repeat split;
      try (intros H; apply any_in_iff in H; vm_compute in H; discriminate).
    intros [H _]. apply any_in_iff in H. vm_compute in H. discriminate.
Defined.

(* ================================================================= *)
(** ** Cultural-tag detection *)

(** The uncapped v4 detector never loses a tag when text is appended. *)
Lemma v4_detect_cultural_tags_app_r (text extra tag : string) :
  In tag (V4.detect_cultural_tags text) ->
  In tag (V4.detect_cultural_tags (text ++ extra)).
Proof.
  unfold V4.detect_cultural_tags. rewrite lower_app. apply scan_tags_app_r.
Qed.

Lemma firstn_all_le {A} (n : nat) (l : list A) :
  (List.length l <= n)%nat -> firstn n l = l.
Proof.
  revert n; induction l as [|x l IH]; intros [|n] H; simpl in *;
    try reflexivity; try lia.
  f_equal. apply IH. lia.
Qed.

Lemma In_firstn {A} (n : nat) (l : list A) (x : A) :
  In x (firstn n l) -> In x l.
Proof.
  revert n; induction l as [|y l IH]; intros [|n]; simpl; try tauto.
  intros [->|H]; eauto.
Qed.

(** C9 (as amended). Tag detection is monotone under appending the
    artist text for the uncapped v4 detector; for the legacy detector a
    tag found from the title alone is still found by the scan of
    "title artist", and survives the cap whenever that scan yields at
    most five tags. *)
Theorem cultural_tags_monotone_up_to_cap :
  forall title artist tag : string,
    (In tag (V4.detect_cultural_tags title) ->
     In tag (V4.detect_cultural_tags (join2 title artist)))
    /\
    (In tag (V1.detect_cultural_tags title "") ->
     In tag (scan_tags V1.CULTURAL_KEYWORDS (lower (join2 title artist)))
     /\ ((List.length (scan_tags V1.CULTURAL_KEYWORDS
                         (lower (join2 title artist))) <= 5)%nat ->
         In tag (V1.detect_cultural_tags title artist))).
Proof.
  intros title artist tag. split.
  - unfold join2. apply v4_detect_cultural_tags_app_r.
  - unfold V1.detect_cultural_tags. cbv zeta. intros H.
    apply In_firstn in H.
    assert (Hscan : In tag (scan_tags V1.CULTURAL_KEYWORDS
                              (lower (join2 title artist)))).
    { unfold join2 in *. rewrite append_empty_r in H.
      rewrite <- append_assoc, lower_app. now apply scan_tags_app_r. }
    split; [exact Hscan|].
    intros Hlen. now rewrite firstn_all_le.
Qed.

Lemma cultural_tags_monotone_up_to_cap_witness :
  In "liberation" (V4.detect_cultural_tags (join2 "One Love Freedom" "Bob Marley"))
  /\ In "love" (V1.detect_cultural_tags "One Love Freedom" "Bob Marley").
Proof.
  destruct (cultural_tags_monotone_up_to_cap "One Love Freedom" "Bob Marley" "liberation")
    as [H4 _].
  destruct (cultural_tags_monotone_up_to_cap "One Love Freedom" "Bob Marley" "love")
    as [_ H1].
  split.
  - apply H4. vm_compute. tauto.
  - apply H1.
    + vm_compute. tauto.
    + vm_compute. lia.
Defined.

(** C9 (as stated) fails for the legacy detector: the tag "love", found
    from the title alone, is pushed out of the first five tags once the
    artist text brings five earlier tags in. *)
Lemma legacy_cap_drops_a_detected_tag :
  ~ (forall title artist tag : string,
        In tag (V1.detect_cultural_tags title "") ->
        In tag (V1.detect_cultural_tags title artist)).
Proof.
  intros H.
  specialize (H "love" "anthem revolution freedom protest heritage" "love").
  assert (Hin : In "love" (V1.detect_cultural_tags "love" "")).
  { vm_compute. tauto. }
  apply H in Hin. vm_compute in Hin.
  repeat (destruct Hin as [Hin|Hin]; [discriminate|]). exact Hin.
Qed.

(* ================================================================= *)
(** ** The echo flag *)

(** C5. In the final classification record, pattern-only or after the
    hybrid merge, and in the legacy classifier, [is_echo] is true exactly
    when [canon_level] is "ECHO". *)
Theorem is_echo_iff_canon_level_echo :
  (forall (track : V4.Track) (llm_result : option V4.LlmResult),
      let r := V4.classify_track track llm_result in
      V4.r_is_echo r = true <-> V4.r_canon_level r = "ECHO")
  /\
  (forall track : V1.Track,
      let c := V1.classify_track track in
      V1.c_is_echo c = true <-> V1.c_canon_level c = "ECHO").
Proof.
  split.
  - intros track llm_result. unfold V4.classify_track.
    destruct llm_result as [l|]; [destruct (V4.llm_truthy l)|];
      cbn; apply String.eqb_eq.
  - intros track. cbn. apply String.eqb_eq.
Qed.

(* ================================================================= *)
(** ** Canon level from tier and views *)

(** The pattern classifier's canon level is the decision table applied
    to its final tier and the track's views. *)
Lemma classify_with_patterns_canon (track : V4.Track) :
  let ps := V4.classify_with_patterns track in
  V4.final_canon_level ps =
  V4.canon_level_for (V4.final_tier ps) (V4.or0 (V4.view_count track)).
Proof.
  unfold V4.classify_with_patterns. cbv zeta.
  destruct (V4.known_artist_tier _ _) as [tier [cr inf]].
  destruct (V4.lookup _ V4.CULTURAL_ICONS); reflexivity.
Qed.

(** The pattern classifier only ever resolves to tier A, B or D. *)
Lemma classify_with_patterns_tier (track : V4.Track) :
  let tier := V4.final_tier (V4.classify_with_patterns track) in
  tier = "A" \/ tier = "B" \/ tier = "D".
Proof.
  unfold V4.classify_with_patterns. cbv zeta.
  destruct (V4.known_artist_tier _ _) as [tier [cr inf]] eqn:Hk.
  assert (Ht : tier = "A" \/ tier = "B" \/ tier = "D").
  { unfold V4.known_artist_tier in Hk.
    repeat match type of Hk with
           | context [if ?b then _ else _] => destruct b
           end; injection Hk as <- _ _; auto. }
  destruct (V4.lookup _ V4.CULTURAL_ICONS); cbn; auto.
Qed.

(** Within tiers B, C and D (indeed any tier other than A) more views
    never lower the canon level. *)
Lemma canon_level_monotone_off_tier_A (tier : string) (v1 v2 : Z) :
  tier <> "A" -> v1 <= v2 ->
  (canon_rank (V4.canon_level_for tier v1)
   <= canon_rank (V4.canon_level_for tier v2))%nat.
Proof.
  intros HA Hle. unfold V4.canon_level_for.
  destruct (String.eqb_spec tier "A") as [|_]; [contradiction|].
  destruct (String.eqb tier "B"); [by_views|].
  destruct (String.eqb tier "C"); by_views.
Qed.

(** Tier D never rises above DEEP_CUT, whatever the views. *)
Lemma canon_level_tier_D_cap (v : Z) :
  (canon_rank (V4.canon_level_for "D" v) <= canon_rank "DEEP_CUT")%nat.
Proof. unfold V4.canon_level_for. cbn [String.eqb Ascii.eqb Bool.eqb]. by_views. Qed.

(** C1. Evaluation at the failing input: two tracks of the same tier-A
    artist, 500,000 and 2,000,000 views; the one with more views gets
    DEEP_CUT, strictly below the ESSENTIAL of the other and below the
    A-tier floor. *)
Theorem tier_A_more_views_lower_canon_level :
  let low  := V4.classify_with_patterns
                (V4.mkTrack "Zombie" "Fela Kuti" "" (Some 500000)) in
  let high := V4.classify_with_patterns
                (V4.mkTrack "Zombie" "Fela Kuti" "" (Some 2000000)) in
  V4.final_tier low = "A" /\ V4.final_tier high = "A"
  /\ V4.final_canon_level low = "ESSENTIAL"
  /\ V4.final_canon_level high = "DEEP_CUT"
  /\ (canon_rank (V4.final_canon_level high)
      < canon_rank (V4.final_canon_level low))%nat
  /\ (canon_rank (V4.final_canon_level high) < canon_rank "ESSENTIAL")%nat.
Proof. vm_compute. repeat split; lia. Qed.

(** C2 (as stated) fails: a tier-A track with exactly 100,000,000 views
    is not classified CORE. *)
Lemma tier_A_exactly_100M_is_not_core :
  let ps := V4.classify_with_patterns
              (V4.mkTrack "Official Video" "Burna Boy" "" (Some 100000000)) in
  V4.final_tier ps = "A" /\ V4.final_canon_level ps <> "CORE".
Proof. vm_compute. split; [reflexivity | discriminate]. Qed.

(** C2 (as amended). For every track resolved to tier A the canon level
    follows the tier-A row with strict thresholds: more than 100,000,000
    views give CORE; otherwise more than 10,000,000 give ESSENTIAL;
    otherwise more than 1,000,000 give DEEP_CUT; otherwise ESSENTIAL. A
    tier-A track with exactly 100,000,000 views is ESSENTIAL. *)
Theorem tier_A_row_strict_thresholds :
  forall track : V4.Track,
    let ps := V4.classify_with_patterns track in
    let v := V4.or0 (V4.view_count track) in
    V4.final_tier ps = "A" ->
    V4.final_canon_level ps = tier_A_row v
    /\ (100000000 < v -> V4.final_canon_level ps = "CORE")
    /\ (10000000 < v <= 100000000 -> V4.final_canon_level ps = "ESSENTIAL")
    /\ (1000000 < v <= 10000000 -> V4.final_canon_level ps = "DEEP_CUT")
    /\ (v <= 1000000 -> V4.final_canon_level ps = "ESSENTIAL").
Proof.
  intros track ps v HA.
  assert (Hrow : V4.final_canon_level ps = tier_A_row v).
  { unfold ps, v. rewrite classify_with_patterns_canon. cbv zeta.
    fold ps. rewrite HA. reflexivity. }
  rewrite Hrow. unfold tier_A_row.
  repeat split; intros; by_views; reflexivity.
Qed.

Lemma tier_A_row_strict_thresholds_witness :
  V4.final_canon_level
    (V4.classify_with_patterns
       (V4.mkTrack "Official Video" "Burna Boy" "" (Some 100000000)))
  = "ESSENTIAL".
Proof.
  destruct (tier_A_row_strict_thresholds
              (V4.mkTrack "Official Video" "Burna Boy" "" (Some 100000000)))
    as (_ & _ & Hessential & _).
  - vm_compute. reflexivity.
  - apply Hessential. cbn. lia.
Defined.

(* ================================================================= *)
(** ** Tier resolution *)

Lemma str_in_empty (s : string) : str_in "" s = true.
Proof. destruct s; reflexivity. Qed.

(** The partial-match pass tests [artist in known]; the empty artist is
    a substring of every name, so it matches any non-empty name set. *)
Lemma partial_match_empty_artist (names : list string) :
  names <> [] -> V4.partial_match names "" = true.
Proof.
  destruct names as [|n names]; [congruence|]. intros _.
  unfold V4.partial_match. cbn [existsb].
  now rewrite str_in_empty, orb_true_r.
Qed.

(** An artist that none of the tests of the resolver matches, and that
    is no cultural icon, resolves to tier D. *)
Lemma unmatched_artist_resolves_to_tier_D (track : V4.Track) :
  let artist := lower (V4.artist track) in
  let artist_normalized := V4.normalize_artist artist in
  mem artist_normalized V4.TIER_A_ARTISTS = false ->
  any_in V4.TIER_A_ARTISTS artist = false ->
  mem artist_normalized V4.TIER_B_ARTISTS = false ->
  any_in V4.TIER_B_ARTISTS artist = false ->
  V4.partial_match V4.TIER_A_ARTISTS artist = false ->
  V4.partial_match V4.TIER_B_ARTISTS artist = false ->
  V4.lookup artist_normalized V4.CULTURAL_ICONS = None ->
  V4.final_tier (V4.classify_with_patterns track) = "D".
Proof.
  intros artist an H1 H2 H3 H4 H5 H6 H7.
  unfold V4.classify_with_patterns, V4.known_artist_tier. cbv zeta.
  fold artist. fold an. now rewrite H1, H2, H3, H4, H5, H6, H7.
Qed.

(** A cultural icon is always tier A. *)
Lemma cultural_icon_forces_tier_A (track : V4.Track) (sc : V4.IconScores) :
  V4.lookup (V4.normalize_artist (lower (V4.artist track))) V4.CULTURAL_ICONS
  = Some sc ->
  V4.final_tier (V4.classify_with_patterns track) = "A".
Proof.
  intros H. unfold V4.classify_with_patterns. cbv zeta.
  destruct (V4.known_artist_tier _ _) as [tier [cr inf]].
  now rewrite H.
Qed.

(** The legacy resolver never answers "B": a name that the slice test
    would accept has already been accepted by the loop before it. *)
Lemma legacy_tier_is_A_or_D (order : list string) (artist : string) :
  V1.get_artist_tier_in order artist =
  if existsb (fun tier_a =>
                (str_in tier_a (V1.normalize_name artist)
                 || str_in (V1.normalize_name artist) tier_a)%bool) order
  then "A" else "D".
Proof.
  unfold V1.get_artist_tier_in. cbv zeta.
  destruct (existsb _ order) eqn:Hloop; [reflexivity|].
  destruct (any_in (firstn 50 order) (V1.normalize_name artist)) eqn:Hslice;
    [ | reflexivity].
  exfalso. unfold any_in in Hslice. apply existsb_exists in Hslice.
  destruct Hslice as [k [Hin Hk]]. apply In_firstn in Hin.
  assert (Hex : existsb (fun tier_a =>
                (str_in tier_a (V1.normalize_name artist)
                 || str_in (V1.normalize_name artist) tier_a)%bool) order = true).
  { apply existsb_exists. exists k. split; auto. now rewrite Hk. }
  congruence.
Qed.

(** The legacy resolver does not depend on the iteration order of the
    name set. *)
Lemma legacy_tier_order_irrelevant (order : list string) (artist : string) :
  Permutation order V1.TIER_A_ARTISTS ->
  V1.get_artist_tier_in order artist = V1.get_artist_tier artist.
Proof.
  intros Hperm. unfold V1.get_artist_tier. rewrite !legacy_tier_is_A_or_D.
  set (f := fun tier_a : string => _).
  destruct (existsb f order) eqn:H1; destruct (existsb f V1.TIER_A_ARTISTS) eqn:H2;
    try reflexivity; exfalso.
  - apply existsb_exists in H1. destruct H1 as [k [Hin Hk]].
    assert (existsb f V1.TIER_A_ARTISTS = true); [ | congruence].
    apply existsb_exists. exists k. split; auto.
    now apply (Permutation_in _ Hperm).
  - apply existsb_exists in H2. destruct H2 as [k [Hin Hk]].
    assert (existsb f order = true); [ | congruence].
    apply existsb_exists. exists k. split; auto.
    now apply (Permutation_in _ (Permutation_sym Hperm)).
Qed.

(** C3. Evaluation at the failing input: the empty artist falls into the
    partial-match pass, where it is a substring of every curated name, so
    the classifier answers tier B and DEEP_CUT (content type "remix" as
    expected); the legacy resolver answers tier A for the same reason. *)
Theorem empty_artist_is_not_tier_D :
  let r := V4.classify_track
             (V4.mkTrack "Official Remix ft. X" "" "" (Some 0)) None in
  V4.r_tier r = "B"
  /\ V4.r_content_type r = "remix"
  /\ V4.r_canon_level r = "DEEP_CUT"
  /\ V4.r_is_echo r = false
  /\ V1.get_artist_tier "" = "A".
Proof. vm_compute. repeat split. Qed.

(** Scenario 1 of the specification: a tier-A artist with 150,000,000
    views. *)
Example burna_boy_official_video :
  let r := V4.classify_track
             (V4.mkTrack "Official Video" "Burna Boy" "" (Some 150000000)) None in
  V4.r_tier r = "A" /\ V4.r_canon_level r = "CORE"
  /\ V4.r_content_type r = "original".
Proof. vm_compute. repeat split. Qed.

(** Scenario 2 of the specification: an unknown artist's live recording
    with 500 views. *)
Example unknown_singer_live :
  let r := V4.classify_track
             (V4.mkTrack "My Song (Live at Sofar Sounds)" "Unknown Singer" ""
                         (Some 500)) None in
  V4.r_tier r = "D" /\ V4.r_canon_level r = "ECHO"
  /\ V4.r_content_type r = "live" /\ V4.r_is_echo r = true.
Proof. vm_compute. repeat split. Qed.

(** An icon that is in no tier list is raised to tier A by the override. *)
Example hugh_masekela_is_tier_A :
  V4.final_tier
    (V4.classify_with_patterns
       (V4.mkTrack "Grazing in the Grass" "Hugh Masekela" "" None)) = "A".
Proof. vm_compute. reflexivity. Qed.

(* ================================================================= *)
(** ** Overall scores *)

(** The pattern classifier computes both overall fields as the means of
    their sub-scores. *)
Lemma pattern_overall_is_mean (track : V4.Track) :
  let r := V4.classify_track track None in
  V4.cultural_overall (V4.r_cultural r) = cultural_mean (V4.r_cultural r)
  /\ V4.aesthetic_overall (V4.r_aesthetic r) = aesthetic_mean (V4.r_aesthetic r).
Proof.
  unfold V4.classify_track, V4.classify_with_patterns. cbv zeta.
  destruct (V4.known_artist_tier _ _) as [tier [cr inf]].
  destruct (V4.lookup _ V4.CULTURAL_ICONS); split; reflexivity.
Qed.

(** The hybrid merge copies both overall fields unchanged. *)
Lemma merge_llm_keeps_overall (result : V4.Result) (l : V4.LlmResult) :
  V4.cultural_overall (V4.r_cultural (V4.merge_llm result l))
  = V4.cultural_overall (V4.r_cultural result)
  /\ V4.aesthetic_overall (V4.r_aesthetic (V4.merge_llm result l))
     = V4.aesthetic_overall (V4.r_aesthetic result).
Proof.
  unfold V4.merge_llm, V4.merge_cultural, V4.merge_aesthetic. cbn.
  destruct (V4.llm_cultural_significance l), (V4.llm_aesthetic_merit l);
    split; reflexivity.
Qed.

(** C4. Evaluation at the failing input: an external result that
    supplies historical = 4 and innovation = 3 for an unknown artist's
    track; after the merge the sub-scores are replaced but both overall
    fields still hold the pattern value 0, while the means are 1. *)
Theorem hybrid_merge_leaves_overall_stale :
  let llm := V4.mkLlmResult (Some 1) None None
               (Some (V4.mkLlmCultural (Some 4%Q) None None None))
               (Some (V4.mkLlmAesthetic (Some 3%Q) None None))
               None None None in
  let r := V4.classify_track
             (V4.mkTrack "My Song" "Unknown Singer" "" (Some 500)) (Some llm) in
  V4.r_classified_by r = "hybrid"
  /\ V4.historical (V4.r_cultural r) == 4
  /\ V4.cultural_overall (V4.r_cultural r) == 0
  /\ cultural_mean (V4.r_cultural r) == 1
  /\ ~ V4.cultural_overall (V4.r_cultural r) == cultural_mean (V4.r_cultural r)
  /\ V4.innovation (V4.r_aesthetic r) == 3
  /\ V4.aesthetic_overall (V4.r_aesthetic r) == 0
  /\ aesthetic_mean (V4.r_aesthetic r) == 1
  /\ ~ V4.aesthetic_overall (V4.r_aesthetic r) == aesthetic_mean (V4.r_aesthetic r).
Proof.
  vm_compute. repeat split; try reflexivity; discriminate.
Qed.

(* ================================================================= *)
(** ** The cultural-icon override *)

(** The pattern classifier's tags come from keyword detection on the
    lower-cased "title artist" text and from nothing else. *)
Lemma pattern_tags_are_detected_tags (track : V4.Track) :
  V4.cultural_tags (V4.classify_with_patterns track)
  = V4.detect_cultural_tags
      (join2 (lower (V4.title track)) (lower (V4.artist track))).
Proof.
  unfold V4.classify_with_patterns. cbv zeta.
  destruct (V4.known_artist_tier _ _) as [tier [cr inf]].
  destruct (V4.lookup _ V4.CULTURAL_ICONS); reflexivity.
Qed.

(** C8 (as stated) fails: for Fela Kuti's "Zombie" the result carries no
    "revolution" tag. *)
Lemma fela_kuti_zombie_lacks_revolution_tag :
  let r := V4.classify_track
             (V4.mkTrack "Zombie" "Fela Kuti" "" (Some 2000000)) None in
  ~ (V4.r_tier r = "A"
     /\ V4.historical (V4.r_cultural r) == 5
     /\ In "revolution" (V4.r_cultural_tags r)).
Proof. vm_compute. intros (_ & _ & []). Qed.

(** C8 (as amended). For Fela Kuti's "Zombie" with 2,000,000 views the
    cultural-icon override fires: tier A and the four cultural sub-scores
    5, 5, 5, 5 from the icon table; the classifier's icon table seeds no
    tags, and cultural_tags, detected from the text alone, is empty. The
    default tag "revolution" belongs to the artist-master icon record. *)
Theorem fela_kuti_zombie_icon_scores_without_tags :
  let r := V4.classify_track
             (V4.mkTrack "Zombie" "Fela Kuti" "" (Some 2000000)) None in
  V4.r_tier r = "A"
  /\ V4.historical (V4.r_cultural r) == 5
  /\ V4.social (V4.r_cultural r) == 5
  /\ V4.diasporic (V4.r_cultural r) == 5
  /\ V4.preservational (V4.r_cultural r) == 5
  /\ V4.r_cultural_tags r = []
  /\ In "revolution"
        (ArtistMaster.m_default_cultural_tags
           (ArtistMaster.a_tier_cultural "fela kuti")).
Proof. vm_compute. repeat split; try reflexivity. now left. Qed.

(* ================================================================= *)
(** ** View percentiles *)

(** *** The sort *)

Lemma insert_sorted_perm (x : Z) (l : list Z) :
  Permutation (V4.insert_sorted x l) (x :: l).
Proof.
  induction l as [|y l IH]; simpl; [reflexivity|].
  destruct (x <=? y); [reflexivity|].
  rewrite IH. apply perm_swap.
Qed.

Lemma sorted_perm (l : list Z) : Permutation (V4.sorted l) l.
Proof.
  induction l as [|x l IH]; simpl; [reflexivity|].
  rewrite insert_sorted_perm. now constructor.
Qed.

Lemma insert_sorted_ordered (x : Z) (l : list Z) :
  Sorted Z.le l -> Sorted Z.le (V4.insert_sorted x l).
Proof.
  induction l as [|y l IH]; simpl; intros Hs.
  - repeat constructor.
  - destruct (Z.leb_spec x y) as [Hxy|Hxy].
    + constructor; [assumption | constructor; assumption].
    + inversion Hs as [|? ? Hs' Hhd]; subst.
      constructor; [now apply IH|].
      destruct l as [|z l]; simpl.
      * constructor. lia.
      * destruct (x <=? z); constructor; try lia.
        inversion Hhd; subst. assumption.
Qed.

(** [sorted] returns its argument's elements in non-decreasing order. *)
Lemma sorted_ordered (l : list Z) : Sorted Z.le (V4.sorted l).
Proof.
  induction l as [|x l IH]; simpl; [constructor|].
  now apply insert_sorted_ordered.
Qed.

(** *** The inclusive count *)

Lemma filter_length_perm {A} (f : A -> bool) (l l' : list A) :
  Permutation l l' ->
  List.length (filter f l) = List.length (filter f l').
Proof.
  induction 1 as [|x l l' _ IH|x y l|l l' l'' _ IH1 _ IH2]; simpl.
  - reflexivity.
  - destruct (f x); simpl; congruence.
  - destruct (f x), (f y); reflexivity.
  - congruence.
Qed.

Lemma count_le_perm (l l' : list Z) (v : Z) :
  Permutation l l' -> V4.count_le l v = V4.count_le l' v.
Proof.
  intros H. unfold V4.count_le. f_equal. now apply filter_length_perm.
Qed.

(** Counting over the sorted views is counting over the batch. *)
Lemma count_le_sorted_views (tracks : list V4.Result) (v : Z) :
  V4.count_le (V4.sorted (map V4.r_view_count tracks)) v
  = tracks_at_most tracks v.
Proof.
  rewrite (count_le_perm _ _ v (sorted_perm _)).
  unfold V4.count_le, tracks_at_most. f_equal.
  induction tracks as [|t tracks IH]; simpl; [reflexivity|].
  destruct (V4.r_view_count t <=? v); simpl; congruence.
Qed.

Lemma length_sorted_views (tracks : list V4.Result) :
  List.length (V4.sorted (map V4.r_view_count tracks)) = List.length tracks.
Proof.
  rewrite (Permutation_length (sorted_perm _)). apply length_map.
Qed.

Lemma tracks_at_most_mono (tracks : list V4.Result) (v1 v2 : Z) :
  v1 <= v2 -> tracks_at_most tracks v1 <= tracks_at_most tracks v2.
Proof.
  intros Hle. unfold tracks_at_most. apply inj_le.
  induction tracks as [|t tracks IH]; simpl; [lia|].
  destruct (Z.leb_spec (V4.r_view_count t) v1);
    destruct (Z.leb_spec (V4.r_view_count t) v2); simpl; lia.
Qed.

Lemma tracks_at_most_bounds (tracks : list V4.Result) (v : Z) :
  0 <= tracks_at_most tracks v <= Z.of_nat (List.length tracks).
Proof.
  unfold tracks_at_most. split; [lia|]. apply inj_le.
  induction tracks as [|t tracks IH]; simpl; [lia|].
  destruct (V4.r_view_count t <=? v); simpl; lia.
Qed.

(** A track of the batch is counted by its own view count. *)
Lemma tracks_at_most_own (tracks : list V4.Result) (t : V4.Result) :
  In t tracks -> 1 <= tracks_at_most tracks (V4.r_view_count t).
Proof.
  intros Hin. unfold tracks_at_most.
  assert (Hf : In t (filter (fun t' => V4.r_view_count t' <=? V4.r_view_count t)
                            tracks)).
  { apply filter_In. split; [assumption | apply Z.leb_refl]. }
  destruct (filter _ tracks); [destruct Hf | simpl; lia].
Qed.

(** A view count no track exceeds is counted by the whole batch. *)
Lemma tracks_at_most_max (tracks : list V4.Result) (v : Z) :
  (forall t, In t tracks -> V4.r_view_count t <= v) ->
  tracks_at_most tracks v = Z.of_nat (List.length tracks).
Proof.
  intros Hmax. unfold tracks_at_most. f_equal.
  induction tracks as [|t tracks IH]; simpl; [reflexivity|].
  destruct (Z.leb_spec (V4.r_view_count t) v) as [_|Hlt].
  - simpl. f_equal. apply IH. intros t' Ht'. apply Hmax. now right.
  - specialize (Hmax t (or_introl eq_refl)). lia.
Qed.

(** *** Rounding *)

Local Open Scope Q_scope.

Lemma pow2_pos (k : Z) : 0 < PyFloat.pow2 k.
Proof. unfold PyFloat.pow2. apply Qpower_0_lt. reflexivity. Qed.

Lemma pow2_plus (a b : Z) : PyFloat.pow2 (a + b) == PyFloat.pow2 a * PyFloat.pow2 b.
Proof. unfold PyFloat.pow2. apply Qpower_plus. discriminate. Qed.

Lemma pow2_le (a b : Z) : (a <= b)%Z -> PyFloat.pow2 a <= PyFloat.pow2 b.
Proof. intros H. unfold PyFloat.pow2. apply Qpower_le_compat_l; [exact H | discriminate]. Qed.

Lemma pow2_lt (a b : Z) : (a < b)%Z -> PyFloat.pow2 a < PyFloat.pow2 b.
Proof. intros H. unfold PyFloat.pow2. apply Qpower_lt_compat_l; [exact H | reflexivity]. Qed.

Lemma pow2_Z (n : Z) : (0 <= n)%Z -> PyFloat.pow2 n == inject_Z (2 ^ n).
Proof. intros H. unfold PyFloat.pow2. now rewrite Zpower_Qpower. Qed.

Lemma pow2_div (a b : Z) : (b <= a)%Z -> PyFloat.pow2 a / PyFloat.pow2 b == inject_Z (2 ^ (a - b)).
Proof.
  intros H. rewrite <- pow2_Z by lia.
  replace a with ((a - b) + b)%Z at 1 by lia. rewrite pow2_plus.
  pose proof (pow2_pos b) as Hb. field. intros E. rewrite E in Hb. discriminate.
Qed.

Lemma ilog2_spec (q : Q) : 0 < q -> PyFloat.pow2 (PyFloat.ilog2 q) <= q /\ q < PyFloat.pow2 (PyFloat.ilog2 q + 1).
Proof.
  intros Hq. destruct q as [n d].
  assert (Hn : (0 < n)%Z).
  { unfold Qlt in Hq. cbn in Hq. lia. }
  pose proof (Z.log2_spec n Hn) as [Ha1 Ha2].
  pose proof (Z.log2_spec (Zpos d) eq_refl) as [Hb1 Hb2].
  pose proof (Z.log2_nonneg n) as Ha0.
  pose proof (Z.log2_nonneg (Zpos d)) as Hb0.
  set (a := Z.log2 n) in *. set (b := Z.log2 (Zpos d)) in *.
  assert (Hd : 0 < inject_Z (Zpos d)) by reflexivity.
  assert (Hup : n # d < PyFloat.pow2 (a - b + 1)).
  { rewrite (Qmake_Qdiv n d). apply Qlt_shift_div_r; [exact Hd | ].
    apply Qlt_le_trans with (PyFloat.pow2 (a - b + 1) * PyFloat.pow2 b).
    - rewrite <- pow2_plus. replace (a - b + 1 + b)%Z with (Z.succ a) by lia.
      rewrite pow2_Z by lia. now rewrite <- Zlt_Qlt.
    - apply Qmult_le_l; [apply pow2_pos | ].
      rewrite pow2_Z by lia. now rewrite <- Zle_Qle. }
  assert (Hlo : PyFloat.pow2 (a - b - 1) <= n # d).
  { rewrite (Qmake_Qdiv n d). apply Qle_shift_div_l; [exact Hd | ].
    apply Qle_trans with (PyFloat.pow2 (a - b - 1) * PyFloat.pow2 (Z.succ b)).
    - apply Qmult_le_l; [apply pow2_pos | ].
      rewrite pow2_Z by lia. rewrite <- Zle_Qle. lia.
    - rewrite <- pow2_plus. replace (a - b - 1 + Z.succ b)%Z with a by lia.
      rewrite pow2_Z by lia. now rewrite <- Zle_Qle. }
  unfold PyFloat.ilog2. cbn [Qnum Qden]. fold a b.
  destruct (Qle_bool (PyFloat.pow2 (a - b)) (n # d)) eqn:E.
  - apply Qle_bool_iff in E. split; assumption.
  - split; [exact Hlo | ].
    replace (a - b - 1 + 1)%Z with (a - b)%Z by lia.
    apply Qnot_le_lt. intros H. apply Qle_bool_iff in H. congruence.
Qed.

Lemma ilog2_unique (q : Q) (e : Z) :
  0 < q -> PyFloat.pow2 e <= q -> q < PyFloat.pow2 (e + 1) -> PyFloat.ilog2 q = e.
Proof.
  intros Hq H1 H2. destruct (ilog2_spec q Hq) as [H3 H4].
  destruct (Z.lt_trichotomy (PyFloat.ilog2 q) e) as [L | [E | G]]; [ | exact E | ]; exfalso.
  - assert (H : PyFloat.pow2 (PyFloat.ilog2 q + 1) <= PyFloat.pow2 e) by (apply pow2_le; lia). lra.
  - assert (H : PyFloat.pow2 (e + 1) <= PyFloat.pow2 (PyFloat.ilog2 q)) by (apply pow2_le; lia). lra.
Qed.

Lemma ilog2_mono (q1 q2 : Q) : 0 < q1 -> q1 <= q2 -> (PyFloat.ilog2 q1 <= PyFloat.ilog2 q2)%Z.
Proof.
  intros H1 Hle. assert (H2 : 0 < q2) by lra.
  destruct (ilog2_spec q1 H1) as [A1 B1]. destruct (ilog2_spec q2 H2) as [A2 B2].
  destruct (Z_le_gt_dec (PyFloat.ilog2 q1) (PyFloat.ilog2 q2)) as [L | G]; [exact L | exfalso].
  assert (H : PyFloat.pow2 (PyFloat.ilog2 q2 + 1) <= PyFloat.pow2 (PyFloat.ilog2 q1)) by (apply pow2_le; lia). lra.
Qed.

Lemma ilog2_lt (q : Q) (E : Z) : 0 < q -> q < PyFloat.pow2 E -> (PyFloat.ilog2 q < E)%Z.
Proof.
  intros Hq H. destruct (ilog2_spec q Hq) as [A _].
  destruct (Z_lt_le_dec (PyFloat.ilog2 q) E) as [L | G]; [exact L | exfalso].
  assert (H' : PyFloat.pow2 E <= PyFloat.pow2 (PyFloat.ilog2 q)) by (apply pow2_le; lia). lra.
Qed.

Lemma Qabs_pos_eq (q : Q) : 0 <= q -> Qabs q = q.
Proof.
  destruct q as [[|p|p] d]; intros H; try reflexivity.
  exfalso. unfold Qle in H. cbn in H. lia.
Qed.

Lemma round_half_even_comp (q1 q2 : Q) :
  q1 == q2 -> PyFloat.round_half_even q1 = PyFloat.round_half_even q2.
Proof.
  intros H. unfold PyFloat.round_half_even.
  rewrite (Qfloor_comp _ _ H).
  assert (Hc : (q1 - inject_Z (Qfloor q2) ?= 1 # 2)
               = (q2 - inject_Z (Qfloor q2) ?= 1 # 2)).
  { apply Qcompare_comp; [now rewrite H | reflexivity]. }
  now rewrite Hc.
Qed.

Lemma round_half_even_floor (q : Q) :
  (Qfloor q <= PyFloat.round_half_even q <= Qfloor q + 1)%Z.
Proof.
  unfold PyFloat.round_half_even.
  destruct (q - inject_Z (Qfloor q) ?= 1 # 2); [destruct (Z.even _)| |]; lia.
Qed.

Lemma round_half_even_Z (z : Z) : PyFloat.round_half_even (inject_Z z) = z.
Proof.
  unfold PyFloat.round_half_even. rewrite Qfloor_Z.
  destruct (Qcompare_spec (inject_Z z - inject_Z z) (1 # 2)) as [E|L|G];
    [exfalso; lra | reflexivity | exfalso; lra].
Qed.

Lemma round_half_even_mono (q1 q2 : Q) :
  q1 <= q2 -> (PyFloat.round_half_even q1 <= PyFloat.round_half_even q2)%Z.
Proof.
  intros Hle.
  pose proof (Qfloor_resp_le _ _ Hle) as Hf.
  pose proof (round_half_even_floor q1) as H1.
  pose proof (round_half_even_floor q2) as H2.
  destruct (Z.eq_dec (Qfloor q1) (Qfloor q2)) as [Heq|Hne]; [ | lia].
  unfold PyFloat.round_half_even in *. rewrite <- Heq in *.
  set (f := Qfloor q1) in *.
  destruct (Qcompare_spec (q1 - inject_Z f) (1 # 2)) as [E1|L1|G1];
    destruct (Qcompare_spec (q2 - inject_Z f) (1 # 2)) as [E2|L2|G2];
    try destruct (Z.even f); try lia; exfalso; lra.
Qed.

(** The nearest integer is within one half. *)
Lemma round_half_even_error (q : Q) :
  q - (1 # 2) <= inject_Z (PyFloat.round_half_even q) <= q + (1 # 2).
Proof.
  pose proof (Qfloor_le q) as H1. pose proof (Qlt_floor q) as H2.
  rewrite inject_Z_plus in H2. change (inject_Z 1) with 1 in H2.
  unfold PyFloat.round_half_even.
  destruct (Qcompare_spec (q - inject_Z (Qfloor q)) (1 # 2)) as [E|L|G];
    [destruct (Z.even (Qfloor q)) | | ];
    rewrite ?inject_Z_plus; change (inject_Z 1) with 1; split; lra.
Qed.

(** *** PyFloat.binary64 *)

Lemma binary64_eq (q : Q) :
  PyFloat.binary64 q
  == inject_Z (PyFloat.round_half_even (q / PyFloat.pow2 (PyFloat.ulp_exponent q))) * PyFloat.pow2 (PyFloat.ulp_exponent q).
Proof. unfold PyFloat.binary64. cbv zeta. apply Qred_correct. Qed.

Lemma ulp_exponent_pos (q : Q) :
  0 < q -> PyFloat.ulp_exponent q = Z.max (PyFloat.ilog2 q - 52) (-1074).
Proof. intros H. unfold PyFloat.ulp_exponent. rewrite Qabs_pos_eq by lra. reflexivity. Qed.

Lemma ulp_exponent_mono (q1 q2 : Q) :
  0 < q1 -> q1 <= q2 -> (PyFloat.ulp_exponent q1 <= PyFloat.ulp_exponent q2)%Z.
Proof.
  intros H1 Hle. rewrite !ulp_exponent_pos by lra.
  pose proof (ilog2_mono q1 q2 H1 Hle). lia.
Qed.

Lemma div_pow2_le (q1 q2 : Q) (k : Z) : q1 <= q2 -> q1 / PyFloat.pow2 k <= q2 / PyFloat.pow2 k.
Proof.
  intros H. unfold Qdiv. apply Qmult_le_compat_r; [exact H | ].
  apply Qinv_le_0_compat. apply Qlt_le_weak. apply pow2_pos.
Qed.

Lemma mul_pow2_le (q1 q2 : Q) (k : Z) : q1 <= q2 -> q1 * PyFloat.pow2 k <= q2 * PyFloat.pow2 k.
Proof.
  intros H. apply Qmult_le_compat_r; [exact H | ].
  apply Qlt_le_weak. apply pow2_pos.
Qed.

Lemma pow2_split (E k : Z) : (k <= E)%Z -> inject_Z (2 ^ (E - k)) * PyFloat.pow2 k == PyFloat.pow2 E.
Proof.
  intros H. rewrite <- pow2_Z by lia. rewrite <- pow2_plus.
  now replace (E - k + k)%Z with E by lia.
Qed.

(** A value at most a power of two rounds to at most that power. *)
Lemma binary64_upper (q : Q) (E : Z) :
  q <= PyFloat.pow2 E -> (PyFloat.ulp_exponent q <= E)%Z -> PyFloat.binary64 q <= PyFloat.pow2 E.
Proof.
  intros Hq Hk. rewrite binary64_eq. set (k := PyFloat.ulp_exponent q) in *.
  rewrite <- (pow2_split E k Hk). apply mul_pow2_le. rewrite <- Zle_Qle.
  rewrite <- (round_half_even_Z (2 ^ (E - k))).
  apply round_half_even_mono. rewrite <- pow2_div by exact Hk.
  now apply div_pow2_le.
Qed.

Lemma binary64_lower (q : Q) (E : Z) :
  PyFloat.pow2 E <= q -> (PyFloat.ulp_exponent q <= E)%Z -> PyFloat.pow2 E <= PyFloat.binary64 q.
Proof.
  intros Hq Hk. rewrite binary64_eq. set (k := PyFloat.ulp_exponent q) in *.
  rewrite <- (pow2_split E k Hk). apply mul_pow2_le. rewrite <- Zle_Qle.
  rewrite <- (round_half_even_Z (2 ^ (E - k))).
  apply round_half_even_mono. rewrite <- pow2_div by exact Hk.
  now apply div_pow2_le.
Qed.

Lemma binary64_zero (q : Q) : q == 0 -> PyFloat.binary64 q == 0.
Proof.
  intros H. rewrite binary64_eq.
  rewrite (round_half_even_comp _ 0).
  - change (PyFloat.round_half_even 0) with 0%Z. change (inject_Z 0) with 0. ring.
  - generalize (PyFloat.ulp_exponent q). intros k. rewrite H. unfold Qdiv. ring.
Qed.

Lemma binary64_nonneg (q : Q) : 0 <= q -> 0 <= PyFloat.binary64 q.
Proof.
  intros H. rewrite binary64_eq.
  apply Qmult_le_0_compat; [ | apply Qlt_le_weak, pow2_pos].
  change 0 with (inject_Z 0). rewrite <- Zle_Qle.
  rewrite <- (round_half_even_Z 0). apply round_half_even_mono.
  change (inject_Z 0) with 0.
  apply Qle_shift_div_l; [apply pow2_pos | lra].
Qed.

(** Rounding to PyFloat.binary64 is monotone (on the non-negative numbers, which
    is where the percentile pass uses it). *)
Lemma binary64_mono (q1 q2 : Q) :
  0 <= q1 -> q1 <= q2 -> PyFloat.binary64 q1 <= PyFloat.binary64 q2.
Proof.
  intros H0 Hle.
  destruct (Qlt_le_dec 0 q1) as [Hpos | Hz].
  2:{ rewrite (binary64_zero q1) by lra. apply binary64_nonneg. lra. }
  assert (Hpos2 : 0 < q2) by lra.
  pose proof (ulp_exponent_mono q1 q2 Hpos Hle) as Hk.
  destruct (Z.eq_dec (PyFloat.ulp_exponent q1) (PyFloat.ulp_exponent q2)) as [E | N].
  - rewrite !binary64_eq. rewrite E. apply mul_pow2_le. rewrite <- Zle_Qle.
    apply round_half_even_mono. now apply div_pow2_le.
  - assert (Hlt : (PyFloat.ulp_exponent q1 < PyFloat.ulp_exponent q2)%Z) by lia.
    pose proof (ulp_exponent_pos q1 Hpos) as K1.
    pose proof (ulp_exponent_pos q2 Hpos2) as K2.
    destruct (ilog2_spec q1 Hpos) as [_ U1].
    destruct (ilog2_spec q2 Hpos2) as [L2 _].
    set (e2 := PyFloat.ilog2 q2) in *.
    apply Qle_trans with (PyFloat.pow2 e2).
    + apply binary64_upper; [ | lia].
      apply Qle_trans with (PyFloat.pow2 (PyFloat.ilog2 q1 + 1)); [lra | apply pow2_le; lia].
    + apply binary64_lower; [exact L2 | lia].
Qed.

Lemma binary64_comp (q1 q2 : Q) : 0 <= q1 -> q1 == q2 -> PyFloat.binary64 q1 = PyFloat.binary64 q2.
Proof.
  intros H0 H.
  assert (E : PyFloat.binary64 q1 == PyFloat.binary64 q2).
  { apply Qle_antisym; apply binary64_mono; lra. }
  unfold PyFloat.binary64 in *. cbv zeta in *. rewrite !Qred_correct in E.
  now apply Qred_complete.
Qed.

(** The rounding error is at most half a unit in the last place. *)
Lemma binary64_error (q : Q) :
  PyFloat.binary64 q - PyFloat.pow2 (PyFloat.ulp_exponent q - 1) <= q
  /\ q <= PyFloat.binary64 q + PyFloat.pow2 (PyFloat.ulp_exponent q - 1).
Proof.
  rewrite binary64_eq. set (k := PyFloat.ulp_exponent q).
  pose proof (round_half_even_error (q / PyFloat.pow2 k)) as [H1 H2].
  pose proof (pow2_pos k) as Hk.
  assert (Hhalf : PyFloat.pow2 (k - 1) == (1 # 2) * PyFloat.pow2 k).
  { replace k with ((k - 1) + 1)%Z at 2 by lia. rewrite pow2_plus.
    change (PyFloat.pow2 1) with 2. ring. }
  assert (Hq : q == q / PyFloat.pow2 k * PyFloat.pow2 k).
  { field. intros E. rewrite E in Hk. discriminate. }
  set (m := inject_Z (PyFloat.round_half_even (q / PyFloat.pow2 k))) in *.
  set (y := q / PyFloat.pow2 k) in *.
  split.
  - assert (H : (m - (1 # 2)) * PyFloat.pow2 k <= y * PyFloat.pow2 k) by (apply mul_pow2_le; lra).
    lra.
  - assert (H : y * PyFloat.pow2 k <= (m + (1 # 2)) * PyFloat.pow2 k) by (apply mul_pow2_le; lra).
    lra.
Qed.

Lemma binary64_error_below (q : Q) (E : Z) :
  0 <= q -> q < PyFloat.pow2 E -> (-1021 <= E)%Z ->
  PyFloat.binary64 q - PyFloat.pow2 (E - 54) <= q /\ q <= PyFloat.binary64 q + PyFloat.pow2 (E - 54).
Proof.
  intros H0 Hq HE.
  destruct (Qlt_le_dec 0 q) as [Hpos | Hz].
  - pose proof (binary64_error q) as [H1 H2].
    assert (Hk : (PyFloat.ulp_exponent q - 1 <= E - 54)%Z).
    { rewrite ulp_exponent_pos by exact Hpos.
      pose proof (ilog2_lt q E Hpos Hq). lia. }
    pose proof (pow2_le _ _ Hk). lra.
  - pose proof (binary64_zero q) as Hb. pose proof (pow2_pos (E - 54)).
    rewrite Hb by lra. lra.
Qed.

(** *** The percentile expression *)

Lemma ratio_bounds (c n : Z) :
  (0 <= c <= n)%Z -> (0 < n)%Z -> 0 <= inject_Z c / inject_Z n <= 1.
Proof.
  intros [Hc1 Hc2] Hn.
  rewrite Zle_Qle in Hc1, Hc2. rewrite Zlt_Qlt in Hn.
  change (inject_Z 0) with 0 in *.
  split.
  - apply Qle_shift_div_l; [exact Hn | lra].
  - apply Qle_shift_div_r; [exact Hn | lra].
Qed.

Lemma ratio_nonneg (c n : Z) :
  (0 <= c)%Z -> (0 < n)%Z -> 0 <= inject_Z c / inject_Z n.
Proof.
  intros Hc Hn. rewrite Zle_Qle in Hc. rewrite Zlt_Qlt in Hn.
  change (inject_Z 0) with 0 in *.
  apply Qle_shift_div_l; [exact Hn | lra].
Qed.

Lemma ratio_mono (c1 c2 n : Z) :
  (c1 <= c2)%Z -> (0 < n)%Z -> inject_Z c1 / inject_Z n <= inject_Z c2 / inject_Z n.
Proof.
  intros Hc Hn. rewrite Zle_Qle in Hc. rewrite Zlt_Qlt in Hn.
  change (inject_Z 0) with 0 in *.
  unfold Qdiv. apply Qmult_le_compat_r; [exact Hc | ].
  apply Qinv_le_0_compat. lra.
Qed.

Lemma binary64_1 : PyFloat.binary64 1 = 1.
Proof. vm_compute. reflexivity. Qed.

Lemma binary64_100 : PyFloat.binary64 100 = 100.
Proof. vm_compute. reflexivity. Qed.

Lemma truediv_bounds (c n : Z) :
  (0 <= c <= n)%Z -> (0 < n)%Z -> 0 <= PyFloat.truediv c n <= 1.
Proof.
  intros Hc Hn. destruct (ratio_bounds c n Hc Hn) as [H0 H1]. unfold PyFloat.truediv.
  split; [now apply binary64_nonneg | ].
  apply Qle_trans with (PyFloat.binary64 1); [now apply binary64_mono | ].
  rewrite binary64_1. apply Qle_refl.
Qed.

Lemma mul_100_bounds (x : Q) : 0 <= x <= 1 -> 0 <= PyFloat.mul x 100 <= 100.
Proof.
  intros [H0 H1]. unfold PyFloat.mul. split.
  - apply binary64_nonneg. lra.
  - apply Qle_trans with (PyFloat.binary64 100); [apply binary64_mono; lra | ].
    rewrite binary64_100. apply Qle_refl.
Qed.

Lemma mul_100_mono (x1 x2 : Q) : 0 <= x1 -> x1 <= x2 -> PyFloat.mul x1 100 <= PyFloat.mul x2 100.
Proof. intros H0 H. unfold PyFloat.mul. apply binary64_mono; lra. Qed.

Lemma hundredths_nonneg (x : Q) : 0 <= x -> (0 <= PyFloat.round_half_even (x * 100))%Z.
Proof.
  intros H. rewrite <- (round_half_even_Z 0). apply round_half_even_mono.
  change (inject_Z 0) with 0. lra.
Qed.

Lemma round2_mono (x1 x2 : Q) : 0 <= x1 -> x1 <= x2 -> V4.round2 x1 <= V4.round2 x2.
Proof.
  intros H0 Hle. unfold V4.round2.
  assert (H : (PyFloat.round_half_even (x1 * 100) <= PyFloat.round_half_even (x2 * 100))%Z).
  { apply round_half_even_mono. lra. }
  pose proof (hundredths_nonneg x1 H0) as Hk.
  rewrite Zle_Qle in H, Hk. change (inject_Z 0) with 0 in Hk.
  apply binary64_mono.
  - apply Qle_shift_div_l; [reflexivity | lra].
  - unfold Qdiv. apply Qmult_le_compat_r; [exact H | discriminate].
Qed.

Lemma round2_bounds (x : Q) : 0 <= x <= 100 -> 0 <= V4.round2 x <= 100.
Proof.
  intros [H0 H1]. split.
  - unfold V4.round2. apply binary64_nonneg.
    pose proof (hundredths_nonneg x H0) as Hk. rewrite Zle_Qle in Hk.
    change (inject_Z 0) with 0 in Hk.
    apply Qle_shift_div_l; [reflexivity | lra].
  - apply Qle_trans with (V4.round2 100); [now apply round2_mono | ].
    vm_compute. discriminate.
Qed.

(** The expression is monotone in the quotient it starts from. *)
Lemma percentile_of_ratio_mono (q1 q2 : Q) :
  0 <= q1 -> q1 <= q2 ->
  V4.round2 (PyFloat.mul (PyFloat.binary64 q1) 100) <= V4.round2 (PyFloat.mul (PyFloat.binary64 q2) 100).
Proof.
  intros H0 Hle.
  pose proof (binary64_nonneg q1 H0) as Hb.
  pose proof (binary64_mono q1 q2 H0 Hle) as Hm.
  apply round2_mono.
  - unfold PyFloat.mul. apply binary64_nonneg. lra.
  - now apply mul_100_mono.
Qed.

Lemma stored_percentile_mono (c1 c2 n : Z) :
  (0 <= c1 <= c2)%Z -> (0 < n)%Z -> stored_percentile c1 n <= stored_percentile c2 n.
Proof.
  intros [H0 Hc] Hn. unfold stored_percentile, PyFloat.truediv.
  apply percentile_of_ratio_mono.
  - now apply ratio_nonneg.
  - now apply ratio_mono.
Qed.

Lemma stored_percentile_bounds (c n : Z) :
  (0 <= c <= n)%Z -> (0 < n)%Z -> 0 <= stored_percentile c n <= 100.
Proof.
  intros Hc Hn. unfold stored_percentile. apply round2_bounds.
  apply mul_100_bounds. now apply truediv_bounds.
Qed.

(** A full count gives exactly 100.0. *)
Lemma stored_percentile_full (n : Z) : (0 < n)%Z -> stored_percentile n n = 100.
Proof.
  intros Hn. unfold stored_percentile, PyFloat.truediv.
  assert (H1 : inject_Z n / inject_Z n == 1).
  { rewrite Zlt_Qlt in Hn. change (inject_Z 0) with 0 in Hn.
    field. intros E. rewrite E in Hn. discriminate. }
  rewrite (binary64_comp _ 1); [ | rewrite H1; discriminate | exact H1].
  vm_compute. reflexivity.
Qed.

(** The float product is the exact percentile up to 2^-45. *)
Lemma float_product_error (c n : Z) :
  (0 <= c <= n)%Z -> (0 < n)%Z ->
  let exact := inject_Z c / inject_Z n * 100 in
  let x := PyFloat.mul (PyFloat.truediv c n) 100 in
  exact - (1 # 35184372088832) <= x /\ x <= exact + (1 # 35184372088832).
Proof.
  intros Hc Hn exact x.
  destruct (ratio_bounds c n Hc Hn) as [Hq0 Hq1].
  destruct (truediv_bounds c n Hc Hn) as [Ht0 Ht1].
  unfold x, exact, PyFloat.mul. unfold PyFloat.truediv in *.
  set (q := inject_Z c / inject_Z n) in *.
  assert (E1 : PyFloat.pow2 (1 - 54) == 1 # 9007199254740992) by reflexivity.
  assert (E7 : PyFloat.pow2 (7 - 54) == 1 # 140737488355328) by reflexivity.
  assert (P1 : PyFloat.pow2 1 == 2) by reflexivity.
  assert (P7 : PyFloat.pow2 7 == 128) by reflexivity.
  destruct (binary64_error_below q 1) as [A1 A2]; [lra | lra | lia | ].
  destruct (binary64_error_below (PyFloat.binary64 q * 100) 7) as [B1 B2];
    [lra | lra | lia | ].
  rewrite E1 in A1, A2. rewrite E7 in B1, B2.
  split; lra.
Qed.

Lemma hundredths_range (x : Q) :
  0 <= x <= 100 -> (0 <= PyFloat.round_half_even (x * 100) <= 10000)%Z.
Proof.
  intros [H0 H1]. split; [now apply hundredths_nonneg | ].
  rewrite <- (round_half_even_Z 10000). apply round_half_even_mono.
  change (inject_Z 10000) with 10000. lra.
Qed.

(** The stored percentile is the float nearest to a number with two
    decimals, and that number is a nearest hundredth of the exact
    percentile up to the error of the float product; in a batch of at
    most 10^11 tracks it is a nearest hundredth outright. *)
Lemma stored_percentile_hundredths (c n : Z) :
  (0 <= c <= n)%Z -> (0 < n)%Z ->
  let exact := inject_Z c / inject_Z n * 100 in
  exists k : Z,
    (0 <= k <= 10000)%Z
    /\ stored_percentile c n = PyFloat.binary64 (inject_Z k / 100)
    /\ Qabs (inject_Z k / 100 - exact) <= (1 # 200) + (1 # 10000000000000)
    /\ ((n <= 100000000000)%Z -> Qabs (inject_Z k / 100 - exact) <= 1 # 200).
Proof.
  intros Hc Hn exact.
  pose proof (float_product_error c n Hc Hn) as Herr. cbv zeta in Herr.
  fold exact in Herr.
  pose proof (mul_100_bounds _ (truediv_bounds c n Hc Hn)) as Hx.
  set (x := PyFloat.mul (PyFloat.truediv c n) 100) in *.
  exists (PyFloat.round_half_even (x * 100)).
  pose proof (round_half_even_error (x * 100)) as Hk.
  set (k := PyFloat.round_half_even (x * 100)) in *.
  split; [now apply hundredths_range | ].
  split; [reflexivity | ].
  assert (Hdiv : inject_Z k / 100 == inject_Z k * (1 # 100)) by (unfold Qdiv; reflexivity).
  split.
  - apply Qabs_Qle_condition. rewrite Hdiv. split; lra.
  - intros Hsmall.
    assert (HN : 0 < inject_Z n).
    { change 0 with (inject_Z 0). now rewrite <- Zlt_Qlt. }
    assert (HN' : inject_Z n <= 100000000000).
    { change 100000000000 with (inject_Z 100000000000). now rewrite <- Zle_Qle. }
    assert (Hex : exact * inject_Z n == 100 * inject_Z c).
    { unfold exact. field. intros E. rewrite E in HN. discriminate. }
    set (a := inject_Z k - 100 * exact).
    assert (Ha : - ((1 # 2) + (100 # 35184372088832)) <= a
                 /\ a <= (1 # 2) + (100 # 35184372088832)).
    { unfold a. split; lra. }
    set (z := (2 * k * n - 20000 * c)%Z).
    assert (Hz : inject_Z z == 2 * (a * inject_Z n)).
    { unfold z, a, Z.sub. rewrite inject_Z_plus, inject_Z_opp, !inject_Z_mult.
      change (inject_Z 2) with 2. change (inject_Z 20000) with 20000.
      setoid_replace (2 * ((inject_Z k - 100 * exact) * inject_Z n))
        with (2 * inject_Z k * inject_Z n - 200 * (exact * inject_Z n)) by ring.
      rewrite Hex. ring. }
    destruct Ha as [Ha1 Ha2].
    assert (Hm1 : - ((1 # 2) + (100 # 35184372088832)) * inject_Z n <= a * inject_Z n).
    { apply Qmult_le_compat_r; [exact Ha1 | lra]. }
    assert (Hm2 : a * inject_Z n <= ((1 # 2) + (100 # 35184372088832)) * inject_Z n).
    { apply Qmult_le_compat_r; [exact Ha2 | lra]. }
    set (aN := a * inject_Z n) in *.
    assert (Hzn : (- n <= z <= n)%Z).
    { assert (H1 : inject_Z z < inject_Z (n + 1)).
      { rewrite inject_Z_plus. change (inject_Z 1) with 1. lra. }
      assert (H2 : inject_Z (- n - 1) < inject_Z z).
      { unfold Z.sub. rewrite inject_Z_plus, !inject_Z_opp.
        change (inject_Z 1) with 1. lra. }
      rewrite <- Zlt_Qlt in H1, H2. lia. }
    destruct Hzn as [Hz1 Hz2]. rewrite Zle_Qle in Hz1, Hz2.
    rewrite inject_Z_opp in Hz1.
    assert (Hhalf : - (1 # 2) <= a /\ a <= 1 # 2).
    { split.
      - apply Qmult_lt_0_le_reg_r with (inject_Z n); [exact HN | ]. fold aN. lra.
      - apply Qmult_lt_0_le_reg_r with (inject_Z n); [exact HN | ]. fold aN. lra. }
    apply Qabs_Qle_condition. rewrite Hdiv. unfold a in Hhalf. split; lra.
Qed.

(** In a batch of at most 20,000 tracks a counted track never rounds to
    0.0: the least percentile, that of one track in 20,000, is stored as
    0.01. *)
Lemma stored_percentile_positive (c n : Z) :
  (1 <= c)%Z -> (0 < n <= 20000)%Z -> PyFloat.binary64 (1 # 100) <= stored_percentile c n.
Proof.
  intros Hc [Hn Hsmall].
  apply Qle_trans with (stored_percentile 1 n); [ | apply stored_percentile_mono; lia].
  apply Qle_trans with (V4.round2 (PyFloat.mul (PyFloat.binary64 (1 # 20000)) 100)).
  - vm_compute. discriminate.
  - unfold stored_percentile, PyFloat.truediv. apply percentile_of_ratio_mono; [discriminate | ].
    rewrite Zlt_Qlt in Hn. rewrite Zle_Qle in Hsmall.
    change (inject_Z 0) with 0 in Hn. change (inject_Z 20000) with 20000 in Hsmall.
    change (inject_Z 1) with 1.
    apply Qle_shift_div_l; [exact Hn | ]. lra.
Qed.

(** [binary64], division and product agree with the IEEE 754 operations
    of the Standard Library on every count and batch size up to 12, and
    the conversion of a two-decimal number agrees with the correctly
    rounded quotient by 100 for every number of hundredths up to 1.20,
    as they do at the two quotients met below. *)
Example binary64_agrees_with_SpecFloat :
  forallb (fun c => forallb (fun n =>
             Qeq_bool (PyFloat.mul (PyFloat.truediv (Z.of_nat c) (Z.of_nat n)) 100)
                      (ieee_percent (Z.of_nat c) (Z.of_nat n)))
             (seq 1 12)) (seq 1 12) = true
  /\ forallb (fun k => Qeq_bool (PyFloat.binary64 (inject_Z (Z.of_nat k) / 100))
                                (ieee_hundredths (Z.of_nat k)))
             (seq 1 120) = true
  /\ PyFloat.mul (PyFloat.truediv 23 160) 100 = ieee_percent 23 160
  /\ PyFloat.mul (PyFloat.truediv 1 20000) 100 = ieee_percent 1 20000
  /\ PyFloat.binary64 (1437 # 100) = ieee_hundredths 1437
  /\ PyFloat.binary64 (3333 # 100) = ieee_hundredths 3333.
Proof. vm_compute. repeat split. Qed.

(** The values Python prints as 14.37, 0.01 and 0.0. *)
Example stored_percentile_examples :
  stored_percentile 23 160 = 8089590830664253 # 562949953421312
  /\ stored_percentile 23 160 = PyFloat.binary64 (1437 # 100)
  /\ stored_percentile 1 20000 = PyFloat.binary64 (1 # 100)
  /\ stored_percentile 1 20001 = 0.
Proof. vm_compute. repeat split. Qed.

(** *** The percentile pass *)

Lemma get_percentile_batch (tracks : list V4.Result) (v : Z) :
  tracks <> [] ->
  V4.get_percentile (V4.sorted (map V4.r_view_count tracks)) v
  = PyFloat.mul (PyFloat.truediv (tracks_at_most tracks v)
                                 (Z.of_nat (List.length tracks))) 100.
Proof.
  intros Hne. unfold V4.get_percentile.
  pose proof (length_sorted_views tracks) as Hlen.
  pose proof (count_le_sorted_views tracks v) as Hc.
  destruct (V4.sorted (map V4.r_view_count tracks)) as [|x l].
  - destruct tracks; [congruence | discriminate Hlen].
  - now rewrite Hc, Hlen.
Qed.

(** What the pass does to one track of a non-empty batch: the view
    count is kept and the percentile is the rounded float expression on
    the inclusive count of the batch. *)
Lemma calculate_view_percentiles_track (tracks : list V4.Result) (t : V4.Result) :
  tracks <> [] ->
  let t' := V4.set_view_percentile t
              (V4.round2 (V4.get_percentile
                            (V4.sorted (map V4.r_view_count tracks))
                            (V4.r_view_count t))) in
  V4.r_view_count t' = V4.r_view_count t
  /\ V4.r_view_percentile t'
     = stored_percentile (tracks_at_most tracks (V4.r_view_count t))
                         (Z.of_nat (List.length tracks)).
Proof.
  intros Hne. cbn. split; [reflexivity | ].
  unfold stored_percentile. now rewrite get_percentile_batch.
Qed.

Lemma calculate_view_percentiles_In (tracks : list V4.Result) (t' : V4.Result) :
  tracks <> [] ->
  In t' (V4.calculate_view_percentiles tracks) ->
  V4.r_view_percentile t'
  = stored_percentile (tracks_at_most tracks (V4.r_view_count t'))
                      (Z.of_nat (List.length tracks))
  /\ exists t, In t tracks /\ V4.r_view_count t = V4.r_view_count t'.
Proof.
  intros Hne Hin. unfold V4.calculate_view_percentiles in Hin.
  apply in_map_iff in Hin. destruct Hin as [t [Heq Hin]]. subst t'.
  cbn [V4.r_view_percentile V4.r_view_count V4.set_view_percentile].
  split.
  - unfold stored_percentile. now rewrite get_percentile_batch.
  - now exists t.
Qed.

Lemma calculate_view_percentiles_In_intro (tracks : list V4.Result) (t : V4.Result) :
  tracks <> [] -> In t tracks ->
  In (V4.set_view_percentile t
        (stored_percentile (tracks_at_most tracks (V4.r_view_count t))
                           (Z.of_nat (List.length tracks))))
     (V4.calculate_view_percentiles tracks).
Proof.
  intros Hne Hin. unfold V4.calculate_view_percentiles.
  apply in_map_iff. exists t. split; [ | assumption].
  unfold stored_percentile. now rewrite get_percentile_batch.
Qed.

Lemma Forall2_map_r {A B} (P : A -> B -> Prop) (g : A -> B) (l : list A) :
  (forall a, P a (g a)) -> Forall2 P l (map g l).
Proof. intros H. induction l; simpl; constructor; auto. Qed.

Lemma batch_size_positive (tracks : list V4.Result) :
  tracks <> [] -> (0 < Z.of_nat (List.length tracks))%Z.
Proof. intros Hne. destruct tracks; [congruence | simpl; lia]. Qed.

(** C6 (as stated) fails on a tie. In a batch of 160 tracks of which 23
    have the lowest view count, the exact percentile of those is 14.375,
    which rounds to 14.38 to two decimal places, with ties upwards as
    with ties to even; the float product is 14.374999999999998 and the
    stored value is the float 14.37. *)
Lemma tie_percentile_stored_below_exact_rounding :
  let tracks := batch_of (repeat 0%Z 23 ++ repeat 1%Z 137) in
  exists t,
    In t (V4.calculate_view_percentiles tracks)
    /\ V4.r_view_count t = 0%Z
    /\ tracks_at_most tracks 0 = 23%Z
    /\ Z.of_nat (List.length tracks) = 160%Z
    /\ exact_percentile tracks 0 == 14375 # 1000
    /\ half_up_hundredths (exact_percentile tracks 0) == 1438 # 100
    /\ half_even_hundredths (exact_percentile tracks 0) == 1438 # 100
    /\ V4.r_view_percentile t = PyFloat.binary64 (1437 # 100)
    /\ V4.r_view_percentile t < 1437 # 100
    /\ ~ V4.r_view_percentile t == PyFloat.binary64 (1438 # 100).
Proof.
  intros tracks.
  assert (Hne : tracks <> []) by discriminate.
  assert (Hin : In (plain_result 0) tracks) by now left.
  assert (Hv : V4.r_view_count (plain_result 0) = 0%Z) by reflexivity.
  assert (Hc : tracks_at_most tracks 0 = 23%Z) by (vm_compute; reflexivity).
  assert (Hn : Z.of_nat (List.length tracks) = 160%Z) by (vm_compute; reflexivity).
  assert (Hs : stored_percentile 23 160 = PyFloat.binary64 (1437 # 100))
    by (vm_compute; reflexivity).
  pose proof (calculate_view_percentiles_In_intro tracks _ Hne Hin) as Hout.
  rewrite Hv, Hc, Hn in Hout.
  exists (V4.set_view_percentile (plain_result 0) (stored_percentile 23 160)).
  split; [exact Hout | ].
  split; [reflexivity | ].
  split; [exact Hc | ].
  split; [exact Hn | ].
  unfold exact_percentile. rewrite Hc, Hn.
  cbn [V4.r_view_percentile V4.set_view_percentile]. rewrite Hs.
  clear. vm_compute. repeat split; discriminate.
Qed.

(** C6 (as amended). In every non-empty batch each track's
    view_percentile is the Python expression round((count / n) * 100, 2)
    on the inclusive count of the batch and the batch size, evaluated in
    binary64: it is the float nearest to a number k/100 with two decimal
    places, 0.00 <= k/100 <= 100.00, which lies within 0.005 + 10^-13 of
    the exact percentile and, in a batch of at most 10^11 tracks, within
    0.005 of it (a nearest hundredth; on an exact tie the float error
    decides which neighbour). Tracks with equal views share it; it is
    non-decreasing in the views, lies in [0, 100], and is exactly 100 for
    a track no other track exceeds. For views 0..9 the percentiles are
    10.0, 20.0, ..., 100.0; for views 0, 1, 2 they are the floats 33.33,
    66.67 and 100.0; and one track of 32 (the float product is exactly
    3.125) gets the float 3.12. *)
Theorem view_percentile_formula_and_properties :
  (forall tracks : list V4.Result,
      tracks <> [] ->
      let out := V4.calculate_view_percentiles tracks in
      let n := Z.of_nat (List.length tracks) in
      Forall2 (fun t t' =>
                 V4.r_view_count t' = V4.r_view_count t
                 /\ V4.r_view_percentile t'
                    = stored_percentile
                        (tracks_at_most tracks (V4.r_view_count t)) n
                 /\ exists k : Z,
                      (0 <= k <= 10000)%Z
                      /\ V4.r_view_percentile t'
                         = PyFloat.binary64 (inject_Z k / 100)
                      /\ Qabs (inject_Z k / 100
                               - exact_percentile tracks (V4.r_view_count t))
                         <= (1 # 200) + (1 # 10000000000000)
                      /\ ((n <= 100000000000)%Z ->
                          Qabs (inject_Z k / 100
                                - exact_percentile tracks (V4.r_view_count t))
                          <= 1 # 200))
              tracks out
      /\ (forall t1 t2, In t1 out -> In t2 out ->
            V4.r_view_count t1 = V4.r_view_count t2 ->
            V4.r_view_percentile t1 = V4.r_view_percentile t2)
      /\ (forall t1 t2, In t1 out -> In t2 out ->
            (V4.r_view_count t1 <= V4.r_view_count t2)%Z ->
            V4.r_view_percentile t1 <= V4.r_view_percentile t2)
      /\ (forall t, In t out -> 0 <= V4.r_view_percentile t <= 100)
      /\ (forall t, In t out ->
            (forall t', In t' out -> (V4.r_view_count t' <= V4.r_view_count t)%Z) ->
            V4.r_view_percentile t = 100))
  /\ map (fun t => (V4.r_view_count t, V4.r_view_percentile t))
         (V4.calculate_view_percentiles (batch_of [0; 1; 2; 3; 4; 5; 6; 7; 8; 9]%Z))
     = [(0%Z, 10); (1%Z, 20); (2%Z, 30); (3%Z, 40); (4%Z, 50);
        (5%Z, 60); (6%Z, 70); (7%Z, 80); (8%Z, 90); (9%Z, 100)]
  /\ map (fun t => (V4.r_view_count t, V4.r_view_percentile t))
         (V4.calculate_view_percentiles (batch_of [0; 1; 2]%Z))
     = [(0%Z, 2345390243441541 # 70368744177664);
        (1%Z, 4691484174324859 # 70368744177664);
        (2%Z, 100)]
  /\ option_map V4.r_view_percentile
       (hd_error (V4.calculate_view_percentiles
                    (batch_of (map Z.of_nat (seq 1 32)))))
     = Some (3512807709348987 # 1125899906842624).
Proof.
  split; [ | vm_compute; repeat split].
  intros tracks Hne out n.
  pose proof (batch_size_positive tracks Hne) as Hn. fold n in Hn.
  repeat match goal with |- _ /\ _ => split end.
  - apply Forall2_map_r. intros t.
    destruct (calculate_view_percentiles_track tracks t Hne) as [Hv Hp].
    cbv zeta in Hv, Hp. fold n in Hp.
    split; [exact Hv | ]. split; [exact Hp | ].
    rewrite Hp.
    apply (stored_percentile_hundredths
             (tracks_at_most tracks (V4.r_view_count t)) n);
      [ | exact Hn].
    apply tracks_at_most_bounds.
  - intros t1 t2 H1 H2 Heq.
    destruct (calculate_view_percentiles_In tracks t1 Hne H1) as [-> _].
    destruct (calculate_view_percentiles_In tracks t2 Hne H2) as [-> _].
    now rewrite Heq.
  - intros t1 t2 H1 H2 Hle.
    destruct (calculate_view_percentiles_In tracks t1 Hne H1) as [-> _].
    destruct (calculate_view_percentiles_In tracks t2 Hne H2) as [-> _].
    apply stored_percentile_mono; [ | exact Hn].
    split; [apply tracks_at_most_bounds | now apply tracks_at_most_mono].
  - intros t Hin.
    destruct (calculate_view_percentiles_In tracks t Hne Hin) as [-> _].
    apply stored_percentile_bounds; [apply tracks_at_most_bounds | exact Hn].
  - intros t Hin Hmax.
    destruct (calculate_view_percentiles_In tracks t Hne Hin) as [-> _].
    rewrite (tracks_at_most_max tracks (V4.r_view_count t)).
    + now apply stored_percentile_full.
    + intros t0 Ht0.
      destruct (calculate_view_percentiles_track tracks t0 Hne) as [Hv _].
      cbv zeta in Hv. rewrite <- Hv. apply Hmax.
      unfold out, V4.calculate_view_percentiles. apply in_map_iff. now exists t0.
Qed.

Lemma view_percentile_formula_and_properties_witness :
  batch_of [3; 1; 3; 7]%Z <> []
  /\ Forall (fun t => 0 <= V4.r_view_percentile t <= 100)
            (V4.calculate_view_percentiles (batch_of [3; 1; 3; 7]%Z)).
Proof.
  assert (Hne : batch_of [3; 1; 3; 7]%Z <> []) by (vm_compute; discriminate).
  split; [exact Hne | ].
  apply Forall_forall.
  destruct view_percentile_formula_and_properties as [H _].
  destruct (H (batch_of [3; 1; 3; 7]%Z) Hne) as (_ & _ & _ & Hbounds & _).
  exact Hbounds.
Defined.

(** *** The lower end of the range *)

(** C10 (as stated) fails on the stored value: in a batch of three
    distinct view counts the lowest track gets the float 33.33, below
    100/3; and in a batch of 20,001 tracks the single lowest track gets
    0.0. *)
Lemma rounded_percentile_below_100_over_n_and_zero :
  (exists tracks t,
      tracks <> []
      /\ In t (V4.calculate_view_percentiles tracks)
      /\ V4.r_view_percentile t
         < 100 / inject_Z (Z.of_nat (List.length tracks)))
  /\
  (exists tracks t,
      tracks <> []
      /\ In t (V4.calculate_view_percentiles tracks)
      /\ V4.r_view_percentile t == 0).
Proof.
  split.
  - exists (batch_of [0; 1; 2]%Z).
    exists (V4.set_view_percentile (plain_result 0)
              (2345390243441541 # 70368744177664)).
    split; [vm_compute; discriminate | ].
    split; [vm_compute; now left | vm_compute; reflexivity].
  - set (tracks := plain_result 0 :: repeat (plain_result 1) (Z.to_nat 20000)).
    assert (Hne : tracks <> []) by discriminate.
    exists tracks.
    exists (V4.set_view_percentile (plain_result 0)
              (stored_percentile
                 (tracks_at_most tracks (V4.r_view_count (plain_result 0)))
                 (Z.of_nat (List.length tracks)))).
    split; [exact Hne | ]. split.
    + apply calculate_view_percentiles_In_intro; [exact Hne | now left].
    + cbn [V4.r_view_percentile V4.set_view_percentile].
      vm_compute. reflexivity.
Qed.

(** C10 (as amended). In every non-empty batch of n tracks the inclusive
    count of each track is at least 1, so the exact percentile is at
    least 100/n and strictly positive. The stored view_percentile is
    round((count / n) * 100, 2) in floats: it is at least the stored
    percentile of a count of 1, never negative, and at least the float
    0.01, hence strictly positive, whenever n <= 20000. *)
Theorem view_percentile_lower_bound :
  forall tracks : list V4.Result,
    tracks <> [] ->
    forall t, In t (V4.calculate_view_percentiles tracks) ->
    let n := Z.of_nat (List.length tracks) in
    let count := tracks_at_most tracks (V4.r_view_count t) in
    (1 <= count)%Z
    /\ 100 / inject_Z n <= exact_percentile tracks (V4.r_view_count t)
    /\ 0 < exact_percentile tracks (V4.r_view_count t)
    /\ V4.r_view_percentile t = stored_percentile count n
    /\ stored_percentile 1 n <= V4.r_view_percentile t
    /\ 0 <= V4.r_view_percentile t
    /\ ((n <= 20000)%Z ->
        PyFloat.binary64 (1 # 100) <= V4.r_view_percentile t
        /\ 0 < V4.r_view_percentile t).
Proof.
  intros tracks Hne t Hin n count.
  destruct (calculate_view_percentiles_In tracks t Hne Hin)
    as [Hp [t0 [Hin0 Hv0]]].
  fold n count in Hp.
  assert (Hcount : (1 <= count)%Z).
  { unfold count. rewrite <- Hv0. now apply tracks_at_most_own. }
  pose proof (tracks_at_most_bounds tracks (V4.r_view_count t)) as Hb.
  fold count n in Hb.
  pose proof (batch_size_positive tracks Hne) as Hn. fold n in Hn.
  assert (HnQ : 0 < inject_Z n).
  { change 0 with (inject_Z 0). now rewrite <- Zlt_Qlt. }
  assert (Hinv : 0 < / inject_Z n) by now apply Qinv_lt_0_compat.
  assert (Hlow : 100 / inject_Z n <= exact_percentile tracks (V4.r_view_count t)).
  { unfold exact_percentile. fold count n.
    apply Qle_trans with (inject_Z 1 / inject_Z n * 100).
    - change (inject_Z 1) with 1. unfold Qdiv. lra.
    - apply Qmult_le_compat_r; [ | discriminate]. apply ratio_mono; assumption. }
  assert (Hpos : 0 < 100 / inject_Z n).
  { unfold Qdiv. lra. }
  assert (Hsmall : (n <= 20000)%Z -> PyFloat.binary64 (1 # 100) <= V4.r_view_percentile t).
  { intros Hs. rewrite Hp. apply stored_percentile_positive; [exact Hcount | lia]. }
  repeat match goal with |- _ /\ _ => split end.
  - exact Hcount.
  - exact Hlow.
  - lra.
  - exact Hp.
  - rewrite Hp. apply stored_percentile_mono; [lia | exact Hn].
  - rewrite Hp. apply stored_percentile_bounds; [exact Hb | exact Hn].
  - intros Hs. split; [now apply Hsmall | ].
    apply Qlt_le_trans with (PyFloat.binary64 (1 # 100)); [reflexivity | now apply Hsmall].
Qed.

Lemma view_percentile_lower_bound_witness :
  batch_of [0; 1; 2]%Z <> []
  /\ Forall (fun t => PyFloat.binary64 (1 # 100) <= V4.r_view_percentile t)
            (V4.calculate_view_percentiles (batch_of [0; 1; 2]%Z)).
Proof.
  assert (Hne : batch_of [0; 1; 2]%Z <> []) by (vm_compute; discriminate).
  split; [exact Hne | ].
  apply Forall_forall. intros t Hin.
  apply (view_percentile_lower_bound (batch_of [0; 1; 2]%Z) Hne t Hin).
  vm_compute. discriminate.
Defined.

(* ================================================================= *)
(** * Further properties of the code *)

Local Close Scope Q_scope.

(** ** Content types *)

Lemma Substring_trans (a b t : string) :
  Substring a b -> Substring b t -> Substring a t.
Proof.
  intros [p1 [q1 ->]] [p2 [q2 ->]].
  exists (p2 ++ p1), (q1 ++ q2). now rewrite !append_assoc.
Qed.

(** X1. The detector answers one of the ten content-type labels, and it
    answers "dj_mix" only when a DJ-mix keyword occurs in the text, the
    artist itself carries a DJ token, and no live or remix keyword
    occurs. *)
Theorem detect_content_type_labels_and_dj_gate :
  forall title artist channel : string,
    let text := lower (join3 title artist channel) in
    let label := V4.detect_content_type title artist channel in
    In label content_labels
    /\ (label = "dj_mix" ->
        group_matches V4.dj_mix_indicators text
        /\ group_matches V4.known_dj_tokens (lower artist)
        /\ ~ group_matches V4.live_indicators text
        /\ ~ group_matches V4.remix_indicators text).
Proof.
  intros title artist channel text label.
  unfold label, V4.detect_content_type, group_matches. fold text.
  destruct (any_in V4.live_indicators text) eqn:Hlive;
    [split; [cbn; tauto | discriminate] | ].
  destruct (any_in V4.remix_indicators text) eqn:Hremix;
    [split; [cbn; tauto | discriminate] | ].
  destruct (any_in V4.dj_mix_indicators text) eqn:Hmix;
    destruct (any_in V4.known_dj_tokens (lower artist)) eqn:Hdj; cbn [andb];
    try (split;
         [ | intros _; repeat split;
             first [ now apply any_in_iff | now apply any_in_false_iff ] ];
         cbn; tauto);
    repeat match goal with
           | |- context [if ?b then _ else _] => destruct b
           end;
    (split; [cbn; tauto | discriminate]).
Qed.

Lemma detect_content_type_labels_and_dj_gate_witness :
  group_matches V4.dj_mix_indicators
    (lower (join3 "Boiler Room Johannesburg" "Black Coffee" ""))
  /\ group_matches V4.known_dj_tokens (lower "Black Coffee").
Proof.
  destruct (detect_content_type_labels_and_dj_gate
              "Boiler Room Johannesburg" "Black Coffee" "") as [_ H].
  destruct H as (H1 & H2 & _).
  - vm_compute. reflexivity.
  - split; assumption.
Defined.

(** X2. The label "extended" is only ever answered through the keywords
    "extended" or "club mix": a text containing "radio edit" contains the
    remix keyword "edit" and is answered "live" or "remix". *)
Theorem radio_edit_is_never_extended :
  forall title artist channel : string,
    let text := lower (join3 title artist channel) in
    let label := V4.detect_content_type title artist channel in
    (Substring "radio edit" text -> label = "live" \/ label = "remix")
    /\ (label = "extended" ->
        Substring "extended" text \/ Substring "club mix" text).
Proof.
  intros title artist channel text label.
  assert (Hedit : Substring "radio edit" text ->
                  any_in V4.remix_indicators text = true).
  { intros H. apply any_in_iff. exists "edit". split; [cbn; tauto | ].
    apply Substring_trans with "radio edit"; [ | exact H].
    now exists "radio ", "". }
  unfold label, V4.detect_content_type. fold text. split.
  - intros H. rewrite (Hedit H).
    destruct (any_in V4.live_indicators text); auto.
  - repeat match goal with
           | |- context [if ?b then _ else _] =>
               let E := fresh "E" in destruct b eqn:E
           end; try discriminate.
    intros _.
    match goal with
    | E : any_in V4.extended_indicators text = true |- _ =>
        apply any_in_iff in E; destruct E as [k [Hin Hk]]
    end.
    cbn in Hin. destruct Hin as [<-|[<-|[<-|[]]]]; auto.
    exfalso. specialize (Hedit Hk). discriminate.
Qed.

Lemma radio_edit_is_never_extended_witness :
  V4.detect_content_type "Essence (Radio Edit)" "Wizkid" "" = "live"
  \/ V4.detect_content_type "Essence (Radio Edit)" "Wizkid" "" = "remix".
Proof.
  apply (radio_edit_is_never_extended "Essence (Radio Edit)" "Wizkid" "").
  apply str_in_iff. vm_compute. reflexivity.
Defined.

(** X3. The detector is the first-match evaluation of the ordered rule
    list: live, remix, DJ mix (gated on the artist), compilation, cover,
    instrumental, slowed, acoustic, extended, with "original" as the
    fallback. *)
Theorem detect_content_type_is_first_match :
  forall title artist channel : string,
    V4.detect_content_type title artist channel
    = first_match
        (content_rules (lower (join3 title artist channel)) (lower artist))
        "original".
Proof. exact detect_content_type_first_match. Qed.

(** ** Tags and genres *)

Lemma Subseq_refl {A} (l : list A) : Subseq l l.
Proof. induction l; constructor; assumption. Qed.

Lemma Subseq_In {A} (l1 l2 : list A) (x : A) :
  Subseq l1 l2 -> In x l1 -> In x l2.
Proof.
  induction 1 as [ | y l1 l2 _ IH | y l1 l2 _ IH]; simpl; intuition.
Qed.

Lemma Subseq_length {A} (l1 l2 : list A) :
  Subseq l1 l2 -> (List.length l1 <= List.length l2)%nat.
Proof. induction 1; simpl; lia. Qed.

Lemma Subseq_NoDup {A} (l1 l2 : list A) :
  Subseq l1 l2 -> NoDup l2 -> NoDup l1.
Proof.
  induction 1 as [ | y l1 l2 Hs IH | y l1 l2 Hs IH]; intros Hnd.
  - constructor.
  - inversion Hnd; subst. auto.
  - inversion Hnd as [ | ? ? Hnotin Hnd']; subst. constructor; [ | auto].
    intros Hin. apply Hnotin. now apply (Subseq_In l1 l2).
Qed.

Lemma Subseq_nil_l {A} (l : list A) : Subseq [] l.
Proof. induction l; constructor; assumption. Qed.

Lemma Subseq_firstn {A} (n : nat) (l : list A) : Subseq (firstn n l) l.
Proof.
  revert n; induction l as [ | x l IH]; intros [ | n]; simpl.
  - constructor.
  - constructor.
  - apply Subseq_nil_l.
  - apply Subseq_keep, IH.
Qed.

Lemma Subseq_trans {A} (l1 l2 l3 : list A) :
  Subseq l1 l2 -> Subseq l2 l3 -> Subseq l1 l3.
Proof.
  intros H12 H23. revert l1 H12.
  induction H23 as [ | y l2 l3 _ IH | y l2 l3 _ IH]; intros l1 H12.
  - assumption.
  - apply Subseq_skip. auto.
  - inversion H12; subst.
    + apply Subseq_skip. auto.
    + apply Subseq_keep. auto.
Qed.

(** The scan reports tags in dictionary order, each at most once per
    dictionary entry. *)
Lemma scan_tags_Subseq dict (text : string) :
  Subseq (scan_tags dict text) (map fst dict).
Proof.
  induction dict as [ | [tag ks] dict IH]; simpl; [constructor | ].
  destruct (any_in ks text); constructor; assumption.
Qed.

Lemma scan_tags_sound_complete dict (text tag : string) :
  In tag (scan_tags dict text) <->
  exists ks, In (tag, ks) dict /\ group_matches ks text.
Proof.
  rewrite scan_tags_In. unfold group_matches.
  split; intros [ks [Hin H]]; exists ks; split; auto; now apply any_in_iff.
Qed.

Lemma NoDup_by_nodup (l : list string) : nodup string_dec l = l -> NoDup l.
Proof. intros <-. apply NoDup_nodup. Qed.

(** X4. The v4 detector reports exactly the tags one of whose keywords
    occurs in the lower-cased text, in dictionary order and without
    repetition, so never more than 21 tags. *)
Theorem v4_cultural_tags_characterised :
  forall text : string,
    let tags := V4.detect_cultural_tags text in
    (forall tag, In tag tags <->
                 exists ks, In (tag, ks) V4.CULTURAL_TAG_KEYWORDS
                            /\ group_matches ks (lower text))
    /\ Subseq tags (map fst V4.CULTURAL_TAG_KEYWORDS)
    /\ NoDup tags
    /\ (List.length tags <= 21)%nat.
Proof.
  intros text tags. unfold tags, V4.detect_cultural_tags.
  pose proof (scan_tags_Subseq V4.CULTURAL_TAG_KEYWORDS (lower text)) as Hs.
  repeat split.
  - now apply scan_tags_sound_complete.
  - now apply scan_tags_sound_complete.
  - exact Hs.
  - apply (Subseq_NoDup _ _ Hs). apply NoDup_by_nodup. vm_compute. reflexivity.
  - apply (Subseq_length _ _) in Hs. exact Hs.
Qed.

(** X5. The legacy detector returns at most five tags, without
    repetition and in dictionary order, and every tag it returns has one
    of its keywords in the lower-cased "title artist" text. *)
Theorem legacy_cultural_tags_capped_and_sound :
  forall title artist : string,
    let tags := V1.detect_cultural_tags title artist in
    (List.length tags <= 5)%nat
    /\ NoDup tags
    /\ Subseq tags (map fst V1.CULTURAL_KEYWORDS)
    /\ (forall tag, In tag tags ->
                    exists ks, In (tag, ks) V1.CULTURAL_KEYWORDS
                               /\ group_matches ks (lower (join2 title artist))).
Proof.
  intros title artist tags. unfold tags, V1.detect_cultural_tags. cbv zeta.
  set (text := lower (join2 title artist)).
  assert (Hs : Subseq (firstn 5 (scan_tags V1.CULTURAL_KEYWORDS text))
                      (map fst V1.CULTURAL_KEYWORDS)).
  { apply Subseq_trans with (scan_tags V1.CULTURAL_KEYWORDS text).
    - apply Subseq_firstn.
    - apply scan_tags_Subseq. }
  repeat split.
  - apply firstn_le_length.
  - apply (Subseq_NoDup _ _ Hs). apply NoDup_by_nodup. vm_compute. reflexivity.
  - exact Hs.
  - intros tag Hin. apply scan_tags_sound_complete.
    now apply (In_firstn 5).
Qed.

Lemma legacy_cultural_tags_capped_and_sound_witness :
  exists ks, In ("liberation", ks) V1.CULTURAL_KEYWORDS
             /\ group_matches ks (lower (join2 "Freedom" "Bob Marley")).
Proof.
  apply (legacy_cultural_tags_capped_and_sound "Freedom" "Bob Marley").
  vm_compute. tauto.
Defined.

Lemma first_genre_hd dict (text : string) :
  V1.first_genre dict text = hd_error (scan_tags dict text).
Proof.
  induction dict as [ | [g ks] dict IH]; simpl; [reflexivity | ].
  destruct (any_in ks text); [reflexivity | exact IH].
Qed.

(** X6. The detected genre is the first tag the tag scan reports over
    the genre dictionary (first match, not best match), and no genre is
    reported exactly when no genre keyword occurs in the text. *)
Theorem detect_genre_is_first_scanned :
  forall title artist : string,
    let text := lower (join2 title artist) in
    V1.detect_genre title artist = hd_error (scan_tags V1.GENRE_KEYWORDS text)
    /\ (V1.detect_genre title artist = None <->
        forall genre ks, In (genre, ks) V1.GENRE_KEYWORDS ->
                         ~ group_matches ks text).
Proof.
  intros title artist text. unfold V1.detect_genre. fold text.
  rewrite first_genre_hd. split; [reflexivity | ].
  split.
  - intros Hnone genre ks Hin Hm.
    assert (Hg : In genre (scan_tags V1.GENRE_KEYWORDS text)).
    { apply scan_tags_sound_complete. exists ks. split; assumption. }
    destruct (scan_tags V1.GENRE_KEYWORDS text); [destruct Hg | discriminate].
  - intros Hno. destruct (scan_tags V1.GENRE_KEYWORDS text) as [ | g l] eqn:E;
      [reflexivity | exfalso].
    assert (Hg : In g (scan_tags V1.GENRE_KEYWORDS text))
      by (rewrite E; now left).
    apply scan_tags_sound_complete in Hg. destruct Hg as [ks [Hin Hm]].
    exact (Hno g ks Hin Hm).
Qed.

(** ** The legacy classifier *)

Lemma lower_ascii_idem (c : ascii) : lower_ascii (lower_ascii c) = lower_ascii c.
Proof. destruct c as [[] [] [] [] [] [] [] []]; reflexivity. Qed.

Lemma is_space_lower (c : ascii) : is_space (lower_ascii c) = is_space c.
Proof. destruct c as [[] [] [] [] [] [] [] []]; reflexivity. Qed.

Lemma lower_idem (s : string) : lower (lower s) = lower s.
Proof.
  induction s as [ | c s IH]; simpl; [reflexivity | ].
  now rewrite lower_ascii_idem, IH.
Qed.

Lemma lower_lstrip (s : string) : lower (lstrip s) = lstrip (lower s).
Proof.
  induction s as [ | c s IH]; simpl; [reflexivity | ].
  rewrite is_space_lower. destruct (is_space c); [exact IH | reflexivity].
Qed.

Lemma lower_rstrip (s : string) : lower (rstrip s) = rstrip (lower s).
Proof.
  induction s as [ | c s IH]; simpl; [reflexivity | ].
  rewrite <- IH, is_space_lower.
  destruct (rstrip s); simpl; [destruct (is_space c) | ]; reflexivity.
Qed.

Lemma lower_strip (s : string) : lower (strip s) = strip (lower s).
Proof. unfold strip. now rewrite lower_rstrip, lower_lstrip. Qed.

Lemma lstrip_starts_clean (s : string) : starts_clean (lstrip s).
Proof.
  induction s as [ | c s IH]; simpl; [exact I | ].
  destruct (is_space c) eqn:E; [exact IH | exact E].
Qed.

Lemma lstrip_clean (s : string) : starts_clean s -> lstrip s = s.
Proof. destruct s as [ | c s]; simpl; [reflexivity | now intros ->]. Qed.

Lemma rstrip_starts_clean (s : string) : starts_clean s -> starts_clean (rstrip s).
Proof.
  destruct s as [ | c s]; simpl; [trivial | ]. intros Hc.
  destruct (rstrip s); [rewrite Hc | ]; exact Hc.
Qed.

Lemma rstrip_idem (s : string) : rstrip (rstrip s) = rstrip s.
Proof.
  induction s as [ | c s IH]; simpl; [reflexivity | ].
  destruct (rstrip s) as [ | x r] eqn:E.
  - destruct (is_space c) eqn:Ec; simpl; [reflexivity | now rewrite Ec].
  - change (rstrip (String c (String x r)) = String c (String x r)).
    cbn [rstrip]. cbn [rstrip] in IH. now rewrite IH.
Qed.

Lemma strip_idem (s : string) : strip (strip s) = strip s.
Proof.
  unfold strip.
  rewrite (lstrip_clean (rstrip (lstrip s))).
  - apply rstrip_idem.
  - apply rstrip_starts_clean, lstrip_starts_clean.
Qed.

Lemma legacy_normalize_name_idem (name : string) :
  V1.normalize_name (V1.normalize_name name) = V1.normalize_name name.
Proof.
  unfold V1.normalize_name.
  now rewrite lower_strip, lower_idem, strip_idem.
Qed.

Lemma legacy_canon_level_tier_A (title artist : string) :
  V1.get_canon_level title artist "A" = "ESSENTIAL".
Proof.
  unfold V1.get_canon_level. cbv zeta.
  change (String.eqb "A" "A") with true. cbv iota.
  destruct (any_in V1.core_indicators (lower title)); reflexivity.
Qed.

Lemma legacy_canon_level_tier_D (title artist : string) :
  V1.get_canon_level title artist "D" = "ECHO".
Proof. reflexivity. Qed.

(** X7. The legacy classifier has two outcomes only: tier A with canon
    level ESSENTIAL and no echo flag, or tier D with canon level ECHO and
    the echo flag; tiers B and C and the levels CORE, DEEP_CUT and ARCHIVE
    never occur, and the title plays no part. *)
Theorem legacy_classification_outcomes :
  forall track : V1.Track,
    let c := V1.classify_track track in
    ((V1.c_artist_tier c = "A" /\ V1.c_canon_level c = "ESSENTIAL"
      /\ V1.c_is_echo c = false)
     \/ (V1.c_artist_tier c = "D" /\ V1.c_canon_level c = "ECHO"
         /\ V1.c_is_echo c = true))
    /\ V1.c_artist_tier c = V1.get_artist_tier (V1.or_empty (V1.artist track)).
Proof.
  intros track. cbn. split; [ | reflexivity].
  unfold V1.get_artist_tier. rewrite legacy_tier_is_A_or_D.
  destruct (existsb _ V1.TIER_A_ARTISTS).
  - left. rewrite legacy_canon_level_tier_A. auto.
  - right. rewrite legacy_canon_level_tier_D. auto.
Qed.

(** X8. The legacy tier does not depend on the order in which the name
    set is iterated (also not through the slice of its first fifty
    names), and the answer is never "B". *)
Theorem legacy_tier_any_order :
  forall (order : list string) (artist : string),
    Permutation order V1.TIER_A_ARTISTS ->
    V1.get_artist_tier_in order artist = V1.get_artist_tier artist
    /\ V1.get_artist_tier_in order artist <> "B".
Proof.
  intros order artist Hperm. split.
  - now apply legacy_tier_order_irrelevant.
  - rewrite legacy_tier_is_A_or_D. destruct (existsb _ order); discriminate.
Qed.

Lemma legacy_tier_any_order_witness :
  V1.get_artist_tier_in (rev V1.TIER_A_ARTISTS) "Tems ft. Wizkid"
  = V1.get_artist_tier "Tems ft. Wizkid".
Proof.
  apply (legacy_tier_any_order (rev V1.TIER_A_ARTISTS) "Tems ft. Wizkid").
  apply Permutation_sym, Permutation_rev.
Defined.

(** X9. Legacy name normalisation (lower-case, then strip) is idempotent,
    and the tier of a name and of its normalised form agree. *)
Theorem legacy_tier_of_normalised_name :
  forall artist : string,
    V1.normalize_name (V1.normalize_name artist) = V1.normalize_name artist
    /\ V1.get_artist_tier (V1.normalize_name artist) = V1.get_artist_tier artist.
Proof.
  intros artist. split; [apply legacy_normalize_name_idem | ].
  unfold V1.get_artist_tier, V1.get_artist_tier_in. cbv zeta.
  now rewrite legacy_normalize_name_idem.
Qed.

(** ** The pattern classifier *)


Lemma classify_with_patterns_aesthetic_tags (track : V4.Track) :
  let ps := V4.classify_with_patterns track in
  V4.aesthetic_tags ps
  = V4.aesthetic_tags_for (V4.final_tier ps) (V4.or0 (V4.view_count track))
                          (V4.content_type ps) (V4.cultural_tags ps).
Proof.
  unfold V4.classify_with_patterns. cbv zeta.
  destruct (V4.known_artist_tier _ _) as [tier [cr inf]].
  destruct (V4.lookup _ V4.CULTURAL_ICONS);
    cbn [V4.aesthetic_tags V4.final_tier V4.content_type V4.cultural_tags
         V4.popularity V4.pop_view_count];
    reflexivity.
Qed.

(** X10. The pattern classifier resolves every track to tier A, B or D,
    never C. Tiers A and B only get CORE, ESSENTIAL or DEEP_CUT, tier D
    only DEEP_CUT, ARCHIVE or ECHO: an echo is always a tier-D track with
    at most 100,000 views, and an unmatched artist is never promoted past
    DEEP_CUT whatever the views. *)
Theorem pattern_tier_and_canon_level_pairs :
  forall track : V4.Track,
    let ps := V4.classify_with_patterns track in
    let tier := V4.final_tier ps in
    let canon := V4.final_canon_level ps in
    (tier = "A" \/ tier = "B" \/ tier = "D")
    /\ (tier = "A" \/ tier = "B" -> In canon ["CORE"; "ESSENTIAL"; "DEEP_CUT"])
    /\ (tier = "D" -> In canon ["DEEP_CUT"; "ARCHIVE"; "ECHO"])
    /\ (canon = "ECHO" -> tier = "D" /\ V4.or0 (V4.view_count track) <= 100000).
Proof.
  intros track ps tier canon.
  pose proof (classify_with_patterns_tier track) as Ht.
  pose proof (classify_with_patterns_canon track) as Hc.
  cbv zeta in Ht, Hc. unfold tier, canon, ps.
  split; [exact Ht | ].
  rewrite Hc. clear Hc.
  revert Ht. generalize (V4.final_tier (V4.classify_with_patterns track)).
  intros t [-> | [-> | ->]]; unfold V4.canon_level_for;
    cbn [String.eqb Ascii.eqb Bool.eqb];
    by_views; cbn; intuition (try discriminate; try lia).
Qed.

Lemma pattern_tier_and_canon_level_pairs_witness :
  V4.final_tier
    (V4.classify_with_patterns
       (V4.mkTrack "My Song" "Unknown Singer" "" (Some 500))) = "D"
  /\ V4.or0 (Some 500) <= 100000.
Proof.
  apply (pattern_tier_and_canon_level_pairs
           (V4.mkTrack "My Song" "Unknown Singer" "" (Some 500))).
  vm_compute. reflexivity.
Defined.

(** X11. For two tracks resolved to the same tier other than A, the one
    with at least as many views never gets a lower canon level. *)
Theorem canon_level_monotone_outside_tier_A :
  forall t1 t2 : V4.Track,
    let p1 := V4.classify_with_patterns t1 in
    let p2 := V4.classify_with_patterns t2 in
    V4.final_tier p1 = V4.final_tier p2 ->
    V4.final_tier p1 <> "A" ->
    V4.or0 (V4.view_count t1) <= V4.or0 (V4.view_count t2) ->
    (canon_rank (V4.final_canon_level p1)
     <= canon_rank (V4.final_canon_level p2))%nat.
Proof.
  intros t1 t2 p1 p2 Heq HA Hle. unfold p1, p2.
  rewrite !classify_with_patterns_canon. cbv zeta.
  fold p1 p2. rewrite <- Heq.
  now apply canon_level_monotone_off_tier_A.
Qed.

Lemma canon_level_monotone_outside_tier_A_witness :
  (canon_rank (V4.final_canon_level
                 (V4.classify_with_patterns
                    (V4.mkTrack "Street Anthem" "Zlatan" "" (Some 400000%Z))))
   <= canon_rank (V4.final_canon_level
                    (V4.classify_with_patterns
                       (V4.mkTrack "Street Anthem" "Zlatan" "" (Some 60000000%Z)))))%nat.
Proof.
  apply (canon_level_monotone_outside_tier_A
           (V4.mkTrack "Street Anthem" "Zlatan" "" (Some 400000))
           (V4.mkTrack "Street Anthem" "Zlatan" "" (Some 60000000))).
  - vm_compute. reflexivity.
  - vm_compute. discriminate.
  - vm_compute. discriminate.
Defined.

(** X12. The aesthetic tags of a pattern classification: "influential"
    exactly for tier A, "timeless" exactly for tier A with canon level
    CORE, "virtuosic" exactly for live content, "lyricism" exactly when a
    revolution, liberation or protest tag was detected; nothing else, and
    always in that order. *)
Theorem aesthetic_tags_characterised :
  forall track : V4.Track,
    let ps := V4.classify_with_patterns track in
    let tags := V4.aesthetic_tags ps in
    (In "influential" tags <-> V4.final_tier ps = "A")
    /\ (In "timeless" tags <->
        V4.final_tier ps = "A" /\ V4.final_canon_level ps = "CORE")
    /\ (In "virtuosic" tags <-> V4.content_type ps = "live")
    /\ (In "lyricism" tags <->
        In "revolution" (V4.cultural_tags ps)
        \/ In "liberation" (V4.cultural_tags ps)
        \/ In "protest" (V4.cultural_tags ps))
    /\ Subseq tags ["influential"; "timeless"; "virtuosic"; "lyricism"].
Proof.
  intros track ps tags. unfold tags, ps.
  rewrite classify_with_patterns_aesthetic_tags, classify_with_patterns_canon.
  cbv zeta. fold ps.
  set (tier := V4.final_tier ps). set (v := V4.or0 (V4.view_count track)).
  set (ct := V4.content_type ps). set (cts := V4.cultural_tags ps).
  unfold V4.aesthetic_tags_for, V4.canon_level_for.
  assert (Hlyr : existsb (fun t => mem t cts) ["revolution"; "liberation"; "protest"]
                 = true <->
                 In "revolution" cts \/ In "liberation" cts \/ In "protest" cts).
  { cbn [existsb]. rewrite orb_false_r, !orb_true_iff, !mem_iff. tauto. }
  destruct (existsb (fun t => mem t cts) ["revolution"; "liberation"; "protest"]);
    destruct (String.eqb_spec ct "live") as [Hct | Hct];
    destruct (String.eqb_spec tier "A") as [HA | HA];
    destruct (Z.gtb_spec v 100000000) as [Hv | Hv];
    try (destruct (Z.gtb_spec v 10000000); [ | destruct (Z.gtb_spec v 1000000)]);
    cbn [app In];
    repeat split;
    try (intros; intuition (try discriminate; try congruence; try lia); fail);
    try (repeat first [ apply Subseq_keep | apply Subseq_skip | apply Subseq_nil ]; fail).
Qed.

Local Open Scope Q_scope.



Local Close Scope Q_scope.

Lemma filter_chars_all (keep : ascii -> bool) (s : string) :
  all_chars keep (filter_chars keep s).
Proof.
  induction s as [ | c s IH]; simpl; [exact I | ].
  destruct (keep c) eqn:E; simpl; auto.
Qed.

Lemma filter_chars_id (keep : ascii -> bool) (s : string) :
  all_chars keep s -> filter_chars keep s = s.
Proof.
  induction s as [ | c s IH]; simpl; [reflexivity | ].
  intros [-> H]. now rewrite IH.
Qed.

Lemma lstrip_all (keep : ascii -> bool) (s : string) :
  all_chars keep s -> all_chars keep (lstrip s).
Proof.
  induction s as [ | c s IH]; simpl; [trivial | ].
  intros [Hc H]. destruct (is_space c); simpl; auto.
Qed.

Lemma rstrip_all (keep : ascii -> bool) (s : string) :
  all_chars keep s -> all_chars keep (rstrip s).
Proof.
  induction s as [ | c s IH]; simpl; [trivial | ].
  intros [Hc H]. specialize (IH H).
  destruct (rstrip s); [destruct (is_space c) | ]; simpl; auto.
Qed.

(** X14. Artist normalisation of the v4 classifier (drop every character
    that is not a lower-case letter, digit or white space, then strip) is
    idempotent, and its result has no leading white space and only
    characters of those classes. *)
Theorem normalize_artist_idempotent :
  forall artist : string,
    V4.normalize_artist (V4.normalize_artist artist) = V4.normalize_artist artist
    /\ starts_clean (V4.normalize_artist artist)
    /\ all_chars (fun c => (is_lower_alnum c || is_space c)%bool)
                 (V4.normalize_artist artist).
Proof.
  intros artist. unfold V4.normalize_artist.
  set (keep := fun c => (is_lower_alnum c || is_space c)%bool).
  assert (Hall : all_chars keep (strip (filter_chars keep artist))).
  { unfold strip. apply rstrip_all, lstrip_all, filter_chars_all. }
  repeat split.
  - rewrite (filter_chars_id keep _ Hall). apply strip_idem.
  - unfold strip. apply rstrip_starts_clean, lstrip_starts_clean.
  - exact Hall.
Qed.

(** ** Era, timelessness and confidence *)

(** X15. Era detection is order preserving: a later release year never
    gives an earlier era, a known year never gives "unknown", and the
    buckets change exactly at 1960, 1980, 1995, 2005, 2015 and 2020. *)
Theorem detect_era_monotone :
  forall y1 y2 : Z,
    y1 <= y2 ->
    (era_rank (V4Temporal.detect_era (Some y1))
     <= era_rank (V4Temporal.detect_era (Some y2)))%nat
    /\ (1 <= era_rank (V4Temporal.detect_era (Some y1)))%nat
    /\ ((era_rank (V4Temporal.detect_era (Some y1))
         < era_rank (V4Temporal.detect_era (Some y2)))%nat <->
        exists b, In b [1960; 1980; 1995; 2005; 2015; 2020] /\ y1 < b <= y2).
Proof.
  intros y1 y2 Hle. unfold V4Temporal.detect_era.
  repeat match goal with
         | |- context [?a <? ?b] =>
             let H := fresh "Hy" in destruct (Z.ltb_spec a b) as [H | H]
         end;
    cbn; try lia;
    (split; [lia | split; [lia | ]]);
    (split;
     [ intros Hlt; try lia;
       first [ exists 1960; split; [cbn; tauto | lia]
             | exists 1980; split; [cbn; tauto | lia]
             | exists 1995; split; [cbn; tauto | lia]
             | exists 2005; split; [cbn; tauto | lia]
             | exists 2015; split; [cbn; tauto | lia]
             | exists 2020; split; [cbn; tauto | lia] ]
     | intros [b [Hb Hin]]; cbn in Hb;
       repeat (destruct Hb as [<- | Hb]; [lia | ]); destruct Hb ]).
Qed.

Lemma detect_era_monotone_witness :
  (era_rank (V4Temporal.detect_era (Some 1979%Z))
   <= era_rank (V4Temporal.detect_era (Some 1980%Z)))%nat.
Proof.
  apply (detect_era_monotone 1979 1980). lia.
Defined.

Lemma year_pattern_bounds (a b c d : ascii) :
  V4Temporal.year_pattern a b c d = true ->
  1950 <= V4Temporal.int_of_digits
            (String a (String b (String c (String d EmptyString)))) <= 2029.
Proof.
  unfold V4Temporal.year_pattern, V4Temporal.is_digit,
         V4Temporal.int_of_digits, V4Temporal.digit_value.
  rewrite orb_true_iff, !andb_true_iff, !Ascii.eqb_eq, !Nat.leb_le.
  intros [((((-> & ->) & Hc1) & Hc2) & Hd1 & Hd2)
         | ((((-> & ->) & Hc1) & Hc2) & Hd1 & Hd2)];
    cbn [nat_of_ascii]; change (nat_of_ascii "1") with 49%nat;
    change (nat_of_ascii "9") with 57%nat; change (nat_of_ascii "2") with 50%nat;
    change (nat_of_ascii "0") with 48%nat; lia.
Qed.

Lemma search_year_spec (prev : option ascii) (s m : string) :
  V4Temporal.search_year prev s = Some m ->
  Substring m s /\ String.length m = 4%nat
  /\ 1950 <= V4Temporal.int_of_digits m <= 2029.
Proof.
  revert prev. induction s as [ | a s IH]; intros prev; [discriminate | ].
  cbn [V4Temporal.search_year].
  destruct s as [ | b [ | c [ | d rest]]]; try discriminate.
  destruct (V4Temporal.boundary_before prev
            && V4Temporal.year_pattern a b c d
            && V4Temporal.boundary_after rest)%bool eqn:E.
  - intros Hm. injection Hm as <-.
    apply andb_true_iff in E. destruct E as [E _].
    apply andb_true_iff in E. destruct E as [_ E].
    repeat split; try (now apply year_pattern_bounds).
    now exists "", rest.
  - intros Hm. apply IH in Hm. destruct Hm as [[pre [post Hs]] Hrest].
    split; [ | exact Hrest].
    exists (String a pre), post. simpl. now rewrite <- Hs.
Qed.

(** X16. A release year read from the title and channel lies between
    1950 and 2029 and is spelled as four digits in the text; with a year
    the era is never "unknown", without one it is "unknown". *)
Theorem release_year_bounds :
  forall track : V4.Track,
    (forall y, V4Temporal.release_year track = Some y ->
       1950 <= y <= 2029
       /\ (exists m, Substring m (join2 (lower (V4.title track))
                                        (lower (V4.channel_title track)))
                     /\ String.length m = 4%nat
                     /\ V4Temporal.int_of_digits m = y)
       /\ V4Temporal.era track <> "unknown")
    /\ (V4Temporal.release_year track = None ->
        V4Temporal.era track = "unknown").
Proof.
  intros track. unfold V4Temporal.era, V4Temporal.release_year. cbv zeta.
  destruct (V4Temporal.search_year None _) as [m | ] eqn:E.
  - split; [ | discriminate].
    intros y Hy. injection Hy as <-.
    destruct (search_year_spec _ _ _ E) as (Hsub & Hlen & Hb).
    repeat split; try lia.
    + now exists m.
    + unfold V4Temporal.detect_era.
      repeat match goal with
             | |- context [if ?b then _ else _] => destruct b
             end; discriminate.
  - split; [discriminate | reflexivity].
Qed.

Lemma release_year_bounds_witness :
  1950 <= 1977 <= 2029
  /\ V4Temporal.era (V4.mkTrack "Zombie (1977)" "Fela Kuti" "" None) <> "unknown".
Proof.
  destruct (release_year_bounds (V4.mkTrack "Zombie (1977)" "Fela Kuti" "" None))
    as [H _].
  destruct (H 1977) as (Hb & _ & He); [vm_compute; reflexivity | ].
  split; assumption.
Defined.

Local Open Scope Q_scope.




Local Close Scope Q_scope.

(** ** The hybrid merge *)

(** X18. When the external result supplies tags, the merged tag list is
    the set union of the pattern tags and the external tags, without
    repetition: no pattern tag is lost and nothing else is added. This
    holds for cultural and for aesthetic tags; without external tags the
    pattern tags are kept as they are. *)
Theorem hybrid_merge_unions_tags :
  forall (track : V4.Track) (l : V4.LlmResult),
    V4.llm_truthy l = true ->
    let p := V4.classify_track track None in
    let r := V4.classify_track track (Some l) in
    (forall extra, V4.llm_cultural_tags l = Some extra ->
       NoDup (V4.r_cultural_tags r)
       /\ forall tag, In tag (V4.r_cultural_tags r) <->
                      In tag (V4.r_cultural_tags p) \/ In tag extra)
    /\ (forall extra, V4.llm_aesthetic_tags l = Some extra ->
          NoDup (V4.r_aesthetic_tags r)
          /\ forall tag, In tag (V4.r_aesthetic_tags r) <->
                         In tag (V4.r_aesthetic_tags p) \/ In tag extra)
    /\ (V4.llm_cultural_tags l = None ->
        V4.r_cultural_tags r = V4.r_cultural_tags p)
    /\ (V4.llm_aesthetic_tags l = None ->
        V4.r_aesthetic_tags r = V4.r_aesthetic_tags p).
Proof.
  intros track l Hl p r. unfold r, p, V4.classify_track. rewrite Hl.
  cbn [V4.merge_llm V4.r_cultural_tags V4.r_aesthetic_tags].
  split; [ | split; [ | split]].
  - intros extra H. rewrite H. cbn [V4.merge_tags]. unfold V4.union_tags.
    split; [apply NoDup_nodup | ].
    intros tag. rewrite nodup_In, in_app_iff. tauto.
  - intros extra H. rewrite H. cbn [V4.merge_tags]. unfold V4.union_tags.
    split; [apply NoDup_nodup | ].
    intros tag. rewrite nodup_In, in_app_iff. tauto.
  - intros H. rewrite H. reflexivity.
  - intros H. rewrite H. reflexivity.
Qed.

Lemma hybrid_merge_unions_tags_witness :
  NoDup (V4.r_cultural_tags
           (V4.classify_track
              (V4.mkTrack "Freedom Fight" "Unknown Singer" "" (Some 500))
              (Some (V4.mkLlmResult (Some 1) None None None None
                                    (Some ["protest"; "revolution"]) None None)))).
Proof.
  destruct (hybrid_merge_unions_tags
              (V4.mkTrack "Freedom Fight" "Unknown Singer" "" (Some 500))
              (V4.mkLlmResult (Some 1) None None None None
                              (Some ["protest"; "revolution"]) None None))
    as [H _]; [vm_compute; reflexivity | ].
  destruct (H ["protest"; "revolution"]) as [Hnd _]; [reflexivity | ].
  exact Hnd.
Defined.

(** X19. An external result that is an empty dictionary is ignored: the
    record is the pattern record. A non-empty one marks the record
    "hybrid" and can replace tier, canon level, sub-scores and tags, but
    content type, view count, view percentile, the accessibility scores
    and both overall scores always stay those of the pattern
    classification, whatever tier the external result names. *)
Theorem hybrid_merge_untouched_fields :
  forall (track : V4.Track) (l : V4.LlmResult),
    let p := V4.classify_track track None in
    let r := V4.classify_track track (Some l) in
    (V4.llm_truthy l = false -> r = p)
    /\ (V4.llm_truthy l = true ->
        V4.r_classified_by r = "hybrid"
        /\ V4.r_classified_by p = "pattern"
        /\ V4.r_content_type r = V4.r_content_type p
        /\ V4.r_view_count r = V4.r_view_count p
        /\ V4.r_view_percentile r = V4.r_view_percentile p
        /\ V4.r_accessibility r = V4.r_accessibility p
        /\ V4.cultural_overall (V4.r_cultural r)
           = V4.cultural_overall (V4.r_cultural p)
        /\ V4.aesthetic_overall (V4.r_aesthetic r)
           = V4.aesthetic_overall (V4.r_aesthetic p)).
Proof.
  intros track l p r. unfold r, p, V4.classify_track.
  split; intros Hl; rewrite Hl; [reflexivity | ].
  pose proof (merge_llm_keeps_overall
                (V4.pattern_result (V4.classify_with_patterns track)) l)
    as [Hc Ha].
  repeat split; try assumption.
  unfold V4.classify_with_patterns. cbv zeta.
  destruct (V4.known_artist_tier _ _) as [tier [cr inf]].
  destruct (V4.lookup _ V4.CULTURAL_ICONS); reflexivity.
Qed.

Lemma hybrid_merge_untouched_fields_witness :
  V4.classify_track (V4.mkTrack "My Song" "Unknown Singer" "" (Some 500))
    (Some (V4.mkLlmResult None None None None None None None None))
  = V4.classify_track (V4.mkTrack "My Song" "Unknown Singer" "" (Some 500)) None.
Proof.
  apply (hybrid_merge_untouched_fields
           (V4.mkTrack "My Song" "Unknown Singer" "" (Some 500))
           (V4.mkLlmResult None None None None None None None None)).
  reflexivity.
Defined.

(** ** The percentile pass, again *)

Lemma get_percentile_perm (l l' : list Z) (v : Z) :
  Permutation l l' -> V4.get_percentile l v = V4.get_percentile l' v.
Proof.
  intros H. unfold V4.get_percentile.
  destruct l as [ | x l]; destruct l' as [ | x' l'].
  - reflexivity.
  - apply Permutation_nil in H. discriminate.
  - apply Permutation_sym, Permutation_nil in H. discriminate.
  - now rewrite (count_le_perm _ _ v H), (Permutation_length H).
Qed.

Lemma calculate_view_percentiles_views (tracks : list V4.Result) :
  map V4.r_view_count (V4.calculate_view_percentiles tracks)
  = map V4.r_view_count tracks.
Proof.
  unfold V4.calculate_view_percentiles. rewrite map_map.
  apply map_ext. reflexivity.
Qed.

(** X20. The percentile pass changes nothing but view_percentile, keeps
    the batch size and order, and is idempotent: running it again on its
    own output gives the same output. *)
Theorem calculate_view_percentiles_idempotent :
  forall tracks : list V4.Result,
    let out := V4.calculate_view_percentiles tracks in
    V4.calculate_view_percentiles out = out
    /\ List.length out = List.length tracks
    /\ Forall2 (fun t t' => t' = V4.set_view_percentile t (V4.r_view_percentile t'))
               tracks out.
Proof.
  intros tracks out. split; [ | split].
  - pose proof (calculate_view_percentiles_views tracks) as Hv. fold out in Hv.
    unfold V4.calculate_view_percentiles at 1. rewrite Hv.
    unfold out, V4.calculate_view_percentiles. rewrite map_map.
    apply map_ext. intros t.
    cbn [V4.set_view_percentile V4.r_view_count V4.r_view_percentile
         V4.r_tier V4.r_canon_level V4.r_content_type V4.r_cultural
         V4.r_aesthetic V4.r_accessibility V4.r_cultural_tags
         V4.r_aesthetic_tags V4.r_classified_by V4.r_is_echo].
    reflexivity.
  - unfold out, V4.calculate_view_percentiles. apply length_map.
  - unfold out, V4.calculate_view_percentiles.
    apply Forall2_map_r. intros t.
    cbn [V4.set_view_percentile V4.r_view_count V4.r_view_percentile
         V4.r_tier V4.r_canon_level V4.r_content_type V4.r_cultural
         V4.r_aesthetic V4.r_accessibility V4.r_cultural_tags
         V4.r_aesthetic_tags V4.r_classified_by V4.r_is_echo].
    reflexivity.
Qed.

(** X21. The percentile of a track does not depend on the order of the
    batch: reordering the batch reorders the output in the same way. *)
Theorem calculate_view_percentiles_order_independent :
  forall tracks tracks' : list V4.Result,
    Permutation tracks tracks' ->
    Permutation (V4.calculate_view_percentiles tracks)
                (V4.calculate_view_percentiles tracks')
    /\ forall t, In t (V4.calculate_view_percentiles tracks) <->
                 In t (V4.calculate_view_percentiles tracks').
Proof.
  intros tracks tracks' Hperm.
  assert (Hp : Permutation (V4.calculate_view_percentiles tracks)
                           (V4.calculate_view_percentiles tracks')).
  { unfold V4.calculate_view_percentiles.
    assert (Hs : Permutation (V4.sorted (map V4.r_view_count tracks))
                             (V4.sorted (map V4.r_view_count tracks'))).
    { rewrite !sorted_perm. now apply Permutation_map. }
    rewrite (map_ext _ (fun t => V4.set_view_percentile t
               (V4.round2 (V4.get_percentile
                             (V4.sorted (map V4.r_view_count tracks'))
                             (V4.r_view_count t))))).
    - now apply Permutation_map.
    - intros t. now rewrite (get_percentile_perm _ _ _ Hs). }
  split; [exact Hp | ].
  intros t. split; apply Permutation_in;
    [exact Hp | exact (Permutation_sym Hp)].
Qed.

Lemma calculate_view_percentiles_order_independent_witness :
  Permutation (V4.calculate_view_percentiles (batch_of [3; 1; 7]))
              (V4.calculate_view_percentiles (batch_of [7; 1; 3])).
Proof.
  apply (calculate_view_percentiles_order_independent
           (batch_of [3; 1; 7]) (batch_of [7; 1; 3])).
  unfold batch_of. apply Permutation_map.
  apply Permutation_trans with [1; 3; 7].
  - apply perm_swap.
  - apply Permutation_trans with [1; 7; 3].
    + apply perm_skip, perm_swap.
    + apply Permutation_trans with [7; 1; 3]; [apply perm_swap | reflexivity].
Defined.

(** ** The batch loop of run_pipeline *)

Lemma classify_enumerated_no_llm (i : Z) (tracks : list V4.Track) :
  V4Pipeline.classify_enumerated [] i tracks = map classify_pattern_only tracks.
Proof.
  revert i; induction tracks as [ | t tracks IH]; intros i; simpl;
    [reflexivity | now rewrite IH].
Qed.

Lemma batch_size_bounds (total offset : Z) :
  offset < total ->
  1 <= Z.min V4Pipeline.BATCH_SIZE (total - offset) <= 100
  /\ Z.min V4Pipeline.BATCH_SIZE (total - offset) <= total - offset.
Proof. unfold V4Pipeline.BATCH_SIZE. lia. Qed.

Lemma run_batches_ends fetch llm (use_llm : bool) (total : Z) (n : nat) :
  forall offset,
    (Z.to_nat (total - offset) <= n)%nat ->
    exists results,
      forall fuel, (n < fuel)%nat ->
        V4Pipeline.run_batches fetch llm use_llm fuel total offset = Some results.
Proof.
  induction n as [ | n IH]; intros offset Hn.
  - exists []. intros [ | fuel] Hf; [lia | ]. cbn [V4Pipeline.run_batches].
    destruct (Z.ltb_spec offset total); [lia | reflexivity].
  - destruct (Z.ltb_spec offset total) as [Hlt | Hge].
    + pose proof (batch_size_bounds total offset Hlt) as [Hb1 Hb2].
      destruct (fetch offset (Z.min V4Pipeline.BATCH_SIZE (total - offset)))
        as [ | t l] eqn:E.
      * exists []. intros [ | fuel] Hf; [lia | ]. cbn [V4Pipeline.run_batches].
        destruct (Z.ltb_spec offset total); [ | lia]. now rewrite E.
      * destruct (IH (offset + Z.min V4Pipeline.BATCH_SIZE (total - offset)))
          as [rest Hrest]; [lia | ].
        exists (V4Pipeline.classify_batch llm use_llm (t :: l) ++ rest)%list.
        intros [ | fuel] Hf; [lia | ]. cbn [V4Pipeline.run_batches].
        destruct (Z.ltb_spec offset total); [ | lia].
        cbv zeta. rewrite E, Hrest; [reflexivity | lia].
    + exists []. intros [ | fuel] Hf; [lia | ]. cbn [V4Pipeline.run_batches].
      destruct (Z.ltb_spec offset total); [lia | reflexivity].
Qed.

(** X22. The batch loop of run_pipeline always ends, whatever the store
    and the external classifier answer: every request asks for between 1
    and 100 tracks and moves the offset forward, so more than [total]
    iterations are never needed and any larger bound gives the same
    results. *)
Theorem run_pipeline_terminates :
  forall (fetch : Z -> Z -> list V4.Track)
         (llm : list V4.Track -> list V4.LlmResult)
         (use_llm api_key_set : bool) (sample_size : option Z) (count : Z),
  exists results,
    forall fuel,
      (Z.to_nat (V4Pipeline.effective_total sample_size count) < fuel)%nat ->
      V4Pipeline.run_pipeline fetch llm fuel use_llm api_key_set sample_size count
      = Some results.
Proof.
  intros fetch llm use_llm api sample count.
  set (total := V4Pipeline.effective_total sample count).
  destruct (run_batches_ends fetch llm (use_llm && api)%bool total
              (Z.to_nat total) 0) as [all Hall].
  { replace (total - 0) with total by lia. lia. }
  exists (V4.calculate_view_percentiles all). intros fuel Hf.
  unfold V4Pipeline.run_pipeline. fold total. now rewrite (Hall fuel Hf).
Qed.

Lemma run_pipeline_terminates_witness :
  exists results,
    V4Pipeline.run_pipeline
      (fun _ _ => [V4.mkTrack "My Song" "Unknown Singer" "" (Some 500)])
      (fun _ => []) 3 true true (Some 2) 250
    = Some results.
Proof.
  destruct (run_pipeline_terminates
              (fun _ _ => [V4.mkTrack "My Song" "Unknown Singer" "" (Some 500)])
              (fun _ => []) true true (Some 2) 250) as [results H].
  exists results. apply H. vm_compute. lia.
Defined.

Lemma firstn_add {A} (a b : nat) (l : list A) :
  firstn (a + b) l = (firstn a l ++ firstn b (skipn a l))%list.
Proof.
  revert l; induction a as [ | a IH]; intros [ | x l]; simpl;
    try reflexivity.
  - now rewrite firstn_nil.
  - now rewrite IH.
Qed.

Lemma run_batches_on_a_table (db : list V4.Track) llm (total : Z) (fuel : nat) :
  forall offset,
    0 <= offset ->
    (Z.to_nat (total - offset) < fuel)%nat ->
    V4Pipeline.run_batches (slice db) llm false fuel total offset
    = Some (map classify_pattern_only
                (firstn (Z.to_nat (total - offset)) (skipn (Z.to_nat offset) db))).
Proof.
  induction fuel as [ | fuel IH]; intros offset Hoff Hf; [lia | ].
  cbn [V4Pipeline.run_batches].
  destruct (Z.ltb_spec offset total) as [Hlt | Hge].
  - pose proof (batch_size_bounds total offset Hlt) as [Hb1 Hb2].
    cbv zeta.
    set (bs := Z.min V4Pipeline.BATCH_SIZE (total - offset)) in *.
    set (L := skipn (Z.to_nat offset) db).
    assert (Hsplit : firstn (Z.to_nat (total - offset)) L
                     = (firstn (Z.to_nat bs) L
                        ++ firstn (Z.to_nat (total - (offset + bs)))
                                  (skipn (Z.to_nat (offset + bs)) db))%list).
    { replace (Z.to_nat (total - offset))
        with (Z.to_nat bs + Z.to_nat (total - (offset + bs)))%nat by lia.
      rewrite firstn_add. unfold L. rewrite skipn_skipn.
      replace (Z.to_nat bs + Z.to_nat offset)%nat
        with (Z.to_nat (offset + bs)) by lia.
      reflexivity. }
    unfold slice at 1 2. fold L.
    destruct (firstn (Z.to_nat bs) L) as [ | t l] eqn:E.
    + rewrite Hsplit. cbn [app].
      assert (HL : L = []).
      { destruct L as [ | x L']; [reflexivity | ].
        destruct (Z.to_nat bs) eqn:Eb; [lia | discriminate E]. }
      assert (Hskip : skipn (Z.to_nat (offset + bs)) db = []).
      { replace (Z.to_nat (offset + bs))
          with (Z.to_nat bs + Z.to_nat offset)%nat by lia.
        rewrite <- skipn_skipn. fold L. rewrite HL. apply skipn_nil. }
      rewrite Hskip, firstn_nil. reflexivity.
    + rewrite IH by lia. rewrite Hsplit, map_app.
      unfold V4Pipeline.classify_batch. rewrite classify_enumerated_no_llm.
      reflexivity.
  - replace (Z.to_nat (total - offset)) with 0%nat by lia. reflexivity.
Qed.

(** X23. With the external classifier off (or its key missing) and a
    store that answers every request with the requested slice of a fixed
    table, run_pipeline returns the pattern classification of the first
    [total] tracks of the table, each exactly once and in table order,
    with the percentiles of that batch; [total] is the reported count,
    capped by a non-zero sample size. *)
Theorem run_pipeline_on_a_table :
  forall (db : list V4.Track) (llm : list V4.Track -> list V4.LlmResult)
         (fuel : nat) (use_llm api_key_set : bool)
         (sample_size : option Z) (count : Z),
    (use_llm && api_key_set)%bool = false ->
    let total := V4Pipeline.effective_total sample_size count in
    (Z.to_nat total < fuel)%nat ->
    V4Pipeline.run_pipeline (slice db) llm fuel use_llm api_key_set
                            sample_size count
    = Some (V4.calculate_view_percentiles
              (map classify_pattern_only (firstn (Z.to_nat total) db))).
Proof.
  intros db llm fuel use_llm api sample count Hoff total Hf.
  unfold V4Pipeline.run_pipeline. fold total. rewrite Hoff.
  rewrite run_batches_on_a_table; [ | lia | now replace (total - 0) with total by lia].
  replace (total - 0) with total by lia. reflexivity.
Qed.

Lemma run_pipeline_on_a_table_witness :
  V4Pipeline.run_pipeline
    (slice [V4.mkTrack "Zombie" "Fela Kuti" "" (Some 2000000);
            V4.mkTrack "My Song" "Unknown Singer" "" (Some 500);
            V4.mkTrack "Last Last" "Burna Boy" "" (Some 150000000)])
    (fun _ => []) 3 true false (Some 2) 3
  = Some (V4.calculate_view_percentiles
            (map classify_pattern_only
                 [V4.mkTrack "Zombie" "Fela Kuti" "" (Some 2000000);
                  V4.mkTrack "My Song" "Unknown Singer" "" (Some 500)])).
Proof.
  apply (run_pipeline_on_a_table
           [V4.mkTrack "Zombie" "Fela Kuti" "" (Some 2000000);
            V4.mkTrack "My Song" "Unknown Singer" "" (Some 500);
            V4.mkTrack "Last Last" "Burna Boy" "" (Some 150000000)]
           (fun _ => []) 3 true false (Some 2) 3).
  - reflexivity.
  - vm_compute. lia.
Defined.

(** ** Dictionaries *)

Section DictFacts.

Context {K V : Type} (eqb : K -> K -> bool).
Hypothesis eqb_eq : forall a b, eqb a b = true <-> a = b.

Lemma eqb_refl_true (k : K) : eqb k k = true.
Proof. now apply eqb_eq. Qed.

Lemma eqb_neq_false (k k' : K) : k <> k' -> eqb k k' = false.
Proof.
  intros H. destruct (eqb k k') eqn:E; [ | reflexivity].
  apply eqb_eq in E. contradiction.
Qed.

Lemma dict_get_set_same (k : K) (v : V) (d : list (K * V)) :
  PyDict.get eqb k (PyDict.set eqb k v d) = Some v.
Proof.
  induction d as [ | [k' v'] d IH]; simpl.
  - now rewrite eqb_refl_true.
  - destruct (eqb k k') eqn:E; simpl.
    + now rewrite eqb_refl_true.
    + now rewrite E.
Qed.

Lemma dict_get_set_other (k k' : K) (v : V) (d : list (K * V)) :
  k <> k' -> PyDict.get eqb k (PyDict.set eqb k' v d) = PyDict.get eqb k d.
Proof.
  intros Hne. induction d as [ | [k0 v0] d IH]; simpl.
  - now rewrite (eqb_neq_false _ _ Hne).
  - destruct (eqb k' k0) eqn:E; simpl.
    + apply eqb_eq in E. subst k0.
      now rewrite (eqb_neq_false _ _ Hne).
    + destruct (eqb k k0); [reflexivity | exact IH].
Qed.

End DictFacts.

Lemma Z_eqb_iff (a b : Z) : (a =? b) = true <-> a = b.
Proof. apply Z.eqb_eq. Qed.

Lemma string_eqb_iff (a b : string) : String.eqb a b = true <-> a = b.
Proof. apply String.eqb_eq. Qed.

(** ** External results of a batch *)

Lemma find_app_last {A} (f : A -> bool) (l : list A) (x : A) :
  find f (l ++ [x]) =
  match find f l with
  | Some y => Some y
  | None => if f x then Some x else None
  end.
Proof.
  induction l as [ | y l IH]; simpl; [reflexivity | ].
  destruct (f y); [reflexivity | exact IH].
Qed.

Lemma llm_results_fold (n : Z) (llm_batch : list V4.LlmResult) :
  forall (d : list (Z * V4.LlmResult)) (i : Z),
    0 <= i < n ->
    PyDict.get Z.eqb i
      (fold_left
         (fun d lr =>
            let idx := V4.get_or (V4.llm_track_number lr) 0 - 1 in
            if ((0 <=? idx) && (idx <? n))%bool
            then PyDict.set Z.eqb idx lr d
            else d)
         llm_batch d)
    = match last_for_index i llm_batch with
      | Some lr => Some lr
      | None => PyDict.get Z.eqb i d
      end.
Proof.
  unfold last_for_index.
  induction llm_batch as [ | lr rest IH]; intros d i Hi; [reflexivity | ].
  cbn [fold_left rev]. rewrite IH by assumption. rewrite find_app_last.
  destruct (find _ (rev rest)); [reflexivity | ].
  cbv zeta.
  destruct (Z.eqb_spec (V4.get_or (V4.llm_track_number lr) 0 - 1) i) as [-> | Hne].
  - replace ((0 <=? i) && (i <? n))%bool with true
      by (symmetry; apply andb_true_iff; split;
          [apply Z.leb_le | apply Z.ltb_lt]; lia).
    apply (dict_get_set_same Z.eqb Z_eqb_iff).
  - destruct ((0 <=? _) && (_ <? n))%bool; [ | reflexivity].
    apply (dict_get_set_other Z.eqb Z_eqb_iff). congruence.
Qed.

Lemma llm_results_for_get (tracks : list V4.Track)
    (llm_batch : list V4.LlmResult) (i : Z) :
  0 <= i < Z.of_nat (List.length tracks) ->
  PyDict.get Z.eqb i (V4Pipeline.llm_results_for tracks llm_batch)
  = last_for_index i llm_batch.
Proof.
  intros Hi. unfold V4Pipeline.llm_results_for.
  pose proof (llm_results_fold _ llm_batch [] i Hi) as H.
  cbv zeta in H. rewrite H.
  now destruct (last_for_index i llm_batch).
Qed.

Lemma classify_enumerated_nth d (tracks : list V4.Track) :
  forall (k : Z) (i : nat) (track : V4.Track),
    nth_error tracks i = Some track ->
    nth_error (V4Pipeline.classify_enumerated d k tracks) i
    = Some (V4.classify_track track (PyDict.get Z.eqb (k + Z.of_nat i) d)).
Proof.
  induction tracks as [ | t tracks IH]; intros k [ | i] track H;
    try discriminate.
  - injection H as ->. cbn. now replace (k + 0) with k by lia.
  - cbn [V4Pipeline.classify_enumerated nth_error].
    rewrite (IH (k + 1) i track H). do 2 f_equal. f_equal. lia.
Qed.

Lemma pattern_result_classified_by (track : V4.Track) :
  V4.r_classified_by (V4.classify_track track None) = "pattern".
Proof.
  unfold V4.classify_track, V4.classify_with_patterns. cbv zeta.
  destruct (V4.known_artist_tier _ _) as [tier [cr inf]].
  destruct (V4.lookup _ V4.CULTURAL_ICONS); reflexivity.
Qed.

(** X24. Within a batch the track at position i is merged with the last
    external result whose track_number is i + 1; results without a track
    number or with a number outside 1..len(batch) are dropped. A track is
    marked "hybrid" exactly when such a result exists, otherwise it stays
    a pattern classification. *)
Theorem batch_llm_results_by_track_number :
  forall (tracks : list V4.Track) (llm_batch : list V4.LlmResult)
         (i : nat) (track : V4.Track),
    nth_error tracks i = Some track ->
    let results :=
      V4Pipeline.classify_enumerated
        (V4Pipeline.llm_results_for tracks llm_batch) 0 tracks in
    nth_error results i
    = Some (V4.classify_track track (last_for_index (Z.of_nat i) llm_batch))
    /\ ((exists lr, In lr llm_batch
                    /\ V4.llm_track_number lr = Some (Z.of_nat i + 1))
        -> exists r, nth_error results i = Some r
                     /\ V4.r_classified_by r = "hybrid")
    /\ ((forall lr, In lr llm_batch ->
                    V4.llm_track_number lr <> Some (Z.of_nat i + 1))
        -> nth_error results i = Some (V4.classify_track track None)).
Proof.
  intros tracks llm_batch i track Hnth results.
  assert (Hi : 0 <= Z.of_nat i < Z.of_nat (List.length tracks)).
  { split; [lia | ]. apply inj_lt. apply nth_error_Some. congruence. }
  assert (Hres : nth_error results i
                 = Some (V4.classify_track track
                           (last_for_index (Z.of_nat i) llm_batch))).
  { unfold results. rewrite (classify_enumerated_nth _ _ 0 i track Hnth).
    cbn [Z.add]. now rewrite llm_results_for_get. }
  split; [exact Hres | ]. split.
  - intros [lr [Hin Htn]].
    destruct (last_for_index (Z.of_nat i) llm_batch) as [lr' | ] eqn:E.
    + unfold last_for_index in E. apply find_some in E.
      destruct E as [_ Hidx]. apply Z.eqb_eq in Hidx.
      exists (V4.classify_track track (Some lr')). split; [exact Hres | ].
      assert (Htruthy : V4.llm_truthy lr' = true).
      { unfold V4.llm_truthy.
        destruct (V4.llm_track_number lr') as [n | ]; [reflexivity | ].
        cbn in Hidx. lia. }
      unfold V4.classify_track. now rewrite Htruthy.
    + exfalso. unfold last_for_index in E.
      apply in_rev in Hin.
      pose proof (find_none _ _ E lr Hin) as Hf. cbv beta in Hf.
      rewrite Htn in Hf. cbn [V4.get_or] in Hf.
      apply Z.eqb_neq in Hf. lia.
  - intros Hnone.
    destruct (last_for_index (Z.of_nat i) llm_batch) as [lr' | ] eqn:E;
      [ | exact Hres].
    exfalso. unfold last_for_index in E. apply find_some in E.
    destruct E as [Hin Hidx]. apply in_rev in Hin. apply Z.eqb_eq in Hidx.
    apply (Hnone lr' Hin).
    destruct (V4.llm_track_number lr') as [n | ]; cbn in Hidx;
      [f_equal; lia | lia].
Qed.

Lemma batch_llm_results_by_track_number_witness :
  exists r,
    nth_error
      (V4Pipeline.classify_enumerated
         (V4Pipeline.llm_results_for
            [V4.mkTrack "Zombie" "Fela Kuti" "" (Some 2000000);
             V4.mkTrack "My Song" "Unknown Singer" "" (Some 500)]
            [V4.mkLlmResult (Some 2) (Some "C") (Some "ARCHIVE")
                            None None None None None;
             V4.mkLlmResult (Some 7) (Some "A") (Some "CORE")
                            None None None None None])
         0
         [V4.mkTrack "Zombie" "Fela Kuti" "" (Some 2000000);
          V4.mkTrack "My Song" "Unknown Singer" "" (Some 500)])
      1
    = Some r /\ V4.r_classified_by r = "hybrid".
Proof.
  apply (batch_llm_results_by_track_number
           [V4.mkTrack "Zombie" "Fela Kuti" "" (Some 2000000);
            V4.mkTrack "My Song" "Unknown Singer" "" (Some 500)]
           [V4.mkLlmResult (Some 2) (Some "C") (Some "ARCHIVE")
                           None None None None None;
            V4.mkLlmResult (Some 7) (Some "A") (Some "CORE")
                           None None None None None]
           1%nat (V4.mkTrack "My Song" "Unknown Singer" "" (Some 500))).
  - reflexivity.
  - eexists. split; [left; reflexivity | reflexivity].
Defined.

(** ** Histograms *)

Lemma count_of_incr_same (k : string) (d : list (string * Z)) :
  PyDict.count_of k (PyDict.incr k d) = PyDict.count_of k d + 1.
Proof.
  unfold PyDict.count_of, PyDict.incr.
  now rewrite (dict_get_set_same String.eqb string_eqb_iff).
Qed.

Lemma count_of_incr_other (k k' : string) (d : list (string * Z)) :
  k <> k' -> PyDict.count_of k (PyDict.incr k' d) = PyDict.count_of k d.
Proof.
  intros H. unfold PyDict.count_of, PyDict.incr.
  now rewrite (dict_get_set_other String.eqb string_eqb_iff).
Qed.

Lemma sum_values_set (k : string) (v : Z) (d : list (string * Z)) :
  sum_values (PyDict.set String.eqb k v d)
  = sum_values d - PyDict.count_of k d + v.
Proof.
  unfold PyDict.count_of.
  induction d as [ | [k' v'] d IH]; simpl; [lia | ].
  destruct (String.eqb k k'); simpl; [lia | ]. rewrite IH. lia.
Qed.

Lemma sum_values_incr (k : string) (d : list (string * Z)) :
  sum_values (PyDict.incr k d) = sum_values d + 1.
Proof.
  unfold PyDict.incr. rewrite sum_values_set.
  unfold PyDict.count_of. lia.
Qed.

Lemma keys_set (k : string) (v : Z) (d : list (string * Z)) :
  map fst (PyDict.set String.eqb k v d)
  = if mem k (map fst d) then map fst d else (map fst d ++ [k])%list.
Proof.
  induction d as [ | [k' v'] d IH]; simpl; [reflexivity | ].
  destruct (String.eqb_spec k k') as [-> | Hne]; simpl; [reflexivity | ].
  rewrite IH. unfold mem. destruct (existsb (String.eqb k) (map fst d));
    reflexivity.
Qed.

Lemma keys_incr_NoDup (k : string) (d : list (string * Z)) :
  NoDup (map fst d) -> NoDup (map fst (PyDict.incr k d)).
Proof.
  intros Hnd. unfold PyDict.incr. rewrite keys_set.
  destruct (mem k (map fst d)) eqn:E; [exact Hnd | ].
  apply NoDup_app; [exact Hnd | repeat constructor; intros [] | ].
  intros x Hx [<- | []].
  apply mem_iff in Hx. congruence.
Qed.

Lemma histogram_fold (key : V4.Result -> string) (results : list V4.Result) :
  forall d,
    (forall k, PyDict.count_of k
                 (fold_left (fun d r => PyDict.incr (key r) d) results d)
               = PyDict.count_of k d + occurrences key k results)
    /\ sum_values (fold_left (fun d r => PyDict.incr (key r) d) results d)
       = sum_values d + Z.of_nat (List.length results)
    /\ (NoDup (map fst d) ->
        NoDup (map fst (fold_left (fun d r => PyDict.incr (key r) d) results d))).
Proof.
  unfold occurrences.
  induction results as [ | r results IH]; intros d; cbn [fold_left].
  - repeat split; cbn; try lia; auto.
  - destruct (IH (PyDict.incr (key r) d)) as (Hc & Hs & Hn).
    repeat split.
    + intros k. rewrite Hc. cbn [filter].
      destruct (String.eqb_spec (key r) k) as [-> | Hne].
      * rewrite count_of_incr_same. cbn [List.length]. lia.
      * rewrite count_of_incr_other by congruence. lia.
    + rewrite Hs, sum_values_incr. cbn [List.length]. lia.
    + intros Hnd. apply Hn. now apply keys_incr_NoDup.
Qed.

(** X25. Every histogram of the statistics block (by tier, by canon
    level, by content type) counts each result exactly once: the counter
    of a key is the number of results with that key, a key that never
    occurs reads 0, keys are not repeated, and the counters add up to the
    number of results. *)
Theorem histogram_counts :
  forall (key : V4.Result -> string) (results : list V4.Result),
    let h := V4Pipeline.histogram key results in
    (forall k, PyDict.count_of k h = occurrences key k results)
    /\ sum_values h = Z.of_nat (List.length results)
    /\ NoDup (map fst h)
    /\ (forall k, In k (map fst h) <-> exists r, In r results /\ key r = k).
Proof.
  intros key results h. unfold h, V4Pipeline.histogram.
  destruct (histogram_fold key results []) as (Hc & Hs & Hn).
  assert (Hcount : forall k,
             PyDict.count_of k (fold_left (fun d r => PyDict.incr (key r) d) results [])
             = occurrences key k results).
  { intros k. rewrite Hc. reflexivity. }
  split; [exact Hcount | ]. split; [rewrite Hs; reflexivity | ].
  split; [apply Hn; constructor | ].
  intros k. split.
  - intros Hin.
    assert (Hkeys : forall (rs : list V4.Result) d,
               In k (map fst (fold_left (fun d r => PyDict.incr (key r) d) rs d)) ->
               In k (map fst d) \/ exists r, In r rs /\ key r = k).
    { induction rs as [ | r rs IHrs]; intros d Hk; cbn [fold_left] in Hk;
        [now left | ].
      destruct (IHrs _ Hk) as [Hd | [r' [Hr' Hkr]]].
      - unfold PyDict.incr in Hd. rewrite keys_set in Hd.
        destruct (mem (key r) (map fst d)); [now left | ].
        apply in_app_iff in Hd. destruct Hd as [Hd | [<- | []]]; [now left | ].
        right. exists r. split; [now left | reflexivity].
      - right. exists r'. split; [now right | assumption]. }
    destruct (Hkeys results [] Hin) as [[] | H]. exact H.
  - intros [r [Hr Hk]].
    assert (Hpos : 0 < occurrences key k results).
    { unfold occurrences.
      assert (Hf : In r (filter (fun r => String.eqb (key r) k) results)).
      { apply filter_In. split; [assumption | ]. rewrite Hk. apply String.eqb_refl. }
      destruct (filter _ results); [destruct Hf | cbn; lia]. }
    rewrite <- Hcount in Hpos. unfold PyDict.count_of in Hpos.
    destruct (PyDict.get String.eqb k _) as [n | ] eqn:E; [ | lia].
    clear - E. revert E.
    generalize (fold_left (fun d r => PyDict.incr (key r) d) results []).
    intros d. induction d as [ | [k' v'] d IH]; simpl; [discriminate | ].
    destruct (String.eqb_spec k k') as [-> | Hne]; [now left | ].
    intros E. right. now apply IH.
Qed.

(** ** The legacy fetch loop and statistics *)

Lemma fetch_all_from_on_a_table (db : list V1.Track) (fuel : nat) :
  forall offset,
    0 <= offset ->
    (List.length (skipn (Z.to_nat offset) db) + 1000 <= 1000 * fuel)%nat ->
    V1Run.fetch_all_from (fun o n => Some (slice db o n)) fuel offset
    = Some (skipn (Z.to_nat offset) db).
Proof.
  induction fuel as [ | fuel IH]; intros offset Hoff Hf; [lia | ].
  cbn [V1Run.fetch_all_from]. unfold slice.
  change (Z.to_nat 1000) with 1000%nat.
  set (L := skipn (Z.to_nat offset) db) in *.
  assert (Hnext : skipn (Z.to_nat (offset + 1000)) db = skipn 1000 L).
  { unfold L. rewrite skipn_skipn. f_equal. lia. }
  destruct (firstn 1000 L) as [ | t l] eqn:E.
  - destruct L as [ | x L']; [reflexivity | discriminate E].
  - rewrite IH; [ | lia | ].
    + rewrite Hnext.
      rewrite <- E. now rewrite firstn_skipn.
    + rewrite Hnext, length_skipn.
      assert (Hpos : (0 < List.length L)%nat).
      { destruct L; [discriminate E | simpl; lia]. }
      lia.
Qed.

(** X26. fetch_all_tracks returns the whole table when the store answers
    every request with the requested slice: it asks for 1000 tracks at a
    time and needs one more request than there are non-empty batches. A
    request that raises ends the loop and keeps what was fetched so far:
    nothing if it is the first request, the first batch if it is the
    second. *)
Theorem fetch_all_tracks_on_a_table :
  (forall (db : list V1.Track) (fuel : nat),
      (List.length db + 1000 <= 1000 * fuel)%nat ->
      V1Run.fetch_all_tracks (fun o n => Some (slice db o n)) fuel = Some db)
  /\ (forall fetch fuel,
        fetch 0 1000 = None ->
        V1Run.fetch_all_tracks fetch (S fuel) = Some [])
  /\ (forall fetch fuel t batch,
        fetch 0 1000 = Some (t :: batch) ->
        fetch 1000 1000 = None ->
        V1Run.fetch_all_tracks fetch (S (S fuel)) = Some (t :: batch)).
Proof.
  split; [ | split].
  - intros db fuel Hf. unfold V1Run.fetch_all_tracks.
    rewrite fetch_all_from_on_a_table; [reflexivity | lia | exact Hf].
  - intros fetch fuel H. unfold V1Run.fetch_all_tracks. cbn. now rewrite H.
  - intros fetch fuel t batch H0 H1. unfold V1Run.fetch_all_tracks.
    cbn. rewrite H0, H1. now rewrite app_nil_r.
Qed.

Lemma fetch_all_tracks_on_a_table_witness :
  V1Run.fetch_all_tracks
    (fun o n => Some (slice [V1.mkTrack "a1" (Some "Zombie") (Some "Fela Kuti");
                             V1.mkTrack "b2" None (Some "Unknown Singer")] o n))
    2
  = Some [V1.mkTrack "a1" (Some "Zombie") (Some "Fela Kuti");
          V1.mkTrack "b2" None (Some "Unknown Singer")].
Proof.
  apply (proj1 fetch_all_tracks_on_a_table
           [V1.mkTrack "a1" (Some "Zombie") (Some "Fela Kuti");
            V1.mkTrack "b2" None (Some "Unknown Singer")] 2%nat).
  vm_compute. lia.
Defined.

Lemma legacy_classify_cases (track : V1.Track) :
  let c := V1.classify_track track in
  (V1.c_artist_tier c = "A" /\ V1.c_canon_level c = "ESSENTIAL")
  \/ (V1.c_artist_tier c = "D" /\ V1.c_canon_level c = "ECHO").
Proof.
  cbn. unfold V1.get_artist_tier. rewrite legacy_tier_is_A_or_D.
  destruct (existsb _ V1.TIER_A_ARTISTS).
  - left. now rewrite legacy_canon_level_tier_A.
  - right. now rewrite legacy_canon_level_tier_D.
Qed.

Lemma legacy_tags_at_most_five (track : V1.Track) :
  (List.length (V1.c_cultural_tags (V1.classify_track track)) <= 5)%nat.
Proof.
  unfold V1.classify_track. cbv zeta. cbn [V1.c_cultural_tags].
  unfold V1.detect_cultural_tags. cbv zeta. apply firstn_le_length.
Qed.

Lemma tags_fold_sum (tags : list string) :
  forall d, sum_values (fold_left (fun d tag => PyDict.incr tag d) tags d)
            = sum_values d + Z.of_nat (List.length tags).
Proof.
  induction tags as [ | t tags IH]; intros d; cbn [fold_left List.length];
    [lia | ].
  rewrite IH, sum_values_incr. lia.
Qed.

Lemma record_stats_counts (r : V1Run.Results) (c : V1.Classified) :
  V1Run.counts (V1Run.record_stats r c)
  = PyDict.incr (V1.c_canon_level c)
      (PyDict.incr (V1.c_artist_tier c) (V1Run.counts r)).
Proof. reflexivity. Qed.

Lemma record_stats_tags (r : V1Run.Results) (c : V1.Classified) :
  V1Run.tags (V1Run.record_stats r c)
  = fold_left (fun d tag => PyDict.incr tag d) (V1.c_cultural_tags c)
              (V1Run.tags r).
Proof. reflexivity. Qed.

Lemma record_stats_fold (cs : list V1.Classified) :
  forall r0 k,
    PyDict.count_of k (V1Run.counts (fold_left V1Run.record_stats cs r0))
    = PyDict.count_of k (V1Run.counts r0)
      + legacy_count (fun c => String.eqb (V1.c_artist_tier c) k) cs
      + legacy_count (fun c => String.eqb (V1.c_canon_level c) k) cs.
Proof.
  unfold legacy_count.
  induction cs as [ | c cs IH]; intros r0 k; cbn [fold_left filter List.length];
    [lia | ].
  rewrite IH, record_stats_counts.
  destruct (String.eqb_spec (V1.c_canon_level c) k) as [Hc | Hc];
    destruct (String.eqb_spec (V1.c_artist_tier c) k) as [Ht | Ht];
    cbn [List.length];
    repeat first [ rewrite Hc | rewrite Ht ];
    repeat first [ rewrite count_of_incr_same
                 | rewrite count_of_incr_other by congruence ];
    lia.
Qed.

Lemma record_stats_tags_fold (cs : list V1.Classified) :
  forall r0,
    (forall c, In c cs -> (List.length (V1.c_cultural_tags c) <= 5)%nat) ->
    sum_values (V1Run.tags (fold_left V1Run.record_stats cs r0))
    <= sum_values (V1Run.tags r0) + 5 * Z.of_nat (List.length cs).
Proof.
  induction cs as [ | c cs IH]; intros r0 Hcs; cbn [fold_left List.length];
    [lia | ].
  assert (H5 : (List.length (V1.c_cultural_tags c) <= 5)%nat)
    by (apply Hcs; now left).
  specialize (IH (V1Run.record_stats r0 c) (fun c' Hc' => Hcs c' (or_intror Hc'))).
  rewrite record_stats_tags, tags_fold_sum in IH. lia.
Qed.

(** X27. In the statistics of a legacy run the tier and canon-level
    counters coincide: the counters "A" and "ESSENTIAL" both hold the
    number of tier-A tracks, "D" and "ECHO" the number of tier-D tracks,
    and "B", "C", "CORE", "DEEP_CUT" and "ARCHIVE" stay 0; the tier
    counters add up to the number of tracks, and the tag counters to at
    most five per track. *)
Theorem legacy_statistics :
  forall tracks : list V1.Track,
    let classified := fst (V1Run.canonize tracks) in
    let counts := V1Run.counts (snd (V1Run.canonize tracks)) in
    let tier_is t := fun c => String.eqb (V1.c_artist_tier c) t in
    List.length classified = List.length tracks
    /\ PyDict.count_of "A" counts = legacy_count (tier_is "A") classified
    /\ PyDict.count_of "ESSENTIAL" counts = legacy_count (tier_is "A") classified
    /\ PyDict.count_of "D" counts = legacy_count (tier_is "D") classified
    /\ PyDict.count_of "ECHO" counts = legacy_count (tier_is "D") classified
    /\ (forall k, In k ["B"; "C"; "CORE"; "DEEP_CUT"; "ARCHIVE"] ->
                  PyDict.count_of k counts = 0)
    /\ PyDict.count_of "A" counts + PyDict.count_of "D" counts
       = Z.of_nat (List.length tracks)
    /\ sum_values (V1Run.tags (snd (V1Run.canonize tracks)))
       <= 5 * Z.of_nat (List.length tracks).
Proof.
  intros tracks classified counts tier_is.
  unfold counts, classified, V1Run.canonize. cbn [fst snd].
  set (cs := map V1.classify_track tracks).
  assert (Hcases : forall c, In c cs ->
             (V1.c_artist_tier c = "A" /\ V1.c_canon_level c = "ESSENTIAL")
             \/ (V1.c_artist_tier c = "D" /\ V1.c_canon_level c = "ECHO")).
  { intros c Hc. apply in_map_iff in Hc. destruct Hc as [t [<- _]].
    apply legacy_classify_cases. }
  assert (Hcount : forall (test1 test2 : V1.Classified -> bool),
             (forall c, In c cs -> test1 c = test2 c) ->
             legacy_count test1 cs = legacy_count test2 cs).
  { intros test1 test2. unfold legacy_count. clear Hcases.
    induction cs as [ | c l IHl]; intros H; [reflexivity | ].
    cbn [filter]. rewrite (H c (or_introl eq_refl)).
    assert (IH' := IHl (fun c' Hc' => H c' (or_intror Hc'))).
    destruct (test2 c); cbn [List.length]; lia. }
  assert (Hzero : forall test : V1.Classified -> bool,
             (forall c, In c cs -> test c = false) -> legacy_count test cs = 0).
  { intros test H. rewrite (Hcount test (fun _ => false) H).
    unfold legacy_count. clear. induction cs; [reflexivity | exact IHcs]. }
  assert (Hlen : List.length cs = List.length tracks) by apply length_map.
  assert (Hsplit : legacy_count (tier_is "A") cs + legacy_count (tier_is "D") cs
                   = Z.of_nat (List.length cs)).
  { unfold legacy_count, tier_is. clear Hcount Hzero Hlen.
    induction cs as [ | c l IHl]; [reflexivity | ].
    cbn [filter List.length].
    specialize (IHl (fun c' Hc' => Hcases c' (or_intror Hc'))).
    destruct (Hcases c (or_introl eq_refl)) as [[Ht _] | [Ht _]];
      rewrite Ht; cbn [String.eqb Ascii.eqb Bool.eqb List.length]; lia. }
  assert (Hget : forall k,
             PyDict.count_of k
               (V1Run.counts (fold_left V1Run.record_stats cs V1Run.initial_results))
             = PyDict.count_of k (V1Run.counts V1Run.initial_results)
               + legacy_count (fun c => String.eqb (V1.c_artist_tier c) k) cs
               + legacy_count (fun c => String.eqb (V1.c_canon_level c) k) cs)
    by (intros k; apply record_stats_fold).
  assert (Hinit : forall k,
             PyDict.count_of k (V1Run.counts V1Run.initial_results) = 0).
  { intros k. unfold PyDict.count_of. cbn.
    repeat match goal with
           | |- context [String.eqb k ?x] => destruct (String.eqb k x)
           end; reflexivity. }
  assert (Hcanon_not : forall k,
             k <> "ESSENTIAL" -> k <> "ECHO" ->
             legacy_count (fun c => String.eqb (V1.c_canon_level c) k) cs = 0).
  { intros k H1 H2. apply Hzero. intros c Hc.
    destruct (Hcases c Hc) as [[_ ->] | [_ ->]];
      apply String.eqb_neq; congruence. }
  assert (Htier_not : forall k,
             k <> "A" -> k <> "D" ->
             legacy_count (fun c => String.eqb (V1.c_artist_tier c) k) cs = 0).
  { intros k H1 H2. apply Hzero. intros c Hc.
    destruct (Hcases c Hc) as [[-> _] | [-> _]];
      apply String.eqb_neq; congruence. }
  assert (Hess : legacy_count (fun c => String.eqb (V1.c_canon_level c) "ESSENTIAL") cs
                 = legacy_count (tier_is "A") cs).
  { apply Hcount. intros c Hc. unfold tier_is.
    destruct (Hcases c Hc) as [[-> ->] | [-> ->]]; reflexivity. }
  assert (Hecho : legacy_count (fun c => String.eqb (V1.c_canon_level c) "ECHO") cs
                  = legacy_count (tier_is "D") cs).
  { apply Hcount. intros c Hc. unfold tier_is.
    destruct (Hcases c Hc) as [[-> ->] | [-> ->]]; reflexivity. }
  assert (HA : PyDict.count_of "A"
                 (V1Run.counts (fold_left V1Run.record_stats cs V1Run.initial_results))
               = legacy_count (tier_is "A") cs).
  { rewrite Hget, Hinit, Hcanon_not by discriminate. unfold tier_is. lia. }
  assert (HD : PyDict.count_of "D"
                 (V1Run.counts (fold_left V1Run.record_stats cs V1Run.initial_results))
               = legacy_count (tier_is "D") cs).
  { rewrite Hget, Hinit, Hcanon_not by discriminate. unfold tier_is. lia. }
  split; [exact Hlen | ]. split; [exact HA | ].
  split; [rewrite Hget, Hinit, Htier_not, Hess by discriminate; lia | ].
  split; [exact HD | ].
  split; [rewrite Hget, Hinit, Htier_not, Hecho by discriminate; lia | ].
  split.
  { intros k Hk. cbn in Hk.
    rewrite Hget, Hinit, Htier_not, Hcanon_not;
      try lia;
      destruct Hk as [<- | [<- | [<- | [<- | [<- | []]]]]]; discriminate. }
  split; [rewrite HA, HD, Hsplit, Hlen; reflexivity | ].
  rewrite <- Hlen.
  pose proof (record_stats_tags_fold cs V1Run.initial_results) as Htags.
  cbn [V1Run.tags V1Run.initial_results sum_values fold_right] in Htags.
  apply Htags. intros c Hc. apply in_map_iff in Hc. destruct Hc as [t [<- _]].
  apply legacy_tags_at_most_five.
Qed.

Lemma legacy_statistics_witness :
  PyDict.count_of "CORE"
    (V1Run.counts
       (snd (V1Run.canonize
               [V1.mkTrack "a1" (Some "Zombie") (Some "Fela Kuti");
                V1.mkTrack "b2" None (Some "Unknown Singer")]))) = 0.
Proof.
  apply (legacy_statistics
           [V1.mkTrack "a1" (Some "Zombie") (Some "Fela Kuti");
            V1.mkTrack "b2" None (Some "Unknown Singer")]).
  cbn. tauto.
Defined.
